(** * doped.plotting: formation-energy lines, y-axis limits and legend labels

    A shallow embedding of the computational core of [doped/plotting.py]:

    - [_get_legends_txt]            (legend label formatting and de-duplication),
    - [_get_formation_energy_lines] (all-states lines and stable envelopes),
    - [_get_ylim_from_y_range_vals] (y-axis limits),

    and of the functions that draw the figure, [formation_energy_plot],
    [_TLD_plot], [_get_plot_setup], [_plot_formation_energy_lines],
    [_add_band_edges_and_axis_limits], [_plot_chemical_potential_table],
    [_set_title_and_save_figure] and [_chempot_warning], with the calls made
    on Matplotlib recorded in the order made.

    Python values are modelled as the interpreter has them: a [float] is an
    IEEE-754 binary64 number (Rocq's primitive floats), an [int] is a [Z], a
    [str] is its sequence of Unicode code points, a [dict] is the list of its
    items in insertion order, and a call that can raise returns a [result]. *)

From Stdlib Require Import String Ascii DecimalString.
From Stdlib Require Import ZArith NArith List Bool Lia Floats.
Import ListNotations.

Set Warnings "-inexact-float".

(** ** Python preliminaries *)

(** The exceptions that the modelled code can raise. *)
Inductive exn : Type :=
| ValueError
| KeyError
| IndexError
| UnboundLocalError
| ZeroDivisionError
| TypeError
| AttributeError.

(** Outcome of a call: a value, a raised exception, or [OutOfFuel] when a
    bounded unrolling of a [while] loop was too short (shown not to happen). *)
Inductive result (A : Type) : Type :=
| Ok (a : A)
| Raise (e : exn)
| OutOfFuel.

Arguments Ok {A} a.
Arguments Raise {A} e.
Arguments OutOfFuel {A}.

Definition bind {A B : Type} (r : result A) (k : A -> result B) : result B :=
  match r with
  | Ok a => k a
  | Raise e => Raise e
  | OutOfFuel => OutOfFuel
  end.

(** What a call of an external function does: it returns or it raises. *)
Inductive call (A : Type) : Type :=
| Returns (a : A)
| Raises (e : exn).

Arguments Returns {A} a.
Arguments Raises {A} e.

Definition run {A : Type} (c : call A) : result A :=
  match c with
  | Returns a => Ok a
  | Raises e => Raise e
  end.

(** A [for] loop whose body can raise. *)
Fixpoint for_each {A S : Type} (body : S -> A -> result S) (l : list A) (s : S)
    : result S :=
  match l with
  | [] => Ok s
  | a :: t =>
      match body s a with
      | Ok s' => for_each body t s'
      | Raise e => Raise e
      | OutOfFuel => OutOfFuel
      end
  end.

Declare Scope py_scope.
Delimit Scope py_scope with py.
Notation "x <- r ;; k" := (bind r (fun x => k))
  (at level 61, r at next level, right associativity) : py_scope.
Open Scope py_scope.

(** A [str]: the sequence of its code points. *)
Definition pystr : Type := list N.

Definition py (s : string) : pystr :=
  map N_of_ascii (list_ascii_of_string s).

Fixpoint str_eqb (a b : pystr) : bool :=
  match a, b with
  | [], [] => true
  | x :: a', y :: b' => N.eqb x y && str_eqb a' b'
  | _, _ => false
  end.

(** [x in l] for a list of strings. *)
Definition str_in (x : pystr) (l : list pystr) : bool :=
  existsb (str_eqb x) l.

(** [a == b] and [x in l] for values that are a [str] or [None]. *)
Definition name_eqb (a b : option pystr) : bool :=
  match a, b with
  | Some x, Some y => str_eqb x y
  | None, None => true
  | _, _ => false
  end.

Definition name_in (x : option pystr) (l : list (option pystr)) : bool :=
  existsb (name_eqb x) l.

(** [chr(n)]: the one-character string of code point [n]; [ValueError]
    outside [range(0x110000)]. *)
Definition chr (n : Z) : result pystr :=
  if (0 <=? n)%Z && (n <? 1114112)%Z then Ok [Z.to_N n] else Raise ValueError.

(** [s[:-3]] and [s[-3:]]. *)
Definition slice_to_m3 (s : pystr) : pystr := firstn (length s - 3) s.
Definition slice_from_m3 (s : pystr) : pystr := skipn (length s - 3) s.

(** [s.rsplit(sep, 1)[0]] for a one-character separator: what stands before
    the last [sep], or all of [s] when [sep] does not occur. *)
Fixpoint rsplit1_head (sep : N) (s : pystr) : pystr :=
  match s with
  | [] => []
  | c :: t =>
      if existsb (N.eqb sep) t then c :: rsplit1_head sep t
      else if N.eqb c sep then [] else c :: t
  end.

(** [str(n)] for an [int]. *)
Definition str_of_int (n : Z) : pystr :=
  py (NilZero.string_of_int (Z.to_int n)).

(** [max(l)] and [min(l)] over floats: the first item, replaced by each
    later item that compares greater (smaller); [ValueError] when empty. *)
Definition max_from (m : float) (l : list float) : float :=
  fold_left (fun m y => if (m <? y)%float then y else m) l m.

Definition min_from (m : float) (l : list float) : float :=
  fold_left (fun m y => if (y <? m)%float then y else m) l m.

Definition py_max (l : list float) : result float :=
  match l with
  | [] => Raise ValueError
  | x :: t => Ok (max_from x t)
  end.

Definition py_min (l : list float) : result float :=
  match l with
  | [] => Raise ValueError
  | x :: t => Ok (min_from x t)
  end.

(** [max] and [min] over a collection of [int]. *)
Definition py_max_int (l : list Z) : result Z :=
  match l with
  | [] => Raise ValueError
  | x :: t => Ok (fold_left (fun m y => if (m <? y)%Z then y else m) t x)
  end.

Definition py_min_int (l : list Z) : result Z :=
  match l with
  | [] => Raise ValueError
  | x :: t => Ok (fold_left (fun m y => if (y <? m)%Z then y else m) t x)
  end.

(** [a / b] on floats: [ZeroDivisionError] when the divisor is zero. *)
Definition py_truediv (a b : float) : result float :=
  if (b =? 0)%float then Raise ZeroDivisionError else Ok (a / b)%float.

(** [sorted(l)]: the stable ascending arrangement under [<]. *)
Fixpoint insert_sorted (x : float) (l : list float) : list float :=
  match l with
  | [] => [x]
  | h :: t => if (h <? x)%float then h :: insert_sorted x t else x :: h :: t
  end.

Definition sorted (l : list float) : list float :=
  fold_right insert_sorted [] l.

(** Reading a local variable: [UnboundLocalError] before its first assignment. *)
Definition read_local {A : Type} (v : option A) : result A :=
  match v with
  | Some a => Ok a
  | None => Raise UnboundLocalError
  end.

(** A [dict] with [str] keys: its items in insertion order. *)
Definition dict (V : Type) : Type := list (pystr * V).

Fixpoint dict_get {V : Type} (k : pystr) (d : dict V) : option V :=
  match d with
  | [] => None
  | (k', v) :: r => if str_eqb k k' then Some v else dict_get k r
  end.

(** [d[k]] *)
Definition dict_item {V : Type} (k : pystr) (d : dict V) : result V :=
  match dict_get k d with
  | Some v => Ok v
  | None => Raise KeyError
  end.

(** [d[k] = v] *)
Fixpoint dict_set {V : Type} (k : pystr) (v : V) (d : dict V) : dict V :=
  match d with
  | [] => [(k, v)]
  | (k', v') :: r =>
      if str_eqb k k' then (k', v) :: r else (k', v') :: dict_set k v r
  end.

(** In-place update of the value stored under [k] (as [d[k][0].append(x)]);
    the code does this only to keys it has just stored. *)
Definition dict_modify {V : Type} (k : pystr) (f : V -> V) (d : dict V) : dict V :=
  match dict_get k d with
  | Some v => dict_set k (f v) d
  | None => d
  end.

(** A [dict] with [float] keys, looked up with [==]; the keys are numbers.
    A NaN among the keys is outside this model: Python finds such a key by
    identity, and arranges a list that holds it as its sorting algorithm
    happens to, not by an order. Here a NaN equals no key, itself
    included, so that a map with such a key has no envelope and no
    statement below is about it. *)
Fixpoint fdict_get {V : Type} (k : float) (d : list (float * V)) : option V :=
  match d with
  | [] => None
  | (k', v) :: r => if (k =? k')%float then Some v else fdict_get k r
  end.

Definition fdict_item {V : Type} (k : float) (d : list (float * V)) : result V :=
  match fdict_get k d with
  | Some v => Ok v
  | None => Raise KeyError
  end.

(** [l[0]] and [l[-1]] *)
Definition first_item {A : Type} (l : list A) : result A :=
  match l with
  | [] => Raise IndexError
  | x :: _ => Ok x
  end.

Definition last_item {A : Type} (l : list A) : result A :=
  match rev l with
  | [] => Raise IndexError
  | x :: _ => Ok x
  end.

(** ** [_get_ylim_from_y_range_vals] *)

Definition _get_ylim_from_y_range_vals
    (y_range_vals : list float) (ymin : float) (auto_labels : bool)
    : result (float * float) :=
  mx <- py_max y_range_vals ;;
  mn <- py_min y_range_vals ;;
  let window := (mx - mn)%float in
  let spacer := (0.1 * window)%float in
  mx1 <- py_max y_range_vals ;;
  let ylim := (ymin, (mx1 + spacer)%float) in
  if auto_labels then
    ratio <- py_truediv spacer (snd ylim) ;;
    if (ratio <? 0.145)%float then
      mx2 <- py_max y_range_vals ;;
      Ok (ymin, (mx2 * 1.17)%float)
    else Ok ylim
  else Ok ylim.

(** ** [_get_legends_txt] *)

Section Legends.

(** [shakenbreak.plotting._format_defect_name(defect_species,
    include_site_num_in_name)], an external function: it returns the
    formatted name, a [str], or [None] for a name that it cannot format, or
    it raises. *)
Variable _format_defect_name : pystr -> bool -> call (option pystr).

(** Truth value of the [all_entries] argument ([False], [True] or ["faded"]). *)
Variable all_entries : bool.

(** [f"{defect_name.rsplit('^', 1)[0]}$"] *)
Definition exclude_charge (defect_name : pystr) : pystr :=
  rsplit1_head 94%N defect_name ++ py "$".

(** The formatter call followed by [if not all_entries: ...], where
    [None.rsplit] raises [AttributeError]. *)
Definition format_attempt (defect_entry_name : pystr) (include_site_num : bool)
    : call (option pystr) :=
  match _format_defect_name defect_entry_name include_site_num with
  | Returns defect_name =>
      if all_entries then Returns defect_name
      else match defect_name with
           | Some s => Returns (Some (exclude_charge s))
           | None => Raises AttributeError
           end
  | Raises e => Raises e
  end.

(** The [try ... except Exception] block: what the attempt returned, or the
    raw name when it raised. *)
Definition first_attempt (defect_entry_name : pystr) : option pystr :=
  match format_attempt defect_entry_name false with
  | Returns defect_name => defect_name
  | Raises _ => Some defect_entry_name
  end.

(** The site-number retry; this call is outside the [try] block. *)
Definition retry_stage (legends_txt : list (option pystr))
    (defect_entry_name : pystr) (defect_name : option pystr)
    : result (option pystr) :=
  if name_in defect_name legends_txt
  then run (format_attempt defect_entry_name true)
  else Ok defect_name.

(** One round of the [while] body: [i += 1], then the character
    [chr(96 + i)] put in before the last three characters; [None] cannot
    be sliced ([TypeError]). *)
Definition suffix_once (i : Z) (defect_name : option pystr)
    : result (Z * option pystr) :=
  let i := (i + 1)%Z in
  match defect_name with
  | Some s =>
      c <- chr (96 + i) ;;
      Ok (i, Some (slice_to_m3 s ++ c ++ slice_from_m3 s))
  | None => Raise TypeError
  end.

(** [while defect_name in legends_txt: ...] *)
Fixpoint suffix_while (fuel : nat) (legends_txt : list (option pystr)) (i : Z)
    (defect_name : option pystr) : result (option pystr) :=
  if name_in defect_name legends_txt then
    match fuel with
    | O => OutOfFuel
    | S fuel' =>
        st <- suffix_once i defect_name ;;
        suffix_while fuel' legends_txt (fst st) (snd st)
    end
  else Ok defect_name.

(** The last [if defect_name in legends_txt:] block. Every round makes the
    name one character longer, so the loop leaves within
    [len(legends_txt)] rounds. *)
Definition suffix_stage (legends_txt : list (option pystr))
    (defect_name : option pystr) : result (option pystr) :=
  if name_in defect_name legends_txt
  then suffix_while (length legends_txt) legends_txt 1 defect_name
  else Ok defect_name.

(** The body of the [for] loop. *)
Definition legend_step (legends_txt : list (option pystr))
    (defect_entry_name : pystr) : result (list (option pystr)) :=
  let defect_name := first_attempt defect_entry_name in
  defect_name <- retry_stage legends_txt defect_entry_name defect_name ;;
  defect_name <- suffix_stage legends_txt defect_name ;;
  Ok (legends_txt ++ [defect_name]).

Definition _get_legends_txt (for_legend : list pystr)
    : result (list (option pystr)) :=
  for_each legend_step for_legend [].

End Legends.

(** ** [_get_formation_energy_lines] *)

(** [[x_vals], [y_vals]] *)
Definition polyline : Type := (list float * list float)%type.

Definition push_x (x : float) (line : polyline) : polyline :=
  (fst line ++ [x], snd line).

Definition push_y (y : float) (line : polyline) : polyline :=
  (fst line, snd line ++ [y]).

(** The arbitrary values the lines are extended to. *)
Definition lower_cap : float := (-100)%float.
Definition upper_cap : float := 100%float.

Section FormationEnergyLines.

(** The entries of the diagram are objects of the caller; the code reads
    their [name] and [charge_state] and hands them to [_formation_energy]. *)
Variable DefectEntry : Type.
Variable name : DefectEntry -> pystr.
Variable charge_state : DefectEntry -> Z.
Variable ChemPots : Type.

(** numpy: the [i]-th of the [num] samples of [np.linspace(start, stop, num)],
    and [np.interp] at one abscissa. *)
Variable linspace_item : float -> float -> nat -> nat -> float.
Variable interp_at : float -> list float -> list float -> float.

Record DefectPhaseDiagram : Type := {
  entries : list DefectEntry;
  stable_entries : dict (list DefectEntry);
  transition_level_map : dict (list (float * list Z));
  band_gap : float;
  _formation_energy : DefectEntry -> ChemPots -> float -> float
}.

Variable defect_phase_diagram : DefectPhaseDiagram.
Variable dft_chempots : ChemPots.
Variable xlim : float * float.

Definition energy_at (defect_entry : DefectEntry) (fermi_level : float) : float :=
  _formation_energy defect_phase_diagram defect_entry dft_chempots fermi_level.

(** [f"{defect_entry.name}_{defect_entry.charge_state}"] *)
Definition entry_key (defect_entry : DefectEntry) : pystr :=
  name defect_entry ++ py "_" ++ str_of_int (charge_state defect_entry).

(** [(... for x_window in xlim)] *)
Definition window_energies (defect_entry : DefectEntry) : list float :=
  [energy_at defect_entry (fst xlim); energy_at defect_entry (snd xlim)].

(** *** First loop: one line per entry *)

(** Body of [for x_extrem in [lower_cap, upper_cap]]. *)
Definition all_lines_inner (defect_entry : DefectEntry)
    (st : dict polyline * list float) (x_extrem : float)
    : dict polyline * list float :=
  let defect_entry_name := entry_key defect_entry in
  let all_lines_xy := dict_modify defect_entry_name (push_x x_extrem) (fst st) in
  let all_lines_xy :=
    dict_modify defect_entry_name
      (push_y (energy_at defect_entry x_extrem)) all_lines_xy in
  (all_lines_xy, snd st ++ window_energies defect_entry).

(** Body of [for defect_entry in defect_phase_diagram.entries]. *)
Definition all_lines_step (st : dict polyline * list float)
    (defect_entry : DefectEntry) : dict polyline * list float :=
  let all_lines_xy := dict_set (entry_key defect_entry) ([], []) (fst st) in
  fold_left (all_lines_inner defect_entry) [lower_cap; upper_cap]
    (all_lines_xy, snd st).

(** [(all_lines_xy, all_entries_y_range_vals)] after the first loop. *)
Definition all_lines : dict polyline * list float :=
  fold_left all_lines_step (entries defect_phase_diagram) ([], []).

(** *** Second loop: one envelope per defect species *)

(** The local variables that live across iterations of the second loop.
    [form_en], [fe_left] and [fe_right] are assigned only inside an [if]
    and are unbound ([None]) until then. *)
Record locals : Type := mkLocals {
  xy : dict polyline;
  y_range_vals : list float;
  form_en : option float;
  fe_left : option float;
  fe_right : option float;
  ymin : float;
  warned : list pystr
}.

(** [for defect_entry in stable_entries[def_name]:
       if defect_entry.charge_state == charge: v = energy(fermi_level)]:
    the variable after the loop. *)
Definition assign_matching (charge : Z) (fermi_level : float)
    (stable : list DefectEntry) (v : option float) : option float :=
  fold_left
    (fun v defect_entry =>
       if (charge_state defect_entry =? charge)%Z
       then Some (energy_at defect_entry fermi_level) else v)
    stable v.

(** "establish lower x-bound" *)
Definition lower_bound (def_name : pystr) (def_tl : list (float * list Z))
    (org_x : list float) (st : locals) : result locals :=
  x0 <- first_item org_x ;;
  ties <- fdict_item x0 def_tl ;;
  first_charge <- py_max_int ties ;;
  stable <- dict_item def_name (stable_entries defect_phase_diagram) ;;
  let form_en' := assign_matching first_charge lower_cap stable (form_en st) in
  let fe_left' := assign_matching first_charge (fst xlim) stable (fe_left st) in
  let xy1 := dict_modify def_name (push_x lower_cap) (xy st) in
  v <- read_local form_en' ;;
  let xy2 := dict_modify def_name (push_y v) xy1 in
  l <- read_local fe_left' ;;
  Ok (mkLocals xy2 (y_range_vals st ++ [l]) form_en' fe_left' (fe_right st)
        (ymin st) (warned st)).

(** Body of [for fl in org_x]. *)
Definition transition_point (def_name : pystr) (def_tl : list (float * list Z))
    (st : locals) (fl : float) : result locals :=
  ties <- fdict_item fl def_tl ;;
  charge <- py_max_int ties ;;
  stable <- dict_item def_name (stable_entries defect_phase_diagram) ;;
  let form_en' := assign_matching charge fl stable (form_en st) in
  let xy1 := dict_modify def_name (push_x fl) (xy st) in
  v <- read_local form_en' ;;
  let xy2 := dict_modify def_name (push_y v) xy1 in
  Ok (mkLocals xy2 (y_range_vals st ++ [v]) form_en' (fe_left st) (fe_right st)
        (ymin st) (warned st)).

(** "establish upper x-bound" *)
Definition upper_bound (def_name : pystr) (def_tl : list (float * list Z))
    (org_x : list float) (st : locals) : result locals :=
  xn <- last_item org_x ;;
  ties <- fdict_item xn def_tl ;;
  last_charge <- py_min_int ties ;;
  stable <- dict_item def_name (stable_entries defect_phase_diagram) ;;
  let form_en' := assign_matching last_charge upper_cap stable (form_en st) in
  let fe_right' := assign_matching last_charge (snd xlim) stable (fe_right st) in
  let xy1 := dict_modify def_name (push_x upper_cap) (xy st) in
  v <- read_local form_en' ;;
  let xy2 := dict_modify def_name (push_y v) xy1 in
  r <- read_local fe_right' ;;
  Ok (mkLocals xy2 (y_range_vals st ++ [r]) form_en' (fe_left st) fe_right'
        (ymin st) (warned st)).

(** The [if def_tl:] branch. *)
Definition envelope (def_name : pystr) (def_tl : list (float * list Z))
    (st : locals) : result locals :=
  let org_x := sorted (map fst def_tl) in
  st <- lower_bound def_name def_tl org_x st ;;
  st <- for_each (transition_point def_name def_tl) org_x st ;;
  upper_bound def_name def_tl org_x st.

(** The [else:] branch: no transition level. *)
Definition single_state (all_lines_xy : dict polyline) (def_name : pystr)
    (st : locals) : result locals :=
  line <- dict_item (rsplit1_head 64%N def_name) all_lines_xy ;;
  let xy1 := dict_set def_name line (xy st) in
  stable <- dict_item def_name (stable_entries defect_phase_diagram) ;;
  defect_entry <- first_item stable ;;
  Ok (mkLocals xy1 (y_range_vals st ++ window_energies defect_entry)
        (form_en st) (fe_left st) (fe_right st) (ymin st) (warned st)).

(** [np.interp(np.linspace(x_range[0], x_range[1], 100), x_coords, y_coords)] *)
Definition _get_in_gap_yvals (x_coords y_coords : list float)
    (x_range : float * float) : list float :=
  let relevant_x :=
    map (linspace_item (fst x_range) (snd x_range) 100) (seq 0 100) in
  map (fun x => interp_at x x_coords y_coords) relevant_x.

(** The check for a line below zero across the band gap: the warning
    (recorded by the species it names) and the lowered [ymin]. *)
Definition below_zero_check (def_name : pystr) (st : locals) : result locals :=
  line <- dict_item def_name (xy st) ;;
  let yvals :=
    _get_in_gap_yvals (fst line) (snd line)
      (0%float, band_gap defect_phase_diagram) in
  if forallb (fun y => (y <? 0)%float) yvals
  then Ok (mkLocals (xy st) (y_range_vals st) (form_en st) (fe_left st)
             (fe_right st) (min_from (ymin st) yvals)
             (warned st ++ [rsplit1_head 64%N def_name]))
  else Ok st.

(** Body of [for def_name, def_tl in transition_level_map.items()]. *)
Definition species_step (all_lines_xy : dict polyline) (st : locals)
    (item : pystr * list (float * list Z)) : result locals :=
  let '(def_name, def_tl) := item in
  let st0 := mkLocals (dict_set def_name ([], []) (xy st)) (y_range_vals st)
               (form_en st) (fe_left st) (fe_right st) (ymin st) (warned st) in
  st1 <- match def_tl with
         | _ :: _ => envelope def_name def_tl st0
         | [] => single_state all_lines_xy def_name st0
         end ;;
  below_zero_check def_name st1.

(** What the function returns:
    [(xy, y_range_vals), (all_lines_xy, all_entries_y_range_vals), ymin]. *)
Record lines : Type := mkLines {
  lines_xy : dict polyline;
  lines_y_range_vals : list float;
  lines_all_lines_xy : dict polyline;
  lines_all_entries_y_range_vals : list float;
  lines_ymin : float;
  lines_warned : list pystr
}.

Definition _get_formation_energy_lines : result lines :=
  let '(all_lines_xy, all_entries_y_range_vals) := all_lines in
  st <- for_each (species_step all_lines_xy)
          (transition_level_map defect_phase_diagram)
          (mkLocals [] [] None None None 0%float []) ;;
  Ok (mkLines (xy st) (y_range_vals st) all_lines_xy all_entries_y_range_vals
        (ymin st) (warned st)).

End FormationEnergyLines.

Arguments entries {DefectEntry ChemPots} d.
Arguments stable_entries {DefectEntry ChemPots} d.
Arguments transition_level_map {DefectEntry ChemPots} d.
Arguments band_gap {DefectEntry ChemPots} d.
Arguments _formation_energy {DefectEntry ChemPots} d.
Arguments energy_at {DefectEntry ChemPots}.
Arguments entry_key {DefectEntry}.
Arguments window_energies {DefectEntry ChemPots}.
Arguments all_lines_inner {DefectEntry} name charge_state {ChemPots}.
Arguments all_lines_step {DefectEntry} name charge_state {ChemPots}.
Arguments all_lines {DefectEntry} name charge_state {ChemPots}.
Arguments assign_matching {DefectEntry} charge_state {ChemPots}.
Arguments lower_bound {DefectEntry} charge_state {ChemPots}.
Arguments transition_point {DefectEntry} charge_state {ChemPots}.
Arguments upper_bound {DefectEntry} charge_state {ChemPots}.
Arguments envelope {DefectEntry} charge_state {ChemPots}.
Arguments single_state {DefectEntry ChemPots}.
Arguments below_zero_check {DefectEntry ChemPots}.
Arguments species_step {DefectEntry} charge_state {ChemPots}.
Arguments _get_formation_energy_lines {DefectEntry} name charge_state {ChemPots}.

(** ** A small diagram to run the functions on *)

(** An entry with an energy at zero Fermi level; the formation energy is
    affine in the Fermi level with the charge as slope. *)
Record SampleEntry : Type := {
  se_name : pystr;
  se_charge : Z;
  se_slope : float;
  se_energy : float
}.

Definition sample_energy (e : SampleEntry) (_ : unit) (fermi_level : float) : float :=
  (se_energy e + se_slope e * fermi_level)%float.

(** Stand-ins for the two numpy functions: evenly spaced samples, and
    linear interpolation that is constant outside the given abscissas. *)
Definition sample_linspace (start stop : float) (num i : nat) : float :=
  (start + (stop - start) * (PrimFloat.of_uint63 (Uint63.of_Z (Z.of_nat i))
                             / PrimFloat.of_uint63 (Uint63.of_Z (Z.of_nat (num - 1)))))%float.

Fixpoint sample_interp (x : float) (xp fp : list float) : float :=
  match xp, fp with
  | x0 :: ((x1 :: _) as xp'), y0 :: ((y1 :: _) as fp') =>
      if (x <=? x0)%float then y0
      else if (x <? x1)%float
           then ((y1 - y0) / (x1 - x0) * (x - x0) + y0)%float
           else sample_interp x xp' fp'
  | _, y :: _ => y
  | _, [] => 0%float
  end.

Definition vac_plus : SampleEntry :=
  {| se_name := py "vac_1_Cd"; se_charge := 1; se_slope := 1%float; se_energy := 1.5%float |}.
Definition vac_minus : SampleEntry :=
  {| se_name := py "vac_1_Cd"; se_charge := (-1); se_slope := (-1)%float; se_energy := 3.5%float |}.
Definition int_te : SampleEntry :=
  {| se_name := py "Int_Te_3"; se_charge := 0; se_slope := 0%float; se_energy := 2.25%float |}.

Definition sample_diagram (stable : dict (list SampleEntry))
    (tl_map : dict (list (float * list Z))) : DefectPhaseDiagram SampleEntry unit :=
  {| entries := [vac_plus; vac_minus; int_te];
     stable_entries := stable;
     transition_level_map := tl_map;
     band_gap := 2%float;
     _formation_energy := sample_energy |}.

(** A vacancy with the transition (+1/-1) at 1 eV and a neutral interstitial
    without transition level. *)
Definition ready_diagram : DefectPhaseDiagram SampleEntry unit :=
  sample_diagram
    [(py "vac_1_Cd@0", [vac_plus; vac_minus]); (py "Int_Te_3_0@1", [int_te])]
    [(py "vac_1_Cd@0", [(1%float, [1; -1]%Z)]); (py "Int_Te_3_0@1", [])].

(** The same with the transition at 150 eV, beyond the upper cap. *)
Definition far_diagram : DefectPhaseDiagram SampleEntry unit :=
  sample_diagram
    [(py "vac_1_Cd@0", [vac_plus; vac_minus]); (py "Int_Te_3_0@1", [int_te])]
    [(py "vac_1_Cd@0", [(150%float, [1; -1]%Z)]); (py "Int_Te_3_0@1", [])].

(** The vacancy's stable entries lack the charge +1 of its transition. *)
Definition lone_diagram : DefectPhaseDiagram SampleEntry unit :=
  sample_diagram
    [(py "vac_1_Cd@0", [vac_minus])]
    [(py "vac_1_Cd@0", [(1%float, [1; -1]%Z)])].

(** After the vacancy, an interstitial whose transition (+2/+1) names
    charges that none of its stable entries has. *)
Definition stale_diagram : DefectPhaseDiagram SampleEntry unit :=
  sample_diagram
    [(py "vac_1_Cd@0", [vac_plus; vac_minus]); (py "Int_Te_3@1", [int_te])]
    [(py "vac_1_Cd@0", [(1%float, [1; -1]%Z)]);
     (py "Int_Te_3@1", [(0.5%float, [2; 1]%Z)])].

(** The vacancy with a neutral state between its charged ones: the
    transitions (+1/0) at 0.5 eV and (0/-1) at 1.5 eV, the higher one
    listed first and the smaller charge first in each set. *)
Definition vac_zero : SampleEntry :=
  {| se_name := py "vac_1_Cd"; se_charge := 0; se_slope := 0%float; se_energy := 2%float |}.

Definition mixed_diagram : DefectPhaseDiagram SampleEntry unit :=
  {| entries := [vac_plus; vac_zero; vac_minus];
     stable_entries := [(py "vac_1_Cd@0", [vac_plus; vac_zero; vac_minus])];
     transition_level_map :=
       [(py "vac_1_Cd@0", [(1.5%float, [-1; 0]%Z); (0.5%float, [0; 1]%Z)])];
     band_gap := 2%float;
     _formation_energy := sample_energy |}.

Definition sample_xlim : float * float := ((-0.3)%float, 2.3%float).

(** The line of a species in what a run returned, if it returned. *)
Definition line_of_species (r : result lines) (s : pystr) : option polyline :=
  match r with
  | Ok l => dict_get s (lines_xy l)
  | _ => None
  end.

Definition run_lines (d : DefectPhaseDiagram SampleEntry unit) : result (lines) :=
  _get_formation_energy_lines se_name se_charge
    sample_linspace sample_interp d tt sample_xlim.

(** A formatter to run the legend on: it knows two cadmium vacancies, which
    it tells apart by the site number only, and rejects other names. *)
Definition sample_format (defect_species : pystr) (include_site_num : bool)
    : call (option pystr) :=
  if str_eqb defect_species (py "vac_1_Cd_0")
  then Returns (Some (if include_site_num then py "$V_{Cd_{s1}}^{0}$"
                      else py "$V_{Cd}^{0}$"))
  else if str_eqb defect_species (py "vac_2_Cd_0")
  then Returns (Some (if include_site_num then py "$V_{Cd_{s2}}^{0}$"
                      else py "$V_{Cd}^{0}$"))
  else Raises ValueError.

(** A formatter that gives up on every name: it returns [None]. *)
Definition none_format (defect_species : pystr) (include_site_num : bool)
    : call (option pystr) :=
  Returns None.

(** ** Notions used in the statements *)

(** Each abscissa is below the next one. *)
Fixpoint increasing (l : list float) : bool :=
  match l with
  | x :: ((y :: _) as t) => (x <? y)%float && increasing t
  | _ => true
  end.

(** Keys that are pairwise unequal, as the keys of a [dict] are. *)
Fixpoint pairwise_distinct (l : list float) : bool :=
  match l with
  | [] => true
  | x :: t => forallb (fun y => negb (x =? y)%float) t && pairwise_distinct t
  end.

Fixpoint distinct_keys (l : list pystr) : bool :=
  match l with
  | [] => true
  | x :: t => negb (str_in x t) && distinct_keys t
  end.

(** Every breakpoint lies strictly between the two caps. *)
Definition between_caps (l : list float) : bool :=
  forallb (fun x => (lower_cap <? x)%float && (x <? upper_cap)%float) l.

(** The last item of a list that passes a test: what a loop of the form
    [for a in l: if test(a): v = a] leaves in [v]. *)
Fixpoint find_last {A : Type} (p : A -> bool) (l : list A) : option A :=
  match l with
  | [] => None
  | a :: t =>
      match find_last p t with
      | Some b => Some b
      | None => if p a then Some a else None
      end
  end.

Definition is_some {A : Type} (o : option A) : bool :=
  match o with
  | Some _ => true
  | None => false
  end.

Section LinesNotions.

Variable DefectEntry : Type.
Variable name : DefectEntry -> pystr.
Variable charge_state : DefectEntry -> Z.
Variable ChemPots : Type.
Variable defect_phase_diagram : DefectPhaseDiagram DefectEntry ChemPots.
Variable dft_chempots : ChemPots.

Local Abbreviation energy := (energy_at defect_phase_diagram dft_chempots).

(** The stable entry of charge [q] that the matching loop ends on. *)
Definition selected (q : Z) (stable : list DefectEntry) : option DefectEntry :=
  find_last (fun defect_entry => (charge_state defect_entry =? q)%Z) stable.

(** The energy at [x] of the entry selected for a breakpoint: [pick] (the
    maximum or the minimum) chooses the charge in the breakpoint's tie set.
    [None] when the breakpoint has no tie set, the set is empty, or no
    stable entry has the chosen charge. *)
Definition tie_energy (pick : list Z -> result Z) (stable : list DefectEntry)
    (def_tl : list (float * list Z)) (breakpoint x : float) : option float :=
  match fdict_get breakpoint def_tl with
  | Some ties =>
      match pick ties with
      | Ok q => option_map (fun defect_entry => energy defect_entry x) (selected q stable)
      | _ => None
      end
  | None => None
  end.

(** The line of one entry in [all_lines_xy]. *)
Definition two_point_line (defect_entry : DefectEntry) : polyline :=
  ([lower_cap; upper_cap], [energy defect_entry lower_cap; energy defect_entry upper_cap]).

(** The entry that [all_lines_xy] keeps under a key: the last with that key. *)
Definition entry_of_key (k : pystr) : option DefectEntry :=
  find_last (fun defect_entry => str_eqb k (entry_key name charge_state defect_entry))
    (entries defect_phase_diagram).

(** What the envelope branch needs of a species: every breakpoint's
    maximum charge, and the last breakpoint's minimum charge, is the charge
    of some stable entry (the breakpoints being numbers). *)
Definition envelope_ready (stable : list DefectEntry)
    (def_tl : list (float * list Z)) : bool :=
  let org_x := sorted (map fst def_tl) in
  forallb (fun fl => is_some (tie_energy py_max_int stable def_tl fl fl)) org_x
  && match last_item org_x with
     | Ok xn => is_some (tie_energy py_min_int stable def_tl xn upper_cap)
     | _ => false
     end.

(** What the loop body needs of one item of the transition-level map: the
    species has its list of stable entries, and either the envelope branch
    is ready, or (no transition level) the list is not empty and some
    entry carries the species name as its key. *)
Definition species_ready (item : pystr * list (float * list Z)) : bool :=
  match dict_get (fst item) (stable_entries defect_phase_diagram) with
  | None => false
  | Some stable =>
      match snd item with
      | [] => is_some (entry_of_key (rsplit1_head 64%N (fst item)))
              && is_some (hd_error stable)
      | def_tl => envelope_ready stable def_tl
      end
  end.

(** The precondition of [_get_formation_energy_lines]. *)
Definition lines_ready : bool :=
  forallb species_ready (transition_level_map defect_phase_diagram).

(** The envelope that the tie-break rule gives: the lower cap with the
    energy of the maximum charge tied at the first breakpoint, every
    breakpoint in ascending order with the energy of its maximum tied
    charge, the upper cap with the energy of the minimum charge tied at the
    last breakpoint. *)
Definition is_envelope (stable : list DefectEntry)
    (def_tl : list (float * list Z)) (line : polyline) : Prop :=
  let org_x := sorted (map fst def_tl) in
  exists x0 xn y0 ymid yn,
    first_item org_x = Ok x0 /\ last_item org_x = Ok xn
    /\ line = (lower_cap :: org_x ++ [upper_cap], y0 :: ymid ++ [yn])
    /\ tie_energy py_max_int stable def_tl x0 lower_cap = Some y0
    /\ Forall2 (fun fl y => tie_energy py_max_int stable def_tl fl fl = Some y)
         org_x ymid
    /\ tie_energy py_min_int stable def_tl xn upper_cap = Some yn.

(** The charge that the tie-break rule picks at a breakpoint: the biggest,
    or the smallest, of the charges tied there. *)
Definition max_tied (def_tl : list (float * list Z)) (breakpoint : float) (q : Z)
    : Prop :=
  exists ties,
    fdict_get breakpoint def_tl = Some ties
    /\ In q ties /\ forall q', In q' ties -> (q' <= q)%Z.

Definition min_tied (def_tl : list (float * list Z)) (breakpoint : float) (q : Z)
    : Prop :=
  exists ties,
    fdict_get breakpoint def_tl = Some ties
    /\ In q ties /\ forall q', In q' ties -> (q <= q')%Z.

(** The energy at [x] of the stable entry of charge [q]. *)
Definition charge_energy (stable : list DefectEntry) (q : Z) (x : float)
    : option float :=
  option_map (fun defect_entry => energy defect_entry x) (selected q stable).

(** The envelope of the tie-break rule, the charges named: at the lower
    cap the energy of the biggest charge tied at the first breakpoint, at
    every breakpoint the energy of the biggest charge tied there, at the
    upper cap the energy of the smallest charge tied at the last
    breakpoint. *)
Definition tie_break_envelope (stable : list DefectEntry)
    (def_tl : list (float * list Z)) (line : polyline) : Prop :=
  let org_x := sorted (map fst def_tl) in
  exists x0 xn q0 qn y0 ymid yn,
    first_item org_x = Ok x0 /\ last_item org_x = Ok xn
    /\ line = (lower_cap :: org_x ++ [upper_cap], y0 :: ymid ++ [yn])
    /\ max_tied def_tl x0 q0 /\ charge_energy stable q0 lower_cap = Some y0
    /\ Forall2 (fun fl y => exists q, max_tied def_tl fl q
                                      /\ charge_energy stable q fl = Some y)
         org_x ymid
    /\ min_tied def_tl xn qn /\ charge_energy stable qn upper_cap = Some yn.

(** The line that the second loop stores for one item of the map. *)
Definition species_line (all_lines_xy : dict polyline)
    (item : pystr * list (float * list Z)) (line : polyline) : Prop :=
  match snd item with
  | [] => dict_get (rsplit1_head 64%N (fst item)) all_lines_xy = Some line
  | def_tl =>
      exists stable,
        dict_get (fst item) (stable_entries defect_phase_diagram) = Some stable
        /\ is_envelope stable def_tl line
  end.

End LinesNotions.

Arguments selected {DefectEntry} charge_state.
Arguments tie_energy {DefectEntry} charge_state {ChemPots}.
Arguments two_point_line {DefectEntry ChemPots}.
Arguments entry_of_key {DefectEntry} name charge_state {ChemPots}.
Arguments envelope_ready {DefectEntry} charge_state {ChemPots}.
Arguments species_ready {DefectEntry} name charge_state {ChemPots}.
Arguments lines_ready {DefectEntry} name charge_state {ChemPots}.
Arguments is_envelope {DefectEntry} charge_state {ChemPots}.
Arguments charge_energy {DefectEntry} charge_state {ChemPots}.
Arguments tie_break_envelope {DefectEntry} charge_state {ChemPots}.
Arguments species_line {DefectEntry} charge_state {ChemPots}.

(** Lookups outside [s] are the same in both dictionaries. *)
Definition same_except (s : pystr) (a b : dict polyline) : Prop :=
  forall k, k <> s -> dict_get k b = dict_get k a.

(** The labels at least as long as a name. *)
Definition as_long_as (s : pystr) (l : list (option pystr))
    : list (option pystr) :=
  filter (fun x => match x with
                   | Some y => length s <=? length y
                   | None => false
                   end) l.

(** The local variables before the first species, with the empty line of
    the vacancy in place. *)
Definition fresh_locals : locals :=
  mkLocals [(py "vac_1_Cd@0", ([], []))] [] None None None 0%float [].

(** The line under [s] got one more point at abscissa [x]. *)
Definition point_added (s : pystr) (x : float) (st st' : locals) : Prop :=
  forall line, dict_get s (xy st) = Some line ->
    exists v, dict_get s (xy st') = Some (fst line ++ [x], snd line ++ [v]).

(** * The plotting functions *)

(** ** Strings, numbers and lists of the plotting functions *)

(** [s.split(sep)[0]] for a one-character separator: what stands before
    the first [sep], or all of [s] when [sep] does not occur. *)
Fixpoint split_head (sep : N) (s : pystr) : pystr :=
  match s with
  | [] => []
  | c :: t => if N.eqb c sep then [] else c :: split_head sep t
  end.

(** [s.rsplit(sep, 1)[1]]: what stands after the last [sep]; [IndexError]
    when [sep] does not occur, the list then having one item. *)
Fixpoint rsplit1_tail (sep : N) (s : pystr) : result pystr :=
  match s with
  | [] => Raise IndexError
  | c :: t =>
      if existsb (N.eqb sep) t then rsplit1_tail sep t
      else if N.eqb c sep then Ok t else Raise IndexError
  end.

(** [a < b] on strings: the order of the first code points that differ, a
    proper prefix coming first. *)
Fixpoint str_ltb (a b : pystr) : bool :=
  match a, b with
  | _, [] => false
  | [], _ :: _ => true
  | x :: a', y :: b' => N.ltb x y || (N.eqb x y && str_ltb a' b')
  end.

(** [sorted(l)] for strings. *)
Fixpoint insert_sorted_str (x : pystr) (l : list pystr) : list pystr :=
  match l with
  | [] => [x]
  | h :: t => if str_ltb h x then h :: insert_sorted_str x t else x :: h :: t
  end.

Definition sorted_str (l : list pystr) : list pystr :=
  fold_right insert_sorted_str [] l.

(** [l[n]] for an index that is not negative. *)
Definition nth_item {A : Type} (l : list A) (n : nat) : result A :=
  match nth_error l n with
  | Some a => Ok a
  | None => Raise IndexError
  end.

(** [l[0] = v] and [l[-1] = v] on a list that has the item. *)
Definition set_first {A : Type} (v : A) (l : list A) : list A :=
  match l with
  | [] => []
  | _ :: t => v :: t
  end.

Definition set_last {A : Type} (v : A) (l : list A) : list A :=
  match l with
  | [] => []
  | _ :: _ => removelast l ++ [v]
  end.

(** [float(n)] for the [int] that [len] returned. *)
Definition float_of_nat (n : nat) : float :=
  PrimFloat.of_uint63 (Uint63.of_Z (Z.of_nat n)).

(** [a / n] for a float and a length: [ZeroDivisionError] when [n] is zero. *)
Definition py_truediv_len (a : float) (n : nat) : result float :=
  match n with
  | O => Raise ZeroDivisionError
  | S _ => Ok (a / float_of_nat n)%float
  end.

(** [m * 2 ** e] rounded to the nearest integer, a tie to the even one. *)
Definition round_half_even (m e : Z) : Z :=
  if (0 <=? e)%Z then m * 2 ^ e
  else
    let d := (2 ^ (- e))%Z in
    let q := (m / d)%Z in
    let r := (m mod d)%Z in
    if (2 * r <? d)%Z then q
    else if (d <? 2 * r)%Z then (q + 1)%Z
    else if Z.even q then q else (q + 1)%Z.

(** [f"{x:.2f}"]: the decimal numeral with two digits after the point that
    is nearest to the value of the float (a tie goes to the even last
    digit), with the sign of the float; [nan] and [inf] by name. *)
Definition format_2f (x : float) : pystr :=
  match Prim2SF x with
  | S754_nan => py "nan"
  | S754_infinity s => if s then py "-inf" else py "inf"
  | S754_zero s => if s then py "-0.00" else py "0.00"
  | S754_finite s m e =>
      let q := round_half_even (100 * Z.pos m) e in
      (if s then py "-" else [])
      ++ str_of_int (q / 100) ++ py "."
      ++ (if (q mod 100 <? 10)%Z then py "0" else []) ++ str_of_int (q mod 100)
  end.

(** [f"{q:{'+' if q else ''}}"] for an [int]: a sign before every charge
    but zero. *)
Definition signed_charge (q : Z) : pystr :=
  if (q =? 0)%Z then str_of_int q
  else (if (0 <? q)%Z then py "+" else []) ++ str_of_int q.

(** [np.isclose(x, 0, atol=0.1)] for a float: [abs(x - 0) <= atol + rtol *
    abs(0)], which no infinity and no NaN meets. *)
Definition isclose_zero (x : float) : bool :=
  (abs (x - 0) <=? 0.1 + 1e-05 * abs 0)%float.

(** ** The figure *)

(** A colour: a row of the array that a colormap returns, or a tuple. *)
Definition color : Type := list float.

Inductive band_edge : Type :=
| valence_band
| conduction_band.

Inductive axis : Type :=
| xaxis
| yaxis.

(** The calls that the module makes on [plt], on the axes and on the
    figure, each with the arguments that the code computes (the other
    arguments are the constants of the source):
    - [plt.clf()], [plt.subplots(figsize=...)];
    - [ax.plot(x, y, color=c, markeredgecolor=c, lw=..., markersize=...,
      alpha=...)] for a line, [ax.plot(x, y, marker="o", color=c, ...,
      fillstyle="full")] for the transition levels, and
      [ax.plot(x, y, "k-")] for the zero line;
    - [ax.annotate(text, xy, textcoords="offset points", xytext=(0, 5),
      ha=..., size=..., annotation_clip=True)];
    - [ax.legend(labels, loc=2, bbox_to_anchor=(1, 1))];
    - [ax.imshow(...)] with the colours of a band edge and its [extent];
    - the axis limits, labels and tick locators, [ax.axvline];
    - [ax.table(cellText=[row], colLabels=..., colWidths=..., loc="top",
      cellLoc=...)], [tab.auto_set_column_width(cols)] and
      [cell.set_linewidth(0)] for the cells of the table;
    - [ax.set_title(text, size=..., pad=..., fontdict=...)] and
      [fig.savefig(filename, bbox_inches="tight", dpi=600)].
    The calls are recorded in the order made; what Matplotlib does with
    them is outside this development. *)
Inductive mpl_call : Type :=
| clf
| subplots (figsize : float * float)
| plot_line (x y : list float) (c : color) (lw markersize alpha : float)
| plot_markers (x y : list float) (c : color) (lw markersize : float)
| plot_black (x y : list float)
| annotate (text : pystr) (coords : float * float) (ha : pystr) (size : float)
| legend (labels : list (option pystr))
| imshow (edge : band_edge) (extent : float * float * float * float)
| set_xlim (lim : float * float)
| set_ylim (lim : float * float)
| axvline (x : float)
| set_xlabel (text : pystr)
| set_ylabel (text : pystr)
| set_major_locator (a : axis) (nbins : Z)
| set_minor_locator (a : axis) (n : Z)
| table (row col_labels : list pystr) (col_widths : list float) (cell_loc : pystr)
| auto_set_column_width (cols : list nat)
| cells_set_linewidth (w : Z)
| set_title (text : pystr) (size : float) (pad : option Z)
| savefig (filename : pystr).

(** The warnings of the module, each with what its text quotes. *)
Inductive warning : Type :=
| formal_chempots_warning
| no_chempots_warning
| few_colours_warning (species : nat)
| below_zero_warning (species : pystr).

(** What a plotting function has done so far: the warnings issued and the
    calls made for the figure. *)
Record canvas : Type := mkCanvas {
  warnings : list warning;
  calls : list mpl_call
}.

Definition warn (w : warning) (c : canvas) : canvas :=
  mkCanvas (warnings c ++ [w]) (calls c).

Definition draw (k : mpl_call) (c : canvas) : canvas :=
  mkCanvas (warnings c) (calls c ++ [k]).

(** The entries of [plt.rcParams] that the module reads. *)
Record rcParams : Type := {
  figure_figsize : float * float;
  font_size : float;
  lines_linewidth : float;
  lines_markersize : float
}.

(** ** [_chempot_warning] *)

Definition _chempot_warning (dft_chempots : option (dict float)) (c : canvas)
    : canvas :=
  match dft_chempots with
  | None => warn no_chempots_warning c
  | Some _ => c
  end.

(** ** [_plot_formation_energy_lines] *)

(** Body of [for cnt, def_name in enumerate(xy.keys())]. *)
Definition plot_line_step (xy : dict polyline) (colors : list color)
    (styled_linewidth styled_markersize alpha : float)
    (st : nat * list pystr * canvas) (def_name : pystr)
    : result (nat * list pystr * canvas) :=
  let '(cnt, defect_names_for_legend, c) := st in
  line <- dict_item def_name xy ;;
  col <- nth_item colors cnt ;;
  let c :=
    draw (plot_line (fst line) (snd line) col
            (styled_linewidth * 1.2) (styled_markersize * (4 / 6)) alpha)%float c in
  Ok (S cnt, defect_names_for_legend ++ [split_head 64%N def_name], c).

Definition _plot_formation_energy_lines (xy : dict polyline) (colors : list color)
    (styled_linewidth styled_markersize alpha : float) (c : canvas)
    : result (list pystr * canvas) :=
  st <- for_each (plot_line_step xy colors styled_linewidth styled_markersize alpha)
          (map fst xy) (0, [], c) ;;
  Ok (snd (fst st), snd st).

(** ** [_add_band_edges_and_axis_limits] *)

Definition _add_band_edges_and_axis_limits (band_gap : float)
    (xlim ylim : float * float) (fermi_level : option float) (c : canvas)
    : canvas :=
  let c := draw (imshow valence_band (fst xlim, 0, fst ylim, snd ylim)%float) c in
  let c := draw (imshow conduction_band (band_gap, snd xlim, fst ylim, snd ylim)) c in
  let c := draw (set_xlim xlim) c in
  let c := draw (plot_black [fst xlim; snd xlim] [0; 0]%float) c in
  let c := draw (set_ylim ylim) c in
  let c := match fermi_level with
           | Some x => draw (axvline x) c
           | None => c
           end in
  let c := draw (set_xlabel (py "Fermi Level (eV)")) c in
  let c := draw (set_ylabel (py "Formation Energy (eV)")) c in
  let c := draw (set_major_locator xaxis 4) c in
  let c := draw (set_minor_locator xaxis 2) c in
  let c := draw (set_major_locator yaxis 4) c in
  draw (set_minor_locator yaxis 2) c.

(** ** [_plot_chemical_potential_table] *)

(** [{elt: energy - elt_refs[elt] for elt, energy in dft_chempots.items()}] *)
Definition relative_chempots (elt_refs dft_chempots : dict float)
    : result (dict float) :=
  for_each
    (fun acc item =>
       ref <- dict_item (fst item) elt_refs ;;
       Ok (dict_set (fst item) (snd item - ref)%float acc))
    dft_chempots [].

(** [cells[0] = f"({cells[0]}"] and then
    [cells[-1] = f"{cells[-1][:-1]})"]. *)
Definition add_brackets (cells : list pystr) : result (list pystr) :=
  first <- first_item cells ;;
  let cells := set_first (py "(" ++ first) cells in
  last <- last_item cells ;;
  Ok (set_last (removelast last ++ py ")") cells).

Definition _plot_chemical_potential_table (dft_chempots : dict float)
    (loc : pystr) (elt_refs : option (dict float)) (c : canvas) : result canvas :=
  dft_chempots <- match elt_refs with
                  | Some refs => relative_chempots refs dft_chempots
                  | None => Ok dft_chempots
                  end ;;
  let elements := sorted_str (map fst dft_chempots) in
  labels <- add_brackets
              (map (fun s => py "$\mathregular{\mu_{" ++ s ++ py "}}$,") elements) ;;
  let labels := py "Chemical Potentials" :: labels ++ [py " Units:"] in
  text_list <- for_each
                 (fun acc el =>
                    energy <- dict_item el dft_chempots ;;
                    Ok (acc ++ [format_2f energy ++ py ","]))
                 elements [] ;;
  text_list <- add_brackets text_list ;;
  let text_list :=
    match elt_refs with
    | Some _ => py "(wrt Elemental refs)" :: text_list ++ [py "  [eV]"]
    | None => py "(from calculations)" :: text_list ++ [py "  [eV]"]
    end in
  width <- py_truediv_len 0.9 (length dft_chempots) ;;
  let widths := 0.1%float :: repeat width (length dft_chempots + 2) in
  let c := draw (table text_list labels widths loc) c in
  let c := draw (auto_set_column_width (seq 0 (length widths))) c in
  Ok (draw (cells_set_linewidth 0) c).

(** ** [_TLD_plot] and what it calls *)

(** The [all_entries] argument: a [bool] or a [str]. *)
Inductive AllEntries : Type :=
| as_bool (b : bool)
| as_str (s : pystr).

(** [all_entries is True], [all_entries == "faded"] and the truth value
    that [not all_entries] tests. *)
Definition is_True (all_entries : AllEntries) : bool :=
  match all_entries with
  | as_bool b => b
  | as_str _ => false
  end.

Definition is_faded (all_entries : AllEntries) : bool :=
  match all_entries with
  | as_bool _ => false
  | as_str s => str_eqb s (py "faded")
  end.

Definition truth (all_entries : AllEntries) : bool :=
  match all_entries with
  | as_bool b => b
  | as_str s => negb (str_eqb s [])
  end.

(** What [_get_plot_setup] returns, but for the colormap, the figure and
    the axes. *)
Record plot_setup : Type := {
  colors : list color;
  styled_fig_size : float * float;
  styled_font_size : float;
  styled_linewidth : float;
  styled_markersize : float
}.

(** The lists that the loop over the transition levels of one species
    fills. *)
Record tl_lists : Type := mkTl {
  x_trans : list float;
  y_trans : list float;
  tl_labels : list pystr;
  tl_label_type : list pystr
}.

Section Plot.

Variable DefectEntry : Type.
Variable name : DefectEntry -> pystr.
Variable charge_state : DefectEntry -> Z.

(** numpy, as above. *)
Variable linspace_item : float -> float -> nat -> nat -> float.
Variable interp_at : float -> list float -> list float -> float.

(** [shakenbreak.plotting._format_defect_name] and
    [pymatgen.util.string.latexify]. *)
Variable _format_defect_name : pystr -> bool -> call (option pystr).
Variable latexify : pystr -> pystr.

(** [matplotlib.colormaps[colormap]]: the colormap, a function from a
    number to a colour, or the [KeyError] of a name that is not registered. *)
Variable colormaps : pystr -> call (float -> color).

(** [plt.rcParams] inside the style context. *)
Variable rc : rcParams.

Variable defect_phase_diagram : DefectPhaseDiagram DefectEntry (option (dict float)).
Variable dft_chempots : option (dict float).

(** *** [_get_plot_setup] *)

Definition _get_plot_setup (colormap : pystr) (xy : dict polyline) (c : canvas)
    : result (plot_setup * canvas) :=
  cmap <- run (colormaps colormap) ;;
  let colors :=
    map cmap (map (linspace_item 0 1 (length xy)) (seq 0 (length xy))) in
  let c := if str_eqb colormap (py "Dark2") && (8 <=? length xy)
           then warn (few_colours_warning (length xy)) c else c in
  let c := draw clf c in
  let styled_fig_size := figure_figsize rc in
  let c := draw (subplots (2.6 / 3.5 * fst styled_fig_size,
                           1.95 / 3.5 * snd styled_fig_size)%float) c in
  Ok ({| colors := colors;
         styled_fig_size := styled_fig_size;
         styled_font_size := font_size rc;
         styled_linewidth := lines_linewidth rc;
         styled_markersize := lines_markersize rc |}, c).

(** *** [_set_title_and_save_figure] *)

Definition _set_title_and_save_figure (title : option pystr)
    (chempot_table : bool) (filename : option pystr) (styled_font_size : float)
    (c : canvas) : canvas :=
  let c :=
    match title with
    | Some ((_ :: _) as t) =>
        if chempot_table
        then draw (set_title (latexify t) (1.2 * styled_font_size)%float (Some 28%Z)) c
        else draw (set_title (latexify t) styled_font_size None) c
    | _ => c
    end in
  match filename with
  | Some f => draw (savefig f) c
  | None => c
  end.

(** *** The transition levels of one species *)

(** The generator that [y_trans.extend] consumes: the energy at [x_val]
    of each stable entry whose charge is [chargeset[0]]. *)
Definition first_charge_energies (stable : list DefectEntry)
    (chargeset : list Z) (x_val : float) (y_trans : list float)
    : result (list float) :=
  for_each
    (fun y_trans defect_entry =>
       q <- first_item chargeset ;;
       if (charge_state defect_entry =? q)%Z
       then Ok (y_trans ++ [energy_at defect_phase_diagram dft_chempots defect_entry x_val])
       else Ok y_trans)
    stable y_trans.

(** [rf"$\epsilon$({max(chargeset):{'+' if max(chargeset) else ''}}/"
    f"{min(chargeset):{'+' if min(chargeset) else ''}})"] *)
Definition tl_label (chargeset : list Z) : result pystr :=
  mx <- py_max_int chargeset ;;
  mn <- py_min_int chargeset ;;
  Ok (py "$\epsilon$(" ++ signed_charge mx ++ py "/" ++ signed_charge mn ++ py ")").

(** Body of [for x_val, chargeset in transition_level_map[def_name].items()]. *)
Definition transition_level_step (def_name : pystr) (tl : tl_lists)
    (item : float * list Z) : result tl_lists :=
  let '(x_val, chargeset) := item in
  let x_trans' := x_trans tl ++ [x_val] in
  stable <- dict_item def_name (stable_entries defect_phase_diagram) ;;
  y_trans' <- first_charge_energies stable chargeset x_val (y_trans tl) ;;
  label <- tl_label chargeset ;;
  mx <- py_max_int chargeset ;;
  let label_type := if (0 <? mx)%Z then py "start_positive" else py "end_negative" in
  Ok (mkTl x_trans' y_trans' (tl_labels tl ++ [label])
        (tl_label_type tl ++ [label_type])).

(** Body of [for index, coords in enumerate(zip(x_trans, y_trans))]. *)
Definition annotate_step (tl : tl_lists) (styled_font_size : float)
    (st : nat * canvas) (coords : float * float) : result (nat * canvas) :=
  let '(index, c) := st in
  label_type <- nth_item (tl_label_type tl) index ;;
  let text_alignment :=
    if str_eqb label_type (py "start_positive") then py "right" else py "left" in
  label <- nth_item (tl_labels tl) index ;;
  Ok (S index,
      draw (annotate label coords text_alignment (styled_font_size * 0.9)%float) c).

(** Body of [for cnt, def_name in enumerate(xy.keys())], the loop that
    plots the transition levels. [ax.plot] raises [ValueError] when it is
    given more or fewer energies than levels, which happens unless each
    level has one stable entry of the charge [chargeset[0]]. *)
Definition transition_levels_step (setup : plot_setup) (auto_labels : bool)
    (st : nat * canvas) (def_name : pystr) : result (nat * canvas) :=
  let '(cnt, c) := st in
  def_tl <- dict_item def_name (transition_level_map defect_phase_diagram) ;;
  tl <- for_each (transition_level_step def_name) def_tl (mkTl [] [] [] []) ;;
  match x_trans tl with
  | [] => Ok (S cnt, c)
  | _ :: _ =>
      col <- nth_item (colors setup) cnt ;;
      if length (x_trans tl) =? length (y_trans tl) then
        let c :=
          draw (plot_markers (x_trans tl) (y_trans tl) col
                  (styled_linewidth setup * 1.2)
                  (styled_markersize setup * (4 / 6)))%float c in
        if auto_labels then
          st <- for_each (annotate_step tl (styled_font_size setup))
                  (combine (x_trans tl) (y_trans tl)) (0, c) ;;
          Ok (S cnt, snd st)
        else Ok (S cnt, c)
      else Raise ValueError
  end.

(** *** The stages of [_TLD_plot] after the lines are plotted *)

(** The names that the legend is made of. *)
Definition legend_names (all_entries : AllEntries)
    (defect_names_for_legend : list pystr) : list pystr :=
  if is_True all_entries
  then map name (entries defect_phase_diagram)
  else defect_names_for_legend.

(** [if ylim is None: ylim = _get_ylim_from_y_range_vals(...)] *)
Definition ylim_stage (all_entries : AllEntries) (auto_labels : bool)
    (l : lines) (ylim : option (float * float)) : result (float * float) :=
  match ylim with
  | None =>
      _get_ylim_from_y_range_vals
        (if is_True all_entries
         then lines_all_entries_y_range_vals l else lines_y_range_vals l)
        (lines_ymin l) auto_labels
  | Some ylim => Ok ylim
  end.

(** [if chempot_table and dft_chempots: _plot_chemical_potential_table(...)] *)
Definition table_stage (chempot_table : bool) (elt_refs : option (dict float))
    (c : canvas) : result canvas :=
  match dft_chempots with
  | Some ((_ :: _) as chempots) =>
      if chempot_table
      then _plot_chemical_potential_table chempots (py "left") elt_refs c
      else Ok c
  | _ => Ok c
  end.

(** *** [_TLD_plot] *)

Definition _TLD_plot (elt_refs : option (dict float)) (chempot_table : bool)
    (all_entries : AllEntries) (xlim ylim : option (float * float))
    (fermi_level : option float) (title : option pystr) (colormap : pystr)
    (auto_labels : bool) (filename : option pystr) (issued : list warning)
    : result canvas :=
  let c := _chempot_warning dft_chempots (mkCanvas issued []) in
  let xlim := match xlim with
              | None => ((-0.3)%float, (band_gap defect_phase_diagram + 0.3)%float)
              | Some xlim => xlim
              end in
  l <- _get_formation_energy_lines name charge_state linspace_item interp_at
         defect_phase_diagram dft_chempots xlim ;;
  let c := fold_left (fun c s => warn (below_zero_warning s) c) (lines_warned l) c in
  let plotted := if is_True all_entries then lines_all_lines_xy l else lines_xy l in
  su <- _get_plot_setup colormap plotted c ;;
  let '(setup, c) := su in
  pl <- _plot_formation_energy_lines plotted (colors setup)
          (styled_linewidth setup) (styled_markersize setup) 1.0 c ;;
  let '(defect_names_for_legend, c) := pl in
  c <- (if is_faded all_entries then
          pl <- _plot_formation_energy_lines (lines_all_lines_xy l)
                  (repeat [0.8; 0.8; 0.8]%float (length (lines_all_lines_xy l)))
                  (styled_linewidth setup) (styled_markersize setup) 0.5 c ;;
          Ok (snd pl)
        else Ok c) ;;
  st <- for_each (transition_levels_step setup auto_labels)
          (map fst (lines_xy l)) (0, c) ;;
  let c := snd st in
  labels <- _get_legends_txt _format_defect_name (truth all_entries)
              (legend_names all_entries defect_names_for_legend) ;;
  let c := draw (legend labels) c in
  ylim <- ylim_stage all_entries auto_labels l ylim ;;
  let c := _add_band_edges_and_axis_limits (band_gap defect_phase_diagram)
             xlim ylim fermi_level c in
  c <- table_stage chempot_table elt_refs c ;;
  Ok (_set_title_and_save_figure title chempot_table filename
        (styled_font_size setup) c).

End Plot.

Arguments first_charge_energies {DefectEntry} charge_state defect_phase_diagram
  dft_chempots stable chargeset x_val y_trans.
Arguments transition_level_step {DefectEntry} charge_state defect_phase_diagram
  dft_chempots def_name tl item.
Arguments transition_levels_step {DefectEntry} charge_state defect_phase_diagram
  dft_chempots setup auto_labels st def_name.
Arguments legend_names {DefectEntry} name defect_phase_diagram all_entries
  defect_names_for_legend.
Arguments _TLD_plot {DefectEntry} name charge_state linspace_item interp_at
  _format_defect_name latexify colormaps rc defect_phase_diagram dft_chempots
  elt_refs chempot_table all_entries xlim ylim fermi_level title colormap
  auto_labels filename issued.

(** ** [formation_energy_plot] *)

(** The [chempots] argument in its two documented formats:
    [{element symbol: chemical potential}], and the format of doped's
    parsing functions, [{"facets": {facet: {element: chemical potential}},
    "elemental_refs": {element: energy}, ...}], of which the function reads
    the items under ["facets"] and ["elemental_refs"] (the latter may be
    missing). *)
Inductive Chempots : Type :=
| element_chempots (d : dict float)
| facet_chempots (facets : dict (dict float)) (elemental_refs : option (dict float)).

(** The [facets] argument: a list of facet names, or a string. *)
Inductive Facets : Type :=
| facet_list (l : list pystr)
| facet_str (s : pystr).

(** [for facet in facets]: the items of a list, the characters of a string. *)
Definition facets_iter (facets : Facets) : list pystr :=
  match facets with
  | facet_list l => l
  | facet_str s => map (fun ch => [ch]) s
  end.

(** [all_entries in [False, True, "faded"]] *)
Definition all_entries_option (all_entries : AllEntries) : bool :=
  match all_entries with
  | as_bool _ => true
  | as_str s => str_eqb s (py "faded")
  end.

(** [f"{filename.rsplit('.',1)[0]}_{facet}.{filename.rsplit('.',1)[1]}"
    if filename else None] *)
Definition facet_filename (filename : option pystr) (facet : pystr)
    : result (option pystr) :=
  match filename with
  | Some ((_ :: _) as f) =>
      extension <- rsplit1_tail 46%N f ;;
      Ok (Some (rsplit1_head 46%N f ++ py "_" ++ facet ++ py "." ++ extension))
  | _ => Ok None
  end.

Section FormationEnergyPlot.

Variable DefectEntry : Type.
Variable name : DefectEntry -> pystr.
Variable charge_state : DefectEntry -> Z.
Variable linspace_item : float -> float -> nat -> nat -> float.
Variable interp_at : float -> list float -> list float -> float.
Variable _format_defect_name : pystr -> bool -> call (option pystr).
Variable latexify : pystr -> pystr.
Variable colormaps : pystr -> call (float -> color).

(** [plt.style.context(style_file)]: the [rcParams] in force inside the
    [with] block, or the exception of a style that cannot be used. *)
Variable style_context : pystr -> call rcParams.

(** [os.path.dirname(__file__)] *)
Variable module_dir : pystr.

(** [any(np.isclose(chempot, 0, atol=0.1) for chempot in chempots.values())]
    when the values are the dictionaries of doped's format: what numpy
    makes of a dictionary is not modelled. *)
Variable any_isclose_nested : dict (dict float) -> option (dict float) -> call bool.

Variable defect_phase_diagram : DefectPhaseDiagram DefectEntry (option (dict float)).

(** [style_file or f"{os.path.dirname(__file__)}/utils/doped.mplstyle"] *)
Definition style_or_default (style_file : option pystr) : pystr :=
  match style_file with
  | Some ((_ :: _) as f) => f
  | _ => module_dir ++ py "/utils/doped.mplstyle"
  end.

(** The test that guards the warning about formal chemical potentials. *)
Definition formal_chempots_test (chempots : option Chempots)
    (facets : option Facets) (elt_refs : option (dict float)) : result bool :=
  match chempots, facets, elt_refs with
  | Some (element_chempots ((_ :: _) as d)), None, None =>
      Ok (existsb isclose_zero (map snd d))
  | Some (facet_chempots fs refs), None, None => run (any_isclose_nested fs refs)
  | _, _, _ => Ok false
  end.

(** Body of [for facet in facets]: the chemical potentials of the facet,
    the reference energies, the file name, and the plot. The state is the
    warnings issued so far and the variable [plot]. *)
Definition facet_step (rc : rcParams) (chempots : Chempots) (chempot_table : bool)
    (all_entries : AllEntries) (xlim ylim : option (float * float))
    (fermi_level : option float) (colormap : pystr) (auto_labels : bool)
    (filename : option pystr) (st : list warning * option canvas) (facet : pystr)
    : result (list warning * option canvas) :=
  dft_chempots <- match chempots with
                  | facet_chempots fs _ => dict_item facet fs
                  | element_chempots _ => Raise TypeError
                  end ;;
  elt_refs <- match chempots with
              | facet_chempots _ (Some refs) => Ok refs
              | _ => Raise KeyError
              end ;;
  plot_filename <- facet_filename filename facet ;;
  plot <- _TLD_plot name charge_state linspace_item interp_at
            _format_defect_name latexify colormaps rc defect_phase_diagram
            (Some dft_chempots) (Some elt_refs) chempot_table all_entries
            xlim ylim fermi_level (Some facet) colormap auto_labels
            plot_filename (fst st) ;;
  Ok (warnings plot, Some plot).

(** The [for] loop over the facets and [return plot]. *)
Definition facets_loop (rc : rcParams) (chempots : Chempots) (chempot_table : bool)
    (all_entries : AllEntries) (xlim ylim : option (float * float))
    (fermi_level : option float) (colormap : pystr) (auto_labels : bool)
    (filename : option pystr) (issued : list warning) (facets : list pystr)
    : result canvas :=
  st <- for_each
          (facet_step rc chempots chempot_table all_entries xlim ylim
             fermi_level colormap auto_labels filename)
          facets (issued, None) ;;
  read_local (snd st).

(** The test [chempots and "facets" in chempots] holds for a dictionary in
    doped's format, and for a dictionary by element when it has the key;
    the value under the key is then a number, which has no [keys]
    ([AttributeError]) and cannot be subscripted ([TypeError]). *)
Definition formation_energy_plot (chempots : option Chempots)
    (facets : option Facets) (elt_refs : option (dict float))
    (chempot_table : bool) (all_entries : AllEntries) (style_file : option pystr)
    (xlim ylim : option (float * float)) (fermi_level : option float)
    (colormap : pystr) (auto_labels : bool) (filename : option pystr)
    : result canvas :=
  if negb (all_entries_option all_entries) then Raise ValueError
  else
    match formal_chempots_test chempots facets elt_refs with
    | Raise e => Raise e
    | OutOfFuel => OutOfFuel
    | Ok formal =>
        let issued := if formal then [formal_chempots_warning] else [] in
        match style_context (style_or_default style_file) with
        | Raises e => Raise e
        | Returns rc =>
            let single dft_chempots :=
              _TLD_plot name charge_state linspace_item interp_at
                _format_defect_name latexify colormaps rc
                defect_phase_diagram dft_chempots elt_refs chempot_table
                all_entries xlim ylim fermi_level None colormap auto_labels
                filename issued in
            let each cp facets :=
              facets_loop rc cp chempot_table all_entries xlim ylim
                fermi_level colormap auto_labels filename issued facets in
            match chempots with
            | Some (facet_chempots fs _ as cp) =>
                match facets with
                | None => each cp (map fst fs)
                | Some facets => each cp (facets_iter facets)
                end
            | Some (element_chempots d as cp) =>
                if str_in (py "facets") (map fst d) then
                  match facets with
                  | None => Raise AttributeError
                  | Some facets => each cp (facets_iter facets)
                  end
                else single (Some d)
            | None => single None
            end
        end
    end.

End FormationEnergyPlot.

Arguments facet_step {DefectEntry} name charge_state linspace_item interp_at
  _format_defect_name latexify colormaps defect_phase_diagram rc chempots
  chempot_table all_entries xlim ylim fermi_level colormap auto_labels filename
  st facet.
Arguments facets_loop {DefectEntry} name charge_state linspace_item interp_at
  _format_defect_name latexify colormaps defect_phase_diagram rc chempots
  chempot_table all_entries xlim ylim fermi_level colormap auto_labels filename
  issued facets.
Arguments formation_energy_plot {DefectEntry} name charge_state linspace_item
  interp_at _format_defect_name latexify colormaps style_context module_dir
  any_isclose_nested defect_phase_diagram chempots facets elt_refs chempot_table
  all_entries style_file xlim ylim fermi_level colormap auto_labels filename.

(** ** Notions used in the statements on the plots *)

(** Strings in ascending order, each below all that follow. *)
Fixpoint ascending (l : list pystr) : Prop :=
  match l with
  | [] => True
  | x :: t => Forall (fun y => str_ltb x y = true) t /\ ascending t
  end.

(** The opening bracket of the first cell of the table, and the comma or
    closing bracket that ends cell [i] of [n]. *)
Definition cell_opens (i : nat) : pystr :=
  if i =? 0 then py "(" else [].

Definition cell_closes (n i : nat) : pystr :=
  if S i =? n then py ")" else py ",".

(** The number that the table shows for an element: the chemical potential,
    or its difference to the reference energy of the element. *)
Definition shown_chempot (elt_refs : option (dict float)) (el : pystr)
    (energy : float) : option float :=
  match elt_refs with
  | None => Some energy
  | Some refs => option_map (fun ref => (energy - ref)%float) (dict_get el refs)
  end.

(** An item of the dictionary of differences to the reference energies. *)
Definition relative_item (refs : dict float) (item : pystr * float)
    : pystr * float :=
  (fst item,
   (snd item - match dict_get (fst item) refs with
               | Some ref => ref
               | None => 0
               end)%float).

(** Every element of the dictionary has its reference energy. *)
Definition refs_cover (elt_refs : option (dict float)) (dft_chempots : dict float)
    : bool :=
  match elt_refs with
  | None => true
  | Some refs => forallb (fun el => is_some (dict_get el refs)) (map fst dft_chempots)
  end.

(** What the steps of the second loop leave alone, and how many range
    values they add. *)
Definition grows_by (n : nat) (st st' : locals) : Prop :=
  length (y_range_vals st') = length (y_range_vals st) + n
  /\ ymin st' = ymin st /\ warned st' = warned st.

(** The lower limit is zero until a warning is issued, and below zero from
    then on. *)
Definition lower_limit_inv (st : locals) : Prop :=
  (warned st = [] /\ ymin st = 0%float)
  \/ (warned st <> [] /\ (ymin st <? 0)%float = true).

(** What the markers of the transition levels of a species need to sit on
    its envelope: every level lists its biggest charge first, exactly one
    stable entry has that charge, and the levels are numbers that differ
    from each other. *)
Definition markers_ready {DefectEntry : Type} (charge_state : DefectEntry -> Z)
    (stable : list DefectEntry) (def_tl : list (float * list Z)) : bool :=
  forallb
    (fun item =>
       match py_max_int (snd item), hd_error (snd item) with
       | Ok q, Some q0 =>
           (q =? q0)%Z
           && (length (filter (fun e => (charge_state e =? q0)%Z) stable) =? 1)
       | _, _ => false
       end)
    def_tl
  && pairwise_distinct (map fst def_tl)
  && forallb (fun x => (x =? x)%float) (map fst def_tl).

(** The stable entries whose charge is the one that the list of charges of
    a level starts with: each gives the level an energy in [y_trans]. *)
Definition first_charge_count {DefectEntry : Type} (charge_state : DefectEntry -> Z)
    (stable : list DefectEntry) (item : float * list Z) : nat :=
  match hd_error (snd item) with
  | Some q0 => length (filter (fun e => (charge_state e =? q0)%Z) stable)
  | None => 0
  end.

(** What [ax.plot] needs of the markers of a species: each level has
    exactly one stable entry of the charge that its list of charges starts
    with, so that there are as many energies as levels. *)
Definition markers_fit {DefectEntry : Type} (charge_state : DefectEntry -> Z)
    (stable : list DefectEntry) (def_tl : list (float * list Z)) : bool :=
  forallb
    (fun item =>
       match hd_error (snd item) with
       | Some q0 =>
           length (filter (fun e => (charge_state e =? q0)%Z) stable) =? 1
       | None => false
       end)
    def_tl.

(** ** Sample data for the plots *)

(** Chemical potentials and reference energies to run the table on. *)
Definition sample_chempots : dict float :=
  [(py "Te", (-4.47)%float); (py "Cd", (-1.016)%float)].

Definition sample_elt_refs : dict float :=
  [(py "Cd", (-0.906)%float); (py "Te", (-3.142)%float)].

(** An interstitial whose energy is below zero wherever the Fermi level
    is, beside the vacancy. *)
Definition int_low : SampleEntry :=
  {| se_name := py "Int_Te_3"; se_charge := 0; se_slope := 0%float;
     se_energy := (-3.25)%float |}.

Definition low_diagram : DefectPhaseDiagram SampleEntry unit :=
  {| entries := [vac_plus; vac_minus; int_low];
     stable_entries :=
       [(py "vac_1_Cd@0", [vac_plus; vac_minus]); (py "Int_Te_3_0@1", [int_low])];
     transition_level_map :=
       [(py "vac_1_Cd@0", [(1%float, [1; -1]%Z)]); (py "Int_Te_3_0@1", [])];
     band_gap := 2%float;
     _formation_energy := sample_energy |}.

Definition plot_energy (e : SampleEntry) (_ : option (dict float))
    (fermi_level : float) : float :=
  sample_energy e tt fermi_level.

Definition plot_diagram (es : list SampleEntry) (stable : dict (list SampleEntry))
    (tl_map : dict (list (float * list Z)))
    : DefectPhaseDiagram SampleEntry (option (dict float)) :=
  {| entries := es;
     stable_entries := stable;
     transition_level_map := tl_map;
     band_gap := 2%float;
     _formation_energy := plot_energy |}.

(** The vacancy with its transition (+1/-1) at 1 eV. *)
Definition vacancy_diagram : DefectPhaseDiagram SampleEntry (option (dict float)) :=
  plot_diagram [vac_plus; vac_minus]
    [(py "vac_1_Cd@0", [vac_plus; vac_minus])]
    [(py "vac_1_Cd@0", [(1%float, [1; -1]%Z)])].

(** The same, the species named by a name that the formatter knows. *)
Definition labelled_diagram : DefectPhaseDiagram SampleEntry (option (dict float)) :=
  plot_diagram [vac_plus; vac_minus]
    [(py "vac_1_Cd_0@0", [vac_plus; vac_minus])]
    [(py "vac_1_Cd_0@0", [(1%float, [1; -1]%Z)])].

(** The vacancy with its entry of charge +1 listed twice among the stable
    entries. *)
Definition doubled_diagram : DefectPhaseDiagram SampleEntry (option (dict float)) :=
  plot_diagram [vac_plus; vac_minus]
    [(py "vac_1_Cd_0@0", [vac_plus; vac_plus; vac_minus])]
    [(py "vac_1_Cd_0@0", [(1%float, [1; -1]%Z)])].

(** Entries, but no species in the transition-level map. *)
Definition bare_diagram : DefectPhaseDiagram SampleEntry (option (dict float)) :=
  plot_diagram [vac_plus; vac_minus] [] [].

(** One colormap, of greys; the sizes of a style; no change of a title. *)
Definition sample_colormaps (colormap : pystr) : call (float -> color) :=
  if str_eqb colormap (py "Dark2")
  then Returns (fun x => [x; x; x; 1%float])
  else Raises KeyError.

Definition sample_rc : rcParams :=
  {| figure_figsize := (3.5, 3.5)%float;
     font_size := 9%float;
     lines_linewidth := 1.5%float;
     lines_markersize := 6%float |}.

Definition sample_latexify (s : pystr) : pystr := s.

(** What [_get_plot_setup] returns in this setting for one line. *)
Definition sample_setup : plot_setup :=
  {| colors := [[0; 0; 0; 1]%float];
     styled_fig_size := figure_figsize sample_rc;
     styled_font_size := font_size sample_rc;
     styled_linewidth := lines_linewidth sample_rc;
     styled_markersize := lines_markersize sample_rc |}.

(** [_TLD_plot] in this setting, with the defaults for the limits of the
    x-axis, the Fermi level, the title, the colormap and the file name. *)
Definition run_TLD_plot (d : DefectPhaseDiagram SampleEntry (option (dict float)))
    (dft_chempots elt_refs : option (dict float)) (chempot_table : bool)
    (all_entries : AllEntries) (ylim : option (float * float)) (auto_labels : bool)
    : result canvas :=
  _TLD_plot se_name se_charge sample_linspace sample_interp sample_format
    sample_latexify sample_colormaps sample_rc d dft_chempots elt_refs
    chempot_table all_entries None ylim None None (py "Dark2") auto_labels None [].

(** Chemical potentials in the format of doped's parsing functions, and
    [formation_energy_plot] in the setting above, where any style can be
    used and the closeness test finds no dictionary close to zero. *)
Definition sample_facet_table : dict (dict float) :=
  [(py "Cd-rich", [(py "Cd", (-1.016)%float); (py "Te", (-5.72)%float)]);
   (py "Te-rich", [(py "Cd", (-2.26)%float); (py "Te", (-4.47)%float)])].

Definition sample_facets : Chempots :=
  facet_chempots sample_facet_table (Some sample_elt_refs).

Definition run_formation_energy_plot (chempots : option Chempots)
    (facets : option Facets) (all_entries : AllEntries) (filename : option pystr)
    : result canvas :=
  formation_energy_plot se_name se_charge sample_linspace sample_interp
    sample_format sample_latexify sample_colormaps (fun _ => Returns sample_rc)
    (py "doped") (fun _ _ => Returns false) vacancy_diagram chempots facets
    None true all_entries None None None None (py "Dark2") false filename.

(** * Properties *)

(** ** Strings and dictionaries *)

Lemma str_eqb_eq (a b : pystr) : str_eqb a b = true <-> a = b.
Proof.
  revert b; induction a as [|x a IH]; intros [|y b]; simpl;
    try (split; [discriminate | intros H; inversion H]); [tauto|].
  rewrite andb_true_iff, N.eqb_eq, IH.
  split; [intros [-> ->]; reflexivity | intros H; inversion H; auto].
Qed.

Lemma str_eqb_refl (a : pystr) : str_eqb a a = true.
Proof. apply str_eqb_eq; reflexivity. Qed.

Lemma str_eqb_neq (a b : pystr) : str_eqb a b = false <-> a <> b.
Proof.
  rewrite <- str_eqb_eq. destruct (str_eqb a b); split; congruence.
Qed.

Lemma str_in_In (x : pystr) (l : list pystr) : str_in x l = true <-> In x l.
Proof.
  unfold str_in. rewrite existsb_exists. split.
  - intros [y [Hy E]]. apply str_eqb_eq in E. subst. exact Hy.
  - intros H. exists x. split; [exact H | apply str_eqb_refl].
Qed.

Lemma str_in_not_In (x : pystr) (l : list pystr) : str_in x l = false <-> ~ In x l.
Proof.
  rewrite <- str_in_In. destruct (str_in x l); split; congruence.
Qed.

Lemma slices_m3 (s : pystr) : slice_to_m3 s ++ slice_from_m3 s = s.
Proof. apply firstn_skipn. Qed.

Lemma length_with_letter (s c : pystr) :
  length (slice_to_m3 s ++ c ++ slice_from_m3 s) = length s + length c.
Proof.
  rewrite !length_app. rewrite <- (slices_m3 s) at 3. rewrite length_app. lia.
Qed.

(** ** Y-axis limits *)

(** C4 (failing input). With [auto_labels] on and a list whose top
    [max + 0.1 * (max - min)] is zero, the test [spacer / ylim[1] < 0.145]
    divides by zero: the call raises [ZeroDivisionError] and returns no
    limits, for the one-value list [[0.0]] and for [[-11.0, -1.0]]. *)
Theorem ylim_zero_top_raises :
  _get_ylim_from_y_range_vals [0.0]%float 0%float true = Raise ZeroDivisionError
  /\ _get_ylim_from_y_range_vals [(-11.0)%float; (-1.0)%float] 0%float true
     = Raise ZeroDivisionError.
Proof. split; reflexivity. Qed.

(** C5 (as amended). On the empty list the function raises [ValueError],
    from [max] of an empty sequence, whatever [ymin] and [auto_labels] are. *)
Theorem ylim_empty_raises (ymin : float) (auto_labels : bool) :
  _get_ylim_from_y_range_vals [] ymin auto_labels = Raise ValueError.
Proof. reflexivity. Qed.

(** C5 (counterexample). It is not so that the call on the empty list
    raises no exception. *)
Lemma ylim_empty_not_silent :
  ~ (forall e : exn, _get_ylim_from_y_range_vals [] 0%float false <> Raise e).
Proof. intros H. exact (H ValueError eq_refl). Qed.

(** Without labels the limits of a non-empty list are
    [(ymin, max + 0.1 * (max - min))]. *)
Lemma ylim_without_labels (v : float) (t : list float) (ymin : float) :
  _get_ylim_from_y_range_vals (v :: t) ymin false
  = Ok (ymin, (max_from v t + 0.1 * (max_from v t - min_from v t))%float).
Proof. reflexivity. Qed.

(** With labels the limits of a non-empty list are widened to
    [max * 1.17] when [spacer / top < 0.145], stay at the base [top]
    otherwise, and the call raises when [top] is zero. *)
Lemma ylim_with_labels (v : float) (t : list float) (ymin : float) :
  let mx := max_from v t in
  let spacer := (0.1 * (mx - min_from v t))%float in
  let top := (mx + spacer)%float in
  _get_ylim_from_y_range_vals (v :: t) ymin true
  = if (top =? 0)%float then Raise ZeroDivisionError
    else if (spacer / top <? 0.145)%float then Ok (ymin, (mx * 1.17)%float)
    else Ok (ymin, top).
Proof.
  simpl. unfold _get_ylim_from_y_range_vals, py_truediv. simpl.
  destruct (_ =? 0)%float; reflexivity.
Qed.

(** The two computed cases of the specification. *)
Lemma ylim_examples :
  _get_ylim_from_y_range_vals [0.0; 2.0]%float 0%float false
  = Ok (0.0, 2.2)%float
  /\ _get_ylim_from_y_range_vals [0.0; 1.0]%float 0%float true
     = Ok (0.0, 1.17)%float.
Proof. split; reflexivity. Qed.

(** ** Legend labels *)

Lemma name_eqb_eq (a b : option pystr) : name_eqb a b = true <-> a = b.
Proof.
  destruct a as [x|], b as [y|]; simpl.
  - rewrite str_eqb_eq. split; [intros ->; reflexivity|].
    intros H; inversion H; reflexivity.
  - split; [discriminate|intros H; inversion H].
  - split; [discriminate|intros H; inversion H].
  - split; reflexivity.
Qed.

Lemma name_in_In (x : option pystr) (l : list (option pystr)) :
  name_in x l = true <-> In x l.
Proof.
  unfold name_in. rewrite existsb_exists. split.
  - intros [y [Hy E]]. apply name_eqb_eq in E. subst. exact Hy.
  - intros H. exists x. split; [exact H | apply name_eqb_eq; reflexivity].
Qed.

Lemma name_in_not_In (x : option pystr) (l : list (option pystr)) :
  name_in x l = false <-> ~ In x l.
Proof.
  rewrite <- name_in_In. destruct (name_in x l); split; congruence.
Qed.

Section LegendFacts.

Variable fmt : pystr -> bool -> call (option pystr).
Variable all_entries : bool.

Local Abbreviation step := (legend_step fmt all_entries).
Local Abbreviation label := (first_attempt fmt all_entries).

Lemma for_each_app {A S : Type} (body : S -> A -> result S) (l1 l2 : list A) (s : S) :
  for_each body (l1 ++ l2) s
  = match for_each body l1 s with
    | Ok s' => for_each body l2 s'
    | Raise e => Raise e
    | OutOfFuel => OutOfFuel
    end.
Proof.
  revert s; induction l1 as [|a l1 IH]; intros s; simpl; [reflexivity|].
  destruct (body s a); auto.
Qed.

(** A name whose label is already taken and whose retry raises: the step
    raises. *)
Lemma legend_step_retry_raises (legends_txt : list (option pystr)) (n : pystr)
    (e : exn) :
  name_in (label n) legends_txt = true ->
  fmt n true = Raises e ->
  step legends_txt n = Raise e.
Proof.
  intros Hin Hf. unfold legend_step, retry_stage, format_attempt.
  rewrite Hin, Hf. reflexivity.
Qed.

End LegendFacts.

(** C8 (failing input). A name that the formatter rejects is kept as it is
    when its label is new, but when the same raw name is already in the
    legend the formatter is called again outside the [try] block and its
    exception leaves [_get_legends_txt]. *)
Theorem retry_failure_propagates
    (fmt : pystr -> bool -> call (option pystr)) (all_entries : bool)
    (n : pystr) (e e' : exn) :
  fmt n false = Raises e ->
  fmt n true = Raises e' ->
  _get_legends_txt fmt all_entries [n] = Ok [Some n]
  /\ _get_legends_txt fmt all_entries [n; n] = Raise e'.
Proof.
  intros H1 H2.
  assert (Hlabel : first_attempt fmt all_entries n = Some n).
  { unfold first_attempt, format_attempt. rewrite H1. reflexivity. }
  assert (Hfirst : legend_step fmt all_entries [] n = Ok [Some n]).
  { unfold legend_step. rewrite Hlabel. reflexivity. }
  unfold _get_legends_txt. cbn [for_each]. rewrite Hfirst. split; [reflexivity|].
  rewrite (legend_step_retry_raises fmt all_entries [Some n] n e'); auto.
  rewrite Hlabel. simpl. rewrite str_eqb_refl. reflexivity.
Qed.

Lemma retry_failure_propagates_witness :
  _get_legends_txt (fun _ _ => Raises ValueError) false [py "foo"]
  = Ok [Some (py "foo")]
  /\ _get_legends_txt (fun _ _ => Raises ValueError) false [py "foo"; py "foo"]
     = Raise ValueError.
Proof.
  apply (retry_failure_propagates (fun _ _ => Raises ValueError) false (py "foo")
           ValueError ValueError); reflexivity.
Defined.

(** C7 (failing input). After any prefix of names that was formatted, a
    name whose first label is already in the legend and whose site-number
    retry raises makes the whole call raise: no list of labels is returned. *)
Theorem taken_label_and_failing_retry_returns_no_labels
    (fmt : pystr -> bool -> call (option pystr)) (all_entries : bool)
    (names rest : list pystr) (labels : list (option pystr)) (n : pystr)
    (e : exn) :
  _get_legends_txt fmt all_entries names = Ok labels ->
  name_in (first_attempt fmt all_entries n) labels = true ->
  fmt n true = Raises e ->
  _get_legends_txt fmt all_entries (names ++ n :: rest) = Raise e.
Proof.
  unfold _get_legends_txt. intros Hrun Hin Hf.
  rewrite for_each_app, Hrun. cbn [for_each].
  rewrite (legend_step_retry_raises fmt all_entries labels n e Hin Hf).
  reflexivity.
Qed.

Lemma taken_label_and_failing_retry_witness :
  _get_legends_txt sample_format false
    ([py "vac_1_Cd_0"; py "foo"] ++ py "foo" :: [py "vac_1_Cd_0"])
  = Raise ValueError.
Proof.
  apply (taken_label_and_failing_retry_returns_no_labels sample_format false
           [py "vac_1_Cd_0"; py "foo"] [py "vac_1_Cd_0"]
           [Some (py "$V_{Cd}$"); Some (py "foo")] (py "foo") ValueError);
    reflexivity.
Defined.

(** ** Order of floats and [sorted] *)

Lemma SFcompare_antisym (s1 s2 : spec_float) (c : comparison) :
  SFcompare s1 s2 = Some c -> SFcompare s2 s1 = Some (CompOpp c).
Proof.
  destruct s1 as [b1| b1| |b1 m1 e1], s2 as [b2| b2| |b2 m2 e2]; simpl;
    try discriminate;
    try (destruct b1; try destruct b2; intros H; inversion H; reflexivity).
  change (PosDef.Pos.compare_cont Eq m1 m2) with (m1 ?= m2)%positive.
  change (PosDef.Pos.compare_cont Eq m2 m1) with (m2 ?= m1)%positive.
  rewrite (Z.compare_antisym e1 e2), (Pos.compare_antisym m1 m2).
  intros H; inversion H; subst; clear H.
  destruct b1, b2, (e1 ?= e2)%Z, (m1 ?= m2)%positive; reflexivity.
Qed.

(** Two numbers that each took part in a comparison are comparable. *)
Lemma SFcompare_defined (s1 s2 s3 s4 : spec_float) (c c' : comparison) :
  SFcompare s1 s2 = Some c -> SFcompare s3 s4 = Some c' ->
  exists d, SFcompare s2 s4 = Some d.
Proof.
  destruct s1, s2, s3, s4; simpl; try discriminate; intros; eauto.
Qed.

(** Floats above some float (so: not NaN) are ordered totally. *)
Lemma ltb_trichotomy (a b x y : float) :
  (a <? x)%float = true -> (b <? y)%float = true ->
  (x <? y)%float = true \/ (x =? y)%float = true \/ (y <? x)%float = true.
Proof.
  rewrite !ltb_spec, eqb_spec. unfold SFltb, SFeqb. intros Hx Hy.
  destruct (SFcompare (Prim2SF a) (Prim2SF x)) as [c|] eqn:Ex; try discriminate.
  destruct (SFcompare (Prim2SF b) (Prim2SF y)) as [c'|] eqn:Ey; try discriminate.
  destruct (SFcompare_defined _ _ _ _ _ _ Ex Ey) as [d Hd].
  rewrite Hd, (SFcompare_antisym _ _ _ Hd). destruct d; simpl; auto.
Qed.

Lemma insert_sorted_length (x : float) (l : list float) :
  length (insert_sorted x l) = S (length l).
Proof.
  induction l as [|h t IH]; simpl; [reflexivity|].
  destruct (h <? x)%float; simpl; auto.
Qed.

Lemma sorted_length (l : list float) : length (sorted l) = length l.
Proof.
  induction l as [|x l IH]; simpl; [reflexivity|].
  rewrite insert_sorted_length, IH. reflexivity.
Qed.

Lemma insert_sorted_In (x y : float) (l : list float) :
  In y (insert_sorted x l) <-> y = x \/ In y l.
Proof.
  induction l as [|h t IH]; simpl.
  - intuition auto.
  - destruct (h <? x)%float; simpl; rewrite ?IH; intuition auto.
Qed.

Lemma sorted_In (y : float) (l : list float) : In y (sorted l) <-> In y l.
Proof.
  induction l as [|x l IH]; simpl; [tauto|].
  rewrite insert_sorted_In, IH. intuition auto.
Qed.

(** [sorted] of a non-empty list has a first and a last item. *)
Lemma sorted_ends (x : float) (l : list float) :
  exists x0 xn, first_item (sorted (x :: l)) = Ok x0
                /\ last_item (sorted (x :: l)) = Ok xn.
Proof.
  pose proof (sorted_length (x :: l)) as Hlen.
  destruct (sorted (x :: l)) as [|x0 t] eqn:E; [discriminate|].
  exists x0. unfold last_item.
  destruct (rev (x0 :: t)) as [|xn r] eqn:Er.
  - apply (f_equal (@length float)) in Er. rewrite length_rev in Er. discriminate.
  - exists xn. split; reflexivity.
Qed.

Lemma first_item_In {A : Type} (l : list A) (x : A) : first_item l = Ok x -> In x l.
Proof.
  destruct l; simpl; [discriminate|]. intros H; inversion H; left; reflexivity.
Qed.

Section Increasing.

(** Floats known to be numbers: each is above the lower cap. *)
Local Abbreviation above l :=
  (forall y : float, In y l -> (lower_cap <? y)%float = true).

Lemma increasing_cons (x : float) (l : list float) :
  increasing l = true ->
  (forall y, hd_error l = Some y -> (x <? y)%float = true) ->
  increasing (x :: l) = true.
Proof.
  destruct l as [|y t]; simpl; [reflexivity|].
  intros H Hx. rewrite (Hx y eq_refl). exact H.
Qed.

Lemma insert_sorted_increasing (x : float) (l : list float) :
  increasing l = true ->
  (lower_cap <? x)%float = true -> above l ->
  (forall y, In y l -> (x =? y)%float = false) ->
  increasing (insert_sorted x l) = true.
Proof.
  induction l as [|h t IH]; intros Hinc Hx Hl Hne; [reflexivity|].
  cbn [insert_sorted]. destruct (h <? x)%float eqn:Ehx.
  - apply increasing_cons.
    + apply IH; auto.
      * destruct t; [reflexivity|]. simpl in Hinc.
        apply andb_true_iff in Hinc. tauto.
      * intros y Hy. apply Hl. right; exact Hy.
      * intros y Hy. apply Hne. right; exact Hy.
    + intros y Hy. destruct t as [|h2 t2]; cbn [insert_sorted] in Hy.
      * inversion Hy; subst. exact Ehx.
      * simpl in Hinc. apply andb_true_iff in Hinc. destruct Hinc as [Hh _].
        destruct (h2 <? x)%float; inversion Hy; subst; assumption.
  - apply increasing_cons; [exact Hinc|].
    intros y Hy. inversion Hy; subst y.
    destruct (ltb_trichotomy lower_cap lower_cap x h Hx (Hl h (or_introl eq_refl)))
      as [H|[H|H]]; [exact H| |congruence].
    rewrite (Hne h (or_introl eq_refl)) in H. discriminate.
Qed.

Lemma sorted_increasing (l : list float) :
  above l -> pairwise_distinct l = true -> increasing (sorted l) = true.
Proof.
  induction l as [|x l IH]; intros Hl Hd; [reflexivity|].
  simpl in Hd. apply andb_true_iff in Hd. destruct Hd as [Hx Hd].
  change (sorted (x :: l)) with (insert_sorted x (sorted l)).
  apply insert_sorted_increasing.
  - apply IH; auto. intros y Hy. apply Hl. right; exact Hy.
  - apply Hl. left; reflexivity.
  - intros y Hy. apply Hl. right. apply (proj1 (sorted_In y l)). exact Hy.
  - intros y Hy. apply (proj1 (sorted_In y l)) in Hy.
    rewrite forallb_forall in Hx. apply negb_true_iff. apply Hx. exact Hy.
Qed.

Lemma increasing_app_last (l : list float) (z : float) :
  increasing l = true ->
  (forall y, In y l -> (y <? z)%float = true) ->
  increasing (l ++ [z]) = true.
Proof.
  induction l as [|x t IH]; intros Hinc Hz; [reflexivity|].
  destruct t as [|y t'].
  - simpl. rewrite (Hz x (or_introl eq_refl)). reflexivity.
  - simpl in Hinc. apply andb_true_iff in Hinc. destruct Hinc as [Hxy Hinc].
    change (increasing (x :: (y :: t') ++ [z]) = true).
    apply increasing_cons.
    + apply IH; [exact Hinc|]. intros w Hw. apply Hz. right; exact Hw.
    + intros w Hw. inversion Hw; subst. exact Hxy.
Qed.

(** The abscissas of an envelope increase when the breakpoints are distinct
    and lie between the caps. *)
Lemma capped_sorted_increasing (keys : list float) :
  between_caps keys = true -> pairwise_distinct keys = true ->
  increasing (lower_cap :: sorted keys ++ [upper_cap]) = true.
Proof.
  intros Hb Hd. unfold between_caps in Hb. rewrite forallb_forall in Hb.
  assert (Hin : forall y, In y (sorted keys) ->
                  (lower_cap <? y)%float = true /\ (y <? upper_cap)%float = true).
  { intros y Hy. apply (proj1 (sorted_In y keys)) in Hy.
    apply andb_true_iff. apply Hb. exact Hy. }
  apply increasing_cons.
  - apply increasing_app_last.
    + apply sorted_increasing; [|exact Hd].
      intros y Hy. apply Hin. apply (proj2 (sorted_In y keys)). exact Hy.
    + intros y Hy. apply Hin. exact Hy.
  - intros y Hy. destruct (sorted keys) as [|k t] eqn:E; simpl in Hy.
    + inversion Hy; subst. reflexivity.
    + inversion Hy; subst. apply Hin. left; reflexivity.
Qed.

End Increasing.

(** ** Dictionaries *)

Section DictFacts.

Context {V : Type}.

Lemma dict_get_set_same (k : pystr) (v : V) (d : dict V) :
  dict_get k (dict_set k v d) = Some v.
Proof.
  induction d as [|[k' v'] r IH]; simpl.
  - rewrite str_eqb_refl. reflexivity.
  - destruct (str_eqb k k') eqn:E; simpl; rewrite E; auto.
Qed.

Lemma dict_get_set_other (k k' : pystr) (v : V) (d : dict V) :
  k <> k' -> dict_get k (dict_set k' v d) = dict_get k d.
Proof.
  intros Hne. induction d as [|[k2 v2] r IH]; simpl.
  - apply str_eqb_neq in Hne. rewrite Hne. reflexivity.
  - destruct (str_eqb k' k2) eqn:E; simpl.
    + apply str_eqb_eq in E. subst k2.
      apply str_eqb_neq in Hne. rewrite Hne. reflexivity.
    + rewrite IH. reflexivity.
Qed.

Lemma dict_set_set (k : pystr) (v1 v2 : V) (d : dict V) :
  dict_set k v2 (dict_set k v1 d) = dict_set k v2 d.
Proof.
  induction d as [|[k' v'] r IH]; simpl.
  - rewrite str_eqb_refl. reflexivity.
  - destruct (str_eqb k k') eqn:E; simpl; rewrite E; [reflexivity|].
    rewrite IH. reflexivity.
Qed.

Lemma dict_modify_set (k : pystr) (f : V -> V) (v : V) (d : dict V) :
  dict_modify k f (dict_set k v d) = dict_set k (f v) d.
Proof.
  unfold dict_modify. rewrite dict_get_set_same. apply dict_set_set.
Qed.

Lemma dict_get_modify_same (k : pystr) (f : V -> V) (v : V) (d : dict V) :
  dict_get k d = Some v -> dict_get k (dict_modify k f d) = Some (f v).
Proof.
  intros H. unfold dict_modify. rewrite H. apply dict_get_set_same.
Qed.

Lemma dict_get_modify_other (k k' : pystr) (f : V -> V) (d : dict V) :
  k <> k' -> dict_get k (dict_modify k' f d) = dict_get k d.
Proof.
  intros H. unfold dict_modify. destruct (dict_get k' d); [|reflexivity].
  apply dict_get_set_other. exact H.
Qed.

End DictFacts.

(** ** The first loop: all-states lines *)

Lemma fold_left_find_last {A B : Type} (p : A -> bool) (g : A -> B)
    (l : list A) (v : option B) :
  fold_left (fun v a => if p a then Some (g a) else v) l v
  = match find_last p l with
    | Some a => Some (g a)
    | None => v
    end.
Proof.
  revert v. induction l as [|a l IH]; intros v; simpl; [reflexivity|].
  rewrite IH. destruct (find_last p l); [reflexivity|].
  destruct (p a); reflexivity.
Qed.

Lemma find_last_In {A : Type} (p : A -> bool) (l : list A) (a : A) :
  find_last p l = Some a -> In a l /\ p a = true.
Proof.
  induction l as [|b l IH]; simpl; [discriminate|].
  destruct (find_last p l) as [c|].
  - intros H; inversion H; subst. destruct (IH eq_refl); auto.
  - destruct (p b) eqn:E; [|discriminate].
    intros H; inversion H; subst. auto.
Qed.

(** The last item that passes the test, seen from its place in the list. *)
Lemma find_last_split {A : Type} (p : A -> bool) (pre post : list A) (a : A) :
  p a = true -> forallb (fun b => negb (p b)) post = true ->
  find_last p (pre ++ a :: post) = Some a.
Proof.
  intros Ha Hpost.
  assert (Hnone : find_last p post = None).
  { induction post as [|b post IH]; simpl in *; [reflexivity|].
    apply andb_true_iff in Hpost. destruct Hpost as [Hb Hpost].
    rewrite (IH Hpost). apply negb_true_iff in Hb. rewrite Hb. reflexivity. }
  induction pre as [|b pre IH]; simpl.
  - rewrite Hnone, Ha. reflexivity.
  - rewrite IH. reflexivity.
Qed.

Section AllLinesFacts.

Variable DefectEntry : Type.
Variable name : DefectEntry -> pystr.
Variable charge_state : DefectEntry -> Z.
Variable ChemPots : Type.
Variable d : DefectPhaseDiagram DefectEntry ChemPots.
Variable chempots : ChemPots.
Variable xlim : float * float.

Local Abbreviation E := (energy_at d chempots).
Local Abbreviation key := (entry_key name charge_state).
Local Abbreviation edges := (window_energies d chempots xlim).
Local Abbreviation step := (all_lines_step name charge_state d chempots xlim).
Local Abbreviation line_of := (two_point_line d chempots).

(** One turn of the first loop: the entry's key gets the two-point line, and
    the window-edge energies are added once per cap, so twice. *)
Lemma all_lines_step_eq (st : dict polyline * list float) (e : DefectEntry) :
  step st e = (dict_set (key e) (line_of e) (fst st), (snd st ++ edges e) ++ edges e).
Proof.
  unfold all_lines_step, all_lines_inner. cbn [fold_left fst snd].
  rewrite !dict_modify_set. reflexivity.
Qed.

Lemma all_lines_fold_xy (l : list DefectEntry) (st : dict polyline * list float)
    (k : pystr) :
  dict_get k (fst (fold_left step l st))
  = match find_last (fun e => str_eqb k (key e)) l with
    | Some e => Some (line_of e)
    | None => dict_get k (fst st)
    end.
Proof.
  revert st. induction l as [|e l IH]; intros st; [reflexivity|].
  cbn [fold_left find_last]. rewrite IH.
  destruct (find_last _ l); [reflexivity|].
  rewrite all_lines_step_eq. cbn [fst].
  destruct (str_eqb k (key e)) eqn:Ek.
  - apply str_eqb_eq in Ek. subst k. apply dict_get_set_same.
  - apply dict_get_set_other. apply str_eqb_neq. exact Ek.
Qed.

Lemma all_lines_fold_range (l : list DefectEntry) (st : dict polyline * list float) :
  snd (fold_left step l st) = snd st ++ flat_map (fun e => edges e ++ edges e) l.
Proof.
  revert st. induction l as [|e l IH]; intros st; cbn [fold_left flat_map].
  - rewrite app_nil_r. reflexivity.
  - rewrite IH, all_lines_step_eq. cbn [snd]. rewrite <- !app_assoc. reflexivity.
Qed.

(** The line stored under a key is the line of the last entry with it. *)
Lemma all_lines_get (k : pystr) :
  dict_get k (fst (all_lines name charge_state d chempots xlim))
  = option_map line_of (entry_of_key name charge_state d k).
Proof.
  unfold all_lines, entry_of_key. rewrite all_lines_fold_xy.
  destruct (find_last _ _); reflexivity.
Qed.

Lemma all_lines_range :
  snd (all_lines name charge_state d chempots xlim)
  = flat_map (fun e => edges e ++ edges e) (entries d).
Proof. unfold all_lines. rewrite all_lines_fold_range. reflexivity. Qed.

End AllLinesFacts.

(** Whenever the function returns, its all-states part is what the first
    loop built. *)
Lemma lines_all_part
    (DefectEntry : Type) (name : DefectEntry -> pystr)
    (charge_state : DefectEntry -> Z) (ChemPots : Type)
    (d : DefectPhaseDiagram DefectEntry ChemPots) (chempots : ChemPots)
    (xlim : float * float)
    (linspace_item : float -> float -> nat -> nat -> float)
    (interp_at : float -> list float -> list float -> float) (r : lines) :
  _get_formation_energy_lines name charge_state linspace_item interp_at
    d chempots xlim = Ok r ->
  lines_all_lines_xy r = fst (all_lines name charge_state d chempots xlim)
  /\ lines_all_entries_y_range_vals r
     = snd (all_lines name charge_state d chempots xlim).
Proof.
  unfold _get_formation_energy_lines.
  destruct (all_lines name charge_state d chempots xlim) as [al ar].
  destruct (for_each _ _ _) as [st| |]; cbn [bind]; try discriminate.
  intros H; inversion H. split; reflexivity.
Qed.

(** C9. The first loop gives every entry the two-point line
    [(lower_cap, E(lower_cap)), (upper_cap, E(upper_cap))] under its key
    [name_charge]: each turn stores it, and after the loop it is still
    there for an entry that no later entry shares its key with. The range
    collection receives, per entry, the energies at the two edges of the
    window (the pair is added once for each cap, so it stands twice), and
    nothing else. Both are returned as the loop left them. *)
Theorem all_states_lines
    (DefectEntry : Type) (name : DefectEntry -> pystr)
    (charge_state : DefectEntry -> Z) (ChemPots : Type)
    (d : DefectPhaseDiagram DefectEntry ChemPots) (chempots : ChemPots)
    (xlim : float * float)
    (pre post : list DefectEntry) (e : DefectEntry) :
  entries d = pre ++ e :: post ->
  forallb (fun e' => negb (str_eqb (entry_key name charge_state e)
                             (entry_key name charge_state e'))) post = true ->
  let E := energy_at d chempots in
  let line := ([lower_cap; upper_cap], [E e lower_cap; E e upper_cap]) in
  let all := all_lines name charge_state d chempots xlim in
  (forall st, fst (all_lines_step name charge_state d chempots xlim st e)
              = dict_set (entry_key name charge_state e) line (fst st))
  /\ dict_get (entry_key name charge_state e) (fst all) = Some line
  /\ snd all = flat_map (fun e' => [E e' (fst xlim); E e' (snd xlim);
                                     E e' (fst xlim); E e' (snd xlim)]) (entries d)
  /\ In (E e (fst xlim)) (snd all) /\ In (E e (snd xlim)) (snd all)
  /\ (forall linspace_item interp_at r,
      _get_formation_energy_lines name charge_state linspace_item interp_at
        d chempots xlim = Ok r ->
      lines_all_lines_xy r = fst all /\ lines_all_entries_y_range_vals r = snd all).
Proof.
  intros Hsplit Hpost E line all.
  assert (Hrange : snd all = flat_map (fun e' => [E e' (fst xlim); E e' (snd xlim);
                                     E e' (fst xlim); E e' (snd xlim)]) (entries d)).
  { unfold all. rewrite all_lines_range. reflexivity. }
  split; [|split; [|split; [exact Hrange|]]].
  - intros st. rewrite all_lines_step_eq. reflexivity.
  - unfold all. rewrite all_lines_get. unfold entry_of_key.
    rewrite Hsplit, (find_last_split _ pre post e); [reflexivity| |exact Hpost].
    apply str_eqb_refl.
  - split; [|split].
    + rewrite Hrange. apply in_flat_map. exists e.
      split; [rewrite Hsplit; apply in_elt|simpl; auto].
    + rewrite Hrange. apply in_flat_map. exists e.
      split; [rewrite Hsplit; apply in_elt|simpl; auto].
    + intros linspace_item interp_at r Hrun.
      exact (lines_all_part _ _ _ _ _ _ _ _ _ _ Hrun).
Qed.

Lemma all_states_lines_witness :
  dict_get (py "vac_1_Cd_1")
    (fst (all_lines se_name se_charge ready_diagram tt sample_xlim))
  = Some ([(-100)%float; 100%float], [(-98.5)%float; 101.5%float])
  /\ In 1.2%float (snd (all_lines se_name se_charge ready_diagram tt sample_xlim))
  /\ In 3.8%float (snd (all_lines se_name se_charge ready_diagram tt sample_xlim)).
Proof.
  destruct (all_states_lines SampleEntry se_name se_charge unit ready_diagram tt
              sample_xlim [] [vac_minus; int_te] vac_plus eq_refl eq_refl)
    as (_ & Hline & _ & Hleft & Hright & _).
  split; [exact Hline|]. split; [exact Hleft|exact Hright].
Defined.

(** ** The second loop: envelopes *)

Section EnvelopeFacts.

Variable DefectEntry : Type.
Variable name : DefectEntry -> pystr.
Variable charge_state : DefectEntry -> Z.
Variable ChemPots : Type.
Variable linspace_item : float -> float -> nat -> nat -> float.
Variable interp_at : float -> list float -> list float -> float.
Variable d : DefectPhaseDiagram DefectEntry ChemPots.
Variable chempots : ChemPots.
Variable xlim : float * float.

Local Abbreviation E := (energy_at d chempots).
Local Abbreviation sel := (selected charge_state).
Local Abbreviation tie := (tie_energy charge_state d chempots).
Local Abbreviation assign := (assign_matching charge_state d chempots).
Local Abbreviation lower := (lower_bound charge_state d chempots xlim).
Local Abbreviation point := (transition_point charge_state d chempots).
Local Abbreviation upper := (upper_bound charge_state d chempots xlim).

Lemma same_except_refl (s : pystr) (a : dict polyline) : same_except s a a.
Proof. intros k _. reflexivity. Qed.

Lemma same_except_trans (s : pystr) (a b c : dict polyline) :
  same_except s a b -> same_except s b c -> same_except s a c.
Proof. intros H1 H2 k Hk. rewrite (H2 k Hk). apply H1. exact Hk. Qed.

Lemma same_except_modify (s : pystr) (f : polyline -> polyline) (a : dict polyline) :
  same_except s a (dict_modify s f a).
Proof. intros k Hk. apply dict_get_modify_other. exact Hk. Qed.

Lemma same_except_set (s : pystr) (v : polyline) (a : dict polyline) :
  same_except s a (dict_set s v a).
Proof. intros k Hk. apply dict_get_set_other. exact Hk. Qed.

(** The matching loop leaves the energy of the selected entry in the
    variable, or the variable as it was when no entry has the charge. *)
Lemma assign_matching_selected (q : Z) (x : float) (stable : list DefectEntry)
    (v : option float) :
  assign q x stable v
  = match sel q stable with
    | Some e => Some (E e x)
    | None => v
    end.
Proof.
  unfold assign_matching, selected.
  apply (fold_left_find_last (fun e => (charge_state e =? q)%Z) (fun e => E e x)).
Qed.

Lemma tie_energy_inv (pick : list Z -> result Z) (stable : list DefectEntry)
    (def_tl : list (float * list Z)) (bp x y : float) :
  tie pick stable def_tl bp x = Some y ->
  exists ties q e,
    fdict_get bp def_tl = Some ties /\ pick ties = Ok q
    /\ sel q stable = Some e /\ y = E e x.
Proof.
  unfold tie_energy.
  destruct (fdict_get bp def_tl) as [ties|] eqn:Hties; [|discriminate].
  destruct (pick ties) as [q|err|] eqn:Hq; try discriminate.
  destruct (sel q stable) as [e|] eqn:Hsel; [|discriminate].
  simpl. intros H; inversion H. exists ties, q, e. repeat split; auto.
Qed.

(** Whether a breakpoint has an entry to evaluate does not depend on where
    the entry is evaluated. *)
Lemma tie_energy_elsewhere (pick : list Z -> result Z) (stable : list DefectEntry)
    (def_tl : list (float * list Z)) (bp x x' : float) :
  is_some (tie pick stable def_tl bp x) = true ->
  exists y, tie pick stable def_tl bp x' = Some y.
Proof.
  unfold tie_energy. destruct (fdict_get bp def_tl) as [ties|]; [|discriminate].
  destruct (pick ties) as [q|err|]; try discriminate.
  destruct (sel q stable) as [e|]; [|discriminate].
  simpl. eauto.
Qed.

Lemma lower_bound_ready (s : pystr) (def_tl : list (float * list Z))
    (org_x : list float) (st : locals) (stable : list DefectEntry)
    (x0 y0 : float) (line : polyline) :
  first_item org_x = Ok x0 ->
  dict_get s (stable_entries d) = Some stable ->
  tie py_max_int stable def_tl x0 lower_cap = Some y0 ->
  dict_get s (xy st) = Some line ->
  exists st',
    lower s def_tl org_x st = Ok st'
    /\ dict_get s (xy st') = Some (fst line ++ [lower_cap], snd line ++ [y0])
    /\ same_except s (xy st) (xy st').
Proof.
  intros Hx Hst Ht Hline.
  destruct (tie_energy_inv _ _ _ _ _ _ Ht) as (ties & q & e & Hties & Hq & Hsel & ->).
  unfold lower_bound, fdict_item, dict_item.
  rewrite Hx. cbn [bind]. rewrite Hties. cbn [bind]. rewrite Hq. cbn [bind].
  rewrite Hst. cbn [bind]. rewrite !assign_matching_selected, Hsel.
  cbn [read_local bind]. eexists. split; [reflexivity|]. cbn [xy]. split.
  - rewrite (dict_get_modify_same s _ (push_x lower_cap line)); [reflexivity|].
    apply dict_get_modify_same. exact Hline.
  - eapply same_except_trans; apply same_except_modify.
Qed.

Lemma upper_bound_ready (s : pystr) (def_tl : list (float * list Z))
    (org_x : list float) (st : locals) (stable : list DefectEntry)
    (xn yn : float) (line : polyline) :
  last_item org_x = Ok xn ->
  dict_get s (stable_entries d) = Some stable ->
  tie py_min_int stable def_tl xn upper_cap = Some yn ->
  dict_get s (xy st) = Some line ->
  exists st',
    upper s def_tl org_x st = Ok st'
    /\ dict_get s (xy st') = Some (fst line ++ [upper_cap], snd line ++ [yn])
    /\ same_except s (xy st) (xy st').
Proof.
  intros Hx Hst Ht Hline.
  destruct (tie_energy_inv _ _ _ _ _ _ Ht) as (ties & q & e & Hties & Hq & Hsel & ->).
  unfold upper_bound, fdict_item, dict_item.
  rewrite Hx. cbn [bind]. rewrite Hties. cbn [bind]. rewrite Hq. cbn [bind].
  rewrite Hst. cbn [bind]. rewrite !assign_matching_selected, Hsel.
  cbn [read_local bind]. eexists. split; [reflexivity|]. cbn [xy]. split.
  - rewrite (dict_get_modify_same s _ (push_x upper_cap line)); [reflexivity|].
    apply dict_get_modify_same. exact Hline.
  - eapply same_except_trans; apply same_except_modify.
Qed.

Lemma transition_point_ready (s : pystr) (def_tl : list (float * list Z))
    (st : locals) (stable : list DefectEntry) (fl y : float) (line : polyline) :
  dict_get s (stable_entries d) = Some stable ->
  tie py_max_int stable def_tl fl fl = Some y ->
  dict_get s (xy st) = Some line ->
  exists st',
    point s def_tl st fl = Ok st'
    /\ dict_get s (xy st') = Some (fst line ++ [fl], snd line ++ [y])
    /\ same_except s (xy st) (xy st').
Proof.
  intros Hst Ht Hline.
  destruct (tie_energy_inv _ _ _ _ _ _ Ht) as (ties & q & e & Hties & Hq & Hsel & ->).
  unfold transition_point, fdict_item, dict_item.
  rewrite Hties. cbn [bind]. rewrite Hq. cbn [bind].
  rewrite Hst. cbn [bind]. rewrite !assign_matching_selected, Hsel.
  cbn [read_local bind]. eexists. split; [reflexivity|]. cbn [xy]. split.
  - rewrite (dict_get_modify_same s _ (push_x fl line)); [reflexivity|].
    apply dict_get_modify_same. exact Hline.
  - eapply same_except_trans; apply same_except_modify.
Qed.

Lemma transitions_ready (s : pystr) (def_tl : list (float * list Z))
    (stable : list DefectEntry) (l : list float) :
  dict_get s (stable_entries d) = Some stable ->
  (forall fl, In fl l -> is_some (tie py_max_int stable def_tl fl fl) = true) ->
  forall (st : locals) (xs ys : list float),
    dict_get s (xy st) = Some (xs, ys) ->
    exists st' ymid,
      for_each (point s def_tl) l st = Ok st'
      /\ dict_get s (xy st') = Some (xs ++ l, ys ++ ymid)
      /\ Forall2 (fun fl y => tie py_max_int stable def_tl fl fl = Some y) l ymid
      /\ same_except s (xy st) (xy st').
Proof.
  intros Hst. induction l as [|fl l IH]; intros Hall st xs ys Hline.
  - exists st, []. rewrite !app_nil_r.
    repeat split; auto using same_except_refl.
  - destruct (tie_energy_elsewhere _ _ _ _ _ fl (Hall fl (or_introl eq_refl)))
      as [y Hy].
    destruct (transition_point_ready s def_tl st stable fl y (xs, ys) Hst Hy Hline)
      as (st1 & Hrun & Hget & Hsame).
    destruct (IH (fun f Hf => Hall f (or_intror Hf)) st1 _ _ Hget)
      as (st' & ymid & Hrun' & Hget' & Hall2 & Hsame').
    exists st', (y :: ymid). cbn [for_each]. rewrite Hrun.
    split; [exact Hrun'|]. split; [|split].
    + rewrite Hget'. cbn [fst snd]. rewrite <- !app_assoc. reflexivity.
    + constructor; assumption.
    + eapply same_except_trans; eassumption.
Qed.

Lemma envelope_is_ready (s : pystr) (def_tl : list (float * list Z))
    (stable : list DefectEntry) (st : locals) :
  def_tl <> [] ->
  dict_get s (stable_entries d) = Some stable ->
  envelope_ready charge_state d chempots stable def_tl = true ->
  dict_get s (xy st) = Some ([], []) ->
  exists st' line,
    envelope charge_state d chempots xlim s def_tl st = Ok st'
    /\ dict_get s (xy st') = Some line
    /\ is_envelope charge_state d chempots stable def_tl line
    /\ same_except s (xy st) (xy st').
Proof.
  intros Hne Hst Hready Hline. unfold envelope_ready in Hready.
  apply andb_true_iff in Hready. destruct Hready as [Hall Hlast].
  rewrite forallb_forall in Hall.
  destruct def_tl as [|[k0 t0] rest]; [congruence|].
  destruct (sorted_ends k0 (map fst rest)) as (x0 & xn & Hx0 & Hxn).
  change (k0 :: map fst rest) with (map fst ((k0, t0) :: rest)) in Hx0, Hxn.
  set (tl := (k0, t0) :: rest) in *. set (org_x := sorted (map fst tl)) in *.
  rewrite Hxn in Hlast.
  destruct (tie_energy_elsewhere _ _ _ _ _ lower_cap
              (Hall x0 (first_item_In _ _ Hx0))) as [y0 Hy0].
  destruct (tie_energy_elsewhere _ _ _ _ _ upper_cap Hlast) as [yn Hyn].
  destruct (lower_bound_ready s tl org_x st stable x0 y0 _ Hx0 Hst Hy0 Hline)
    as (st1 & Hrun1 & Hget1 & Hsame1).
  destruct (transitions_ready s tl stable org_x Hst Hall st1 _ _ Hget1)
    as (st2 & ymid & Hrun2 & Hget2 & Hall2 & Hsame2).
  destruct (upper_bound_ready s tl org_x st2 stable xn yn _ Hxn Hst Hyn Hget2)
    as (st3 & Hrun3 & Hget3 & Hsame3).
  exists st3, (lower_cap :: org_x ++ [upper_cap], y0 :: ymid ++ [yn]).
  unfold envelope. fold tl. fold org_x.
  rewrite Hrun1. cbn [bind]. rewrite Hrun2. cbn [bind].
  split; [exact Hrun3|]. split; [|split].
  - rewrite Hget3. reflexivity.
  - exists x0, xn, y0, ymid, yn. fold org_x. auto 10.
  - eapply same_except_trans; [|exact Hsame3].
    eapply same_except_trans; eassumption.
Qed.

End EnvelopeFacts.

(** ** The whole of [_get_formation_energy_lines] *)

Section LinesFacts.

Variable DefectEntry : Type.
Variable name : DefectEntry -> pystr.
Variable charge_state : DefectEntry -> Z.
Variable ChemPots : Type.
Variable linspace_item : float -> float -> nat -> nat -> float.
Variable interp_at : float -> list float -> list float -> float.
Variable d : DefectPhaseDiagram DefectEntry ChemPots.
Variable chempots : ChemPots.
Variable xlim : float * float.

Local Abbreviation E := (energy_at d chempots).
Local Abbreviation all := (all_lines name charge_state d chempots xlim).
Local Abbreviation check := (below_zero_check linspace_item interp_at d).
Local Abbreviation body :=
  (species_step charge_state linspace_item interp_at d chempots xlim).
Local Abbreviation ready_item := (species_ready name charge_state d chempots).
Local Abbreviation line_for := (species_line charge_state d chempots).
Local Abbreviation run :=
  (_get_formation_energy_lines name charge_state linspace_item interp_at
     d chempots xlim).

Lemma single_state_ready (al : dict polyline) (s : pystr) (st : locals)
    (stable : list DefectEntry) (line : polyline) :
  dict_get (rsplit1_head 64%N s) al = Some line ->
  dict_get s (stable_entries d) = Some stable ->
  is_some (hd_error stable) = true ->
  exists st',
    single_state d chempots xlim al s st = Ok st'
    /\ dict_get s (xy st') = Some line
    /\ same_except s (xy st) (xy st').
Proof.
  intros Hline Hst Hhd. unfold single_state, dict_item.
  rewrite Hline. cbn [bind]. rewrite Hst. cbn [bind].
  destruct stable as [|e0 rest]; [discriminate|]. cbn [first_item bind].
  eexists. split; [reflexivity|]. cbn [xy]. split.
  - apply dict_get_set_same.
  - apply same_except_set.
Qed.

(** The check for a line below zero leaves the lines as they are. *)
Lemma below_zero_check_xy (s : pystr) (st : locals) (line : polyline) :
  dict_get s (xy st) = Some line ->
  exists st', check s st = Ok st' /\ xy st' = xy st.
Proof.
  intros Hline. unfold below_zero_check, dict_item. rewrite Hline. cbn [bind].
  destruct (forallb _ _); eexists; split; reflexivity.
Qed.

Lemma species_step_ready (al : dict polyline) (st : locals)
    (item : pystr * list (float * list Z)) :
  (forall k, dict_get k al
             = option_map (two_point_line d chempots)
                 (entry_of_key name charge_state d k)) ->
  ready_item item = true ->
  exists st' line,
    body al st item = Ok st'
    /\ dict_get (fst item) (xy st') = Some line
    /\ line_for al item line
    /\ same_except (fst item) (xy st) (xy st').
Proof.
  intros Hal Hready. destruct item as [s def_tl].
  unfold species_ready in Hready. cbn [fst snd] in *.
  destruct (dict_get s (stable_entries d)) as [stable|] eqn:Hst; [|discriminate].
  unfold species_step.
  set (st0 := mkLocals (dict_set s ([], []) (xy st)) _ _ _ _ _ _).
  assert (H0 : dict_get s (xy st0) = Some ([], [])) by apply dict_get_set_same.
  assert (Hsame0 : same_except s (xy st) (xy st0)) by apply same_except_set.
  destruct def_tl as [|p rest].
  - apply andb_true_iff in Hready. destruct Hready as [Hkey Hhd].
    specialize (Hal (rsplit1_head 64%N s)).
    destruct (entry_of_key name charge_state d (rsplit1_head 64%N s)) as [e|];
      [|discriminate]. cbn [option_map] in Hal.
    destruct (single_state_ready al s st0 stable _ Hal Hst Hhd)
      as (st1 & Hrun & Hget & Hsame).
    destruct (below_zero_check_xy s st1 _ Hget) as (st2 & Hrun2 & Hxy).
    exists st2, (two_point_line d chempots e).
    rewrite Hrun. cbn [bind]. split; [exact Hrun2|]. rewrite Hxy.
    split; [exact Hget|]. split; [exact Hal|].
    eapply same_except_trans; eassumption.
  - destruct (envelope_is_ready DefectEntry charge_state ChemPots d chempots xlim
                s (p :: rest) stable st0 ltac:(discriminate) Hst Hready H0)
      as (st1 & line & Hrun & Hget & Henv & Hsame).
    destruct (below_zero_check_xy s st1 _ Hget) as (st2 & Hrun2 & Hxy).
    exists st2, line.
    rewrite Hrun. cbn [bind]. split; [exact Hrun2|]. rewrite Hxy.
    split; [exact Hget|]. split; [exists stable; auto|].
    eapply same_except_trans; eassumption.
Qed.

Lemma species_loop_ready (al : dict polyline)
    (l : list (pystr * list (float * list Z))) :
  (forall k, dict_get k al
             = option_map (two_point_line d chempots)
                 (entry_of_key name charge_state d k)) ->
  forallb ready_item l = true ->
  distinct_keys (map fst l) = true ->
  forall st,
  exists st',
    for_each (body al) l st = Ok st'
    /\ (forall item, In item l ->
        exists line, dict_get (fst item) (xy st') = Some line
                     /\ line_for al item line)
    /\ (forall k, ~ In k (map fst l) -> dict_get k (xy st') = dict_get k (xy st)).
Proof.
  intros Hal. induction l as [|item l IH]; intros Hready Hdist st.
  - exists st. split; [reflexivity|]. split; [intros ? []|auto].
  - cbn [forallb] in Hready. apply andb_true_iff in Hready.
    destruct Hready as [Hitem Hready].
    cbn [map distinct_keys] in Hdist. apply andb_true_iff in Hdist.
    destruct Hdist as [Hfresh Hdist].
    apply negb_true_iff, str_in_not_In in Hfresh.
    destruct (species_step_ready al st item Hal Hitem)
      as (st1 & line & Hrun & Hget & Hline & Hsame).
    destruct (IH Hready Hdist st1) as (st' & Hrun' & Hitems & Hrest).
    exists st'. cbn [for_each]. rewrite Hrun. split; [exact Hrun'|]. split.
    + intros it [<-|Hin]; [|apply Hitems; exact Hin].
      exists line. rewrite (Hrest _ Hfresh). auto.
    + intros k Hk. cbn [map] in Hk.
      rewrite Hrest by (intros Hin; apply Hk; right; exact Hin).
      apply Hsame. intros ->. apply Hk. left; reflexivity.
Qed.

Lemma species_loop_returns (al : dict polyline)
    (l : list (pystr * list (float * list Z))) :
  (forall k, dict_get k al
             = option_map (two_point_line d chempots)
                 (entry_of_key name charge_state d k)) ->
  forallb ready_item l = true ->
  forall st, exists st', for_each (body al) l st = Ok st'.
Proof.
  intros Hal. induction l as [|item l IH]; intros Hready st.
  - exists st. reflexivity.
  - cbn [forallb] in Hready. apply andb_true_iff in Hready.
    destruct Hready as [Hitem Hready].
    destruct (species_step_ready al st item Hal Hitem) as (st1 & line & Hrun & _).
    cbn [for_each]. rewrite Hrun. apply IH. exact Hready.
Qed.

(** On a diagram that meets the precondition the function returns; every
    species of the map has its line, and the all-states part is what the
    first loop built. *)
Lemma lines_run :
  lines_ready name charge_state d chempots = true ->
  distinct_keys (map fst (transition_level_map d)) = true ->
  exists r,
    run = Ok r
    /\ lines_all_lines_xy r = fst all
    /\ lines_all_entries_y_range_vals r = snd all
    /\ forall item, In item (transition_level_map d) ->
       exists line, dict_get (fst item) (lines_xy r) = Some line
                    /\ line_for (fst all) item line.
Proof.
  intros Hready Hdist. unfold _get_formation_energy_lines.
  destruct (species_loop_ready (fst all) (transition_level_map d)
              (all_lines_get DefectEntry name charge_state ChemPots d chempots xlim)
              Hready Hdist (mkLocals [] [] None None None 0%float []))
    as (st' & Hrun & Hitems & _).
  destruct all as [al ar] eqn:Hall. cbn [fst snd] in *.
  rewrite Hrun. cbn [bind]. eexists. split; [reflexivity|].
  cbn [lines_all_lines_xy lines_all_entries_y_range_vals lines_xy]. auto.
Qed.

End LinesFacts.

Lemma lines_ready_returns
    (DefectEntry : Type) (name : DefectEntry -> pystr)
    (charge_state : DefectEntry -> Z) (ChemPots : Type)
    (linspace_item : float -> float -> nat -> nat -> float)
    (interp_at : float -> list float -> list float -> float)
    (d : DefectPhaseDiagram DefectEntry ChemPots) (chempots : ChemPots)
    (xlim : float * float) :
  lines_ready name charge_state d chempots = true ->
  exists r,
    _get_formation_energy_lines name charge_state linspace_item interp_at
      d chempots xlim = Ok r.
Proof.
  intros Hready. unfold _get_formation_energy_lines.
  destruct (species_loop_returns DefectEntry name charge_state ChemPots
              linspace_item interp_at d chempots xlim
              (fst (all_lines name charge_state d chempots xlim))
              (transition_level_map d)
              (all_lines_get DefectEntry name charge_state ChemPots d chempots xlim)
              Hready (mkLocals [] [] None None None 0%float []))
    as (st' & Hrun).
  destruct (all_lines name charge_state d chempots xlim) as [al ar].
  cbn [fst] in Hrun. rewrite Hrun. cbn [bind]. eexists. reflexivity.
Qed.

(** The precondition is enough for the function to return. *)
Theorem lines_returned
    (DefectEntry : Type) (name : DefectEntry -> pystr)
    (charge_state : DefectEntry -> Z) (ChemPots : Type)
    (linspace_item : float -> float -> nat -> nat -> float)
    (interp_at : float -> list float -> list float -> float)
    (d : DefectPhaseDiagram DefectEntry ChemPots) (chempots : ChemPots)
    (xlim : float * float) :
  lines_ready name charge_state d chempots = true ->
  exists r,
    _get_formation_energy_lines name charge_state linspace_item interp_at
      d chempots xlim = Ok r.
Proof. apply lines_ready_returns. Qed.

Lemma lines_returned_witness :
  exists r, run_lines ready_diagram = Ok r.
Proof.
  apply (lines_returned SampleEntry se_name se_charge unit sample_linspace
           sample_interp ready_diagram tt sample_xlim).
  vm_compute. reflexivity.
Defined.

(** ** The claims on [_get_formation_energy_lines] *)

Lemma find_last_none {A : Type} (p : A -> bool) (l : list A) :
  existsb p l = false -> find_last p l = None.
Proof.
  induction l as [|a l IH]; simpl; [reflexivity|].
  intros H. apply orb_false_iff in H. destruct H as [Ha Hl].
  rewrite (IH Hl), Ha. reflexivity.
Qed.

(** [max] and [min] of a collection of charges: a charge of the collection
    that none of the others exceeds, or falls below. *)
Lemma py_max_int_max (l : list Z) (q : Z) :
  py_max_int l = Ok q -> In q l /\ forall q', In q' l -> (q' <= q)%Z.
Proof.
  destruct l as [|x t]; [discriminate|]. cbn [py_max_int]. intros H. inversion H as [Hq].
  clear H Hq.
  assert (Hfold : forall t x,
             let r := fold_left (fun m y => if (m <? y)%Z then y else m) t x in
             (r = x \/ In r t) /\ (x <= r)%Z /\ forall y, In y t -> (y <= r)%Z).
  { clear. induction t as [|y t IH]; intros x; cbn [fold_left].
    - split; [left; reflexivity|]. split; [lia|intros ? []].
    - destruct (IH (if (x <? y)%Z then y else x)) as (Hin & Hle & Hall).
      destruct (Z.ltb_spec x y) as [Hlt|Hge].
      + split; [right; destruct Hin as [->|Hin]; [left; reflexivity|right; exact Hin]|].
        split; [lia|]. intros z [<-|Hz]; [exact Hle|exact (Hall z Hz)].
      + split; [destruct Hin as [->|Hin]; [left; reflexivity|right; right; exact Hin]|].
        split; [exact Hle|]. intros z [<-|Hz]; [lia|exact (Hall z Hz)]. }
  destruct (Hfold t x) as (Hin & Hle & Hall). split.
  - destruct Hin as [->|Hin]; [left; reflexivity|right; exact Hin].
  - intros q' [<-|Hq']; [exact Hle|exact (Hall q' Hq')].
Qed.

Lemma py_min_int_min (l : list Z) (q : Z) :
  py_min_int l = Ok q -> In q l /\ forall q', In q' l -> (q <= q')%Z.
Proof.
  destruct l as [|x t]; [discriminate|]. cbn [py_min_int]. intros H. inversion H as [Hq].
  clear H Hq.
  assert (Hfold : forall t x,
             let r := fold_left (fun m y => if (y <? m)%Z then y else m) t x in
             (r = x \/ In r t) /\ (r <= x)%Z /\ forall y, In y t -> (r <= y)%Z).
  { clear. induction t as [|y t IH]; intros x; cbn [fold_left].
    - split; [left; reflexivity|]. split; [lia|intros ? []].
    - destruct (IH (if (y <? x)%Z then y else x)) as (Hin & Hle & Hall).
      destruct (Z.ltb_spec y x) as [Hlt|Hge].
      + split; [right; destruct Hin as [->|Hin]; [left; reflexivity|right; exact Hin]|].
        split; [lia|]. intros z [<-|Hz]; [exact Hle|exact (Hall z Hz)].
      + split; [destruct Hin as [->|Hin]; [left; reflexivity|right; right; exact Hin]|].
        split; [exact Hle|]. intros z [<-|Hz]; [lia|exact (Hall z Hz)]. }
  destruct (Hfold t x) as (Hin & Hle & Hall). split.
  - destruct Hin as [->|Hin]; [left; reflexivity|right; exact Hin].
  - intros q' [<-|Hq']; [exact Hle|exact (Hall q' Hq')].
Qed.

Section TieBreak.

Variable DefectEntry : Type.
Variable charge_state : DefectEntry -> Z.
Variable ChemPots : Type.
Variable d : DefectPhaseDiagram DefectEntry ChemPots.
Variable chempots : ChemPots.

Local Abbreviation tie := (tie_energy charge_state d chempots).
Local Abbreviation of_charge := (charge_energy charge_state d chempots).

(** The energy that the code takes at a breakpoint is the energy of the
    biggest (smallest) charge tied there. *)
Lemma tie_energy_max (stable : list DefectEntry) (def_tl : list (float * list Z))
    (bp x y : float) :
  tie py_max_int stable def_tl bp x = Some y ->
  exists q, max_tied def_tl bp q /\ of_charge stable q x = Some y.
Proof.
  intros H.
  destruct (tie_energy_inv _ _ _ _ _ _ _ _ _ _ _ H)
    as (ties & q & e & Hties & Hq & Hsel & ->).
  destruct (py_max_int_max _ _ Hq) as [Hin Hle].
  exists q. split; [exists ties; auto|].
  unfold charge_energy. rewrite Hsel. reflexivity.
Qed.

Lemma tie_energy_min (stable : list DefectEntry) (def_tl : list (float * list Z))
    (bp x y : float) :
  tie py_min_int stable def_tl bp x = Some y ->
  exists q, min_tied def_tl bp q /\ of_charge stable q x = Some y.
Proof.
  intros H.
  destruct (tie_energy_inv _ _ _ _ _ _ _ _ _ _ _ H)
    as (ties & q & e & Hties & Hq & Hsel & ->).
  destruct (py_min_int_min _ _ Hq) as [Hin Hle].
  exists q. split; [exists ties; auto|].
  unfold charge_energy. rewrite Hsel. reflexivity.
Qed.

Lemma envelope_names_charges (stable : list DefectEntry)
    (def_tl : list (float * list Z)) (line : polyline) :
  is_envelope charge_state d chempots stable def_tl line ->
  tie_break_envelope charge_state d chempots stable def_tl line.
Proof.
  intros (x0 & xn & y0 & ymid & yn & Hx0 & Hxn & Hline & Hy0 & Hmid & Hyn).
  destruct (tie_energy_max _ _ _ _ _ Hy0) as (q0 & Hq0 & He0).
  destruct (tie_energy_min _ _ _ _ _ Hyn) as (qn & Hqn & Hen).
  exists x0, xn, q0, qn, y0, ymid, yn.
  split; [exact Hx0|]. split; [exact Hxn|]. split; [exact Hline|].
  split; [exact Hq0|]. split; [exact He0|]. split; [|split; [exact Hqn|exact Hen]].
  clear - Hmid. induction Hmid as [|fl y l l' Hy Hrest IH]; constructor.
  - exact (tie_energy_max _ _ _ _ _ Hy).
  - exact IH.
Qed.

End TieBreak.


(** C10. When no stable entry of the species has the charge selected for a
    point, the matching loop assigns nothing and the point takes the energy
    from [form_en] as the previous point or species left it: the lower and
    upper bounds and every transition point raise [UnboundLocalError] when
    the variable (or [fe_left], [fe_right] for the window edges) was never
    assigned, and otherwise store the stale value. *)
Theorem unmatched_charge_reads_unassigned_variable
    (DefectEntry : Type) (charge_state : DefectEntry -> Z) (ChemPots : Type)
    (d : DefectPhaseDiagram DefectEntry ChemPots) (chempots : ChemPots)
    (xlim : float * float)
    (s : pystr) (def_tl : list (float * list Z)) (org_x : list float)
    (stable : list DefectEntry) (st : locals) :
  dict_get s (stable_entries d) = Some stable ->
  let unmatched q := existsb (fun e => (charge_state e =? q)%Z) stable = false in
  let stored x v := dict_modify s (push_y v) (dict_modify s (push_x x) (xy st)) in
  (forall x0 ties q,
      first_item org_x = Ok x0 -> fdict_get x0 def_tl = Some ties ->
      py_max_int ties = Ok q -> unmatched q ->
      lower_bound charge_state d chempots xlim s def_tl org_x st
      = (v <- read_local (form_en st) ;;
         l <- read_local (fe_left st) ;;
         Ok (mkLocals (stored lower_cap v) (y_range_vals st ++ [l])
               (form_en st) (fe_left st) (fe_right st) (ymin st) (warned st))))
  /\ (forall fl ties q,
      fdict_get fl def_tl = Some ties ->
      py_max_int ties = Ok q -> unmatched q ->
      transition_point charge_state d chempots s def_tl st fl
      = (v <- read_local (form_en st) ;;
         Ok (mkLocals (stored fl v) (y_range_vals st ++ [v])
               (form_en st) (fe_left st) (fe_right st) (ymin st) (warned st))))
  /\ (forall xn ties q,
      last_item org_x = Ok xn -> fdict_get xn def_tl = Some ties ->
      py_min_int ties = Ok q -> unmatched q ->
      upper_bound charge_state d chempots xlim s def_tl org_x st
      = (v <- read_local (form_en st) ;;
         r <- read_local (fe_right st) ;;
         Ok (mkLocals (stored upper_cap v) (y_range_vals st ++ [r])
               (form_en st) (fe_left st) (fe_right st) (ymin st) (warned st)))).
Proof.
  intros Hst unmatched stored. repeat split.
  - intros x0 ties q Hx Hties Hq Hun.
    unfold lower_bound, fdict_item, dict_item.
    rewrite Hx. cbn [bind]. rewrite Hties. cbn [bind]. rewrite Hq. cbn [bind].
    rewrite Hst. cbn [bind]. rewrite !assign_matching_selected.
    unfold selected. rewrite (find_last_none _ _ Hun). reflexivity.
  - intros fl ties q Hties Hq Hun.
    unfold transition_point, fdict_item, dict_item.
    rewrite Hties. cbn [bind]. rewrite Hq. cbn [bind].
    rewrite Hst. cbn [bind]. rewrite !assign_matching_selected.
    unfold selected. rewrite (find_last_none _ _ Hun). reflexivity.
  - intros xn ties q Hx Hties Hq Hun.
    unfold upper_bound, fdict_item, dict_item.
    rewrite Hx. cbn [bind]. rewrite Hties. cbn [bind]. rewrite Hq. cbn [bind].
    rewrite Hst. cbn [bind]. rewrite !assign_matching_selected.
    unfold selected. rewrite (find_last_none _ _ Hun). reflexivity.
Qed.


(** ** Runs on the sample diagrams *)

(** C1 (counterexample). A diagram that meets the precondition and has a
    transition level at 150 eV: the abscissas of the envelope are
    [-100, 150, 100], which do not increase. And a diagram whose stable
    entries lack the charge of the first point: the function raises and
    there is no envelope at all. *)
Lemma breakpoint_beyond_cap_not_increasing :
  lines_ready se_name se_charge far_diagram tt = true
  /\ line_of_species (run_lines far_diagram) (py "vac_1_Cd@0")
     = Some ([(-100)%float; 150%float; 100%float],
             [(-98.5)%float; 151.5%float; (-96.5)%float])
  /\ increasing [(-100)%float; 150%float; 100%float] = false
  /\ line_of_species (run_lines lone_diagram) (py "vac_1_Cd@0") = None.
Proof. repeat split; vm_compute; reflexivity. Qed.



Lemma unmatched_charge_witness :
  lower_bound se_charge lone_diagram tt sample_xlim (py "vac_1_Cd@0")
    [(1%float, [1; -1]%Z)] [1%float] fresh_locals
  = Raise UnboundLocalError
  /\ run_lines lone_diagram = Raise UnboundLocalError
  /\ line_of_species (run_lines stale_diagram) (py "vac_1_Cd@0")
     = Some ([(-100)%float; 1%float; 100%float],
             [(-98.5)%float; 2.5%float; (-96.5)%float])
  /\ line_of_species (run_lines stale_diagram) (py "Int_Te_3@1")
     = Some ([(-100)%float; 0.5%float; 100%float],
             [(-96.5)%float; (-96.5)%float; (-96.5)%float]).
Proof.
  destruct (unmatched_charge_reads_unassigned_variable SampleEntry se_charge unit
              lone_diagram tt sample_xlim (py "vac_1_Cd@0") [(1%float, [1; -1]%Z)]
              [1%float] [vac_minus] fresh_locals eq_refl)
    as (Hlower & _ & _).
  split; [|repeat split; vm_compute; reflexivity].
  rewrite (Hlower 1%float [1; -1]%Z 1%Z eq_refl eq_refl eq_refl eq_refl).
  reflexivity.
Defined.

(** ** The letter suffix of [_get_legends_txt] *)

(** A name longer than every label is not among them. *)
Lemma name_in_longer (x : pystr) (l : list (option pystr)) :
  (forall y, In (Some y) l -> length y < length x) -> name_in (Some x) l = false.
Proof.
  intros H. apply name_in_not_In. intros Hin. specialize (H x Hin). lia.
Qed.

Lemma suffix_while_in (fuel : nat) (legends_txt : list (option pystr)) (i : Z)
    (s : option pystr) :
  name_in s legends_txt = true ->
  suffix_while (S fuel) legends_txt i s
  = (st <- suffix_once i s ;; suffix_while fuel legends_txt (fst st) (snd st)).
Proof. intros H. cbn [suffix_while]. rewrite H. reflexivity. Qed.

Lemma suffix_while_out (fuel : nat) (legends_txt : list (option pystr)) (i : Z)
    (s : option pystr) :
  name_in s legends_txt = false -> suffix_while fuel legends_txt i s = Ok s.
Proof. intros H. destruct fuel; cbn [suffix_while]; rewrite H; reflexivity. Qed.

(** The first round of the loop puts in [b]; a second round puts [c] in
    after it. *)
Lemma suffix_stage_letters (legends_txt : list (option pystr)) (s : pystr) :
  let sb := slice_to_m3 s ++ py "b" ++ slice_from_m3 s in
  let sbc := slice_to_m3 sb ++ py "c" ++ slice_from_m3 sb in
  name_in (Some s) legends_txt = true ->
  (name_in (Some sb) legends_txt = false ->
   suffix_stage legends_txt (Some s) = Ok (Some sb))
  /\ (name_in (Some sb) legends_txt = true ->
      name_in (Some sbc) legends_txt = false ->
      suffix_stage legends_txt (Some s) = Ok (Some sbc)).
Proof.
  intros sb sbc Hin. unfold suffix_stage. rewrite Hin.
  assert (Hlen : length sb = length s + 1) by apply length_with_letter.
  split.
  - intros Hout. destruct legends_txt as [|x l]; [discriminate|].
    cbn [length]. rewrite (suffix_while_in _ _ _ _ Hin).
    change (suffix_once 1 (Some s)) with (Ok (2%Z, Some sb)). cbn [bind fst snd].
    apply suffix_while_out. exact Hout.
  - intros Hin2 Hout.
    assert (Hne : s <> sb) by (intros E; rewrite <- E in Hlen; lia).
    destruct legends_txt as [|x [|y l]].
    + discriminate.
    + apply name_in_In in Hin, Hin2.
      destruct Hin as [Ex|[]], Hin2 as [E|[]]. exfalso. apply Hne. congruence.
    + cbn [length]. rewrite (suffix_while_in _ _ _ _ Hin).
      change (suffix_once 1 (Some s)) with (Ok (2%Z, Some sb)). cbn [bind fst snd].
      rewrite (suffix_while_in _ _ _ _ Hin2).
      change (suffix_once 2 (Some sb)) with (Ok (3%Z, Some sbc)). cbn [bind fst snd].
      apply suffix_while_out. exact Hout.
Qed.

(** ** Termination and distinct labels *)

Lemma chr_raises (n : Z) (e : exn) : chr n = Raise e -> e = ValueError.
Proof.
  unfold chr. destruct (_ && _); [discriminate|]. intros H; inversion H; reflexivity.
Qed.

Lemma chr_not_out_of_fuel (n : Z) : chr n <> OutOfFuel.
Proof. unfold chr. destruct (_ && _); discriminate. Qed.

Lemma as_long_as_bound (s : pystr) (l : list (option pystr)) :
  length (as_long_as s l) <= length l.
Proof. apply filter_length_le. Qed.

Lemma filter_length_less {A : Type} (f f' : A -> bool) (l : list A) (a : A) :
  (forall x, f' x = true -> f x = true) ->
  In a l -> f a = true -> f' a = false ->
  length (filter f' l) < length (filter f l).
Proof.
  intros Himp Hin Ha Ha'.
  assert (Hmono : forall t : list A, length (filter f' t) <= length (filter f t)).
  { induction t as [|x t IH]; cbn [filter length]; [lia|].
    destruct (f' x) eqn:E1.
    - rewrite (Himp x E1). cbn [length]. lia.
    - destruct (f x); cbn [length]; lia. }
  induction l as [|x l IH]; [contradiction|].
  cbn [filter]. destruct Hin as [Hx|Hin].
  - subst x. rewrite Ha, Ha'. cbn [length]. specialize (Hmono l). lia.
  - specialize (IH Hin). destruct (f' x) eqn:E1.
    + rewrite (Himp x E1). cbn [length]. lia.
    + destruct (f x); cbn [length]; lia.
Qed.

(** A label that is in the list counts among those as long as itself and
    not among those longer by one. *)
Lemma as_long_as_grown (s s' : pystr) (l : list (option pystr)) :
  length s' = length s + 1 -> In (Some s) l ->
  length (as_long_as s' l) < length (as_long_as s l).
Proof.
  intros Hlen Hin. unfold as_long_as. apply (filter_length_less _ _ l (Some s)).
  - intros [y|] H; [|discriminate]. apply Nat.leb_le in H. apply Nat.leb_le. lia.
  - exact Hin.
  - apply Nat.leb_refl.
  - apply Nat.leb_gt. lia.
Qed.

(** The [while] loop on a string leaves within the rounds it is given: it
    ends on a string that is not in the legend and is no shorter, or on the
    [ValueError] of [chr] once the code point would pass the last one. *)
Lemma suffix_while_ends (legends_txt : list (option pystr)) (fuel : nat) :
  forall (i : Z) (s : pystr),
    (0 <= i)%Z ->
    length (as_long_as s legends_txt) <= fuel ->
    match suffix_while fuel legends_txt i (Some s) with
    | Ok s' => name_in s' legends_txt = false
               /\ exists t, s' = Some t /\ length s <= length t
    | Raise e => e = ValueError /\ (1114112 <= 96 + i + Z.of_nat fuel)%Z
    | OutOfFuel => False
    end.
Proof.
  induction fuel as [|fuel IH]; intros i s Hi Hcount.
  - cbn [suffix_while]. destruct (name_in (Some s) legends_txt) eqn:Hin;
      [|split; [exact Hin|exists s; split; [reflexivity|lia]]].
    apply name_in_In in Hin.
    assert (In (Some s) (as_long_as s legends_txt)).
    { apply filter_In. split; [exact Hin|apply Nat.leb_refl]. }
    destruct (as_long_as s legends_txt); [contradiction|simpl in Hcount; lia].
  - cbn [suffix_while]. destruct (name_in (Some s) legends_txt) eqn:Hin;
      [|split; [exact Hin|exists s; split; [reflexivity|lia]]].
    apply name_in_In in Hin. unfold suffix_once.
    destruct (chr (96 + (i + 1))) as [c|e|] eqn:Hc; cbn [bind fst snd].
    + assert (Hlen : length c = 1).
      { unfold chr in Hc. destruct (_ && _); inversion Hc. reflexivity. }
      pose proof (length_with_letter s c) as Hgrow. rewrite Hlen in Hgrow.
      pose proof (as_long_as_grown s _ legends_txt Hgrow Hin) as Hless.
      specialize (IH (i + 1)%Z (slice_to_m3 s ++ c ++ slice_from_m3 s)
                    ltac:(lia) ltac:(lia)).
      destruct (suffix_while fuel legends_txt (i + 1) _) as [s'|e|]; auto.
      * destruct IH as [Hout (t & Ht & Hle)]. split; [exact Hout|].
        exists t. split; [exact Ht|lia].
      * destruct IH as [He Hbig]. split; [exact He|lia].
    + split; [exact (chr_raises _ _ Hc)|].
      unfold chr in Hc.
      destruct ((0 <=? 96 + (i + 1))%Z && (96 + (i + 1) <? 1114112)%Z) eqn:Hr;
        [discriminate|].
      apply andb_false_iff in Hr. destruct Hr as [Hr|Hr].
      * apply Z.leb_gt in Hr. lia.
      * apply Z.ltb_ge in Hr. lia.
    + exact (chr_not_out_of_fuel _ Hc).
Qed.

(** Whatever the rounds, the loop on a string returns a string, and none
    that is shorter. *)
Lemma suffix_while_grows (legends_txt : list (option pystr)) (fuel : nat) :
  forall (i : Z) (s : pystr) (r : option pystr),
    suffix_while fuel legends_txt i (Some s) = Ok r ->
    exists t, r = Some t /\ length s <= length t.
Proof.
  induction fuel as [|fuel IH]; intros i s r H; cbn [suffix_while] in H;
    destruct (name_in (Some s) legends_txt);
    try discriminate;
    try (inversion H; exists s; split; [reflexivity|lia]).
  unfold suffix_once in H.
  destruct (chr (96 + (i + 1))) as [c|e|]; cbn [bind fst snd] in H;
    try discriminate.
  destruct (IH _ _ _ H) as (t & Ht & Hlen). exists t. split; [exact Ht|].
  rewrite length_with_letter in Hlen. lia.
Qed.

(** On [None] the block returns when [None] is not in the legend, and
    raises [TypeError] in the first round when it is. *)
Lemma suffix_stage_none (legends_txt : list (option pystr)) :
  suffix_stage legends_txt None
  = if name_in None legends_txt then Raise TypeError else Ok None.
Proof.
  unfold suffix_stage. destruct (name_in None legends_txt) eqn:H; [|reflexivity].
  destruct legends_txt as [|x l]; [discriminate|].
  cbn [length suffix_while]. rewrite H. reflexivity.
Qed.

Section LegendLoopFacts.

Variable fmt : pystr -> bool -> call (option pystr).
Variable all_entries : bool.

Local Abbreviation step := (legend_step fmt all_entries).
Local Abbreviation label := (first_attempt fmt all_entries).
Local Abbreviation legends := (_get_legends_txt fmt all_entries).

Lemma suffix_stage_ends (legends_txt : list (option pystr)) (s : option pystr) :
  match suffix_stage legends_txt s with
  | Ok s' => name_in s' legends_txt = false
  | Raise e => (e = ValueError /\ (1114015 <= Z.of_nat (length legends_txt))%Z)
               \/ (e = TypeError /\ s = None /\ name_in None legends_txt = true)
  | OutOfFuel => False
  end.
Proof.
  destruct s as [s|].
  - unfold suffix_stage. destruct (name_in (Some s) legends_txt) eqn:Hin; [|exact Hin].
    pose proof (suffix_while_ends legends_txt (length legends_txt) 1 s
                  ltac:(lia) (as_long_as_bound s legends_txt)) as H.
    destruct (suffix_while _ _ _ _); auto.
    + destruct H as [H _]. exact H.
    + destruct H as [He Hbig]. left. split; [exact He|lia].
  - rewrite suffix_stage_none. destruct (name_in None legends_txt) eqn:Hin.
    + right. auto.
    + exact Hin.
Qed.

(** One turn of the [for] loop adds one label, and a new one. *)
Lemma legend_step_adds (legends_txt legends_txt' : list (option pystr)) (n : pystr) :
  step legends_txt n = Ok legends_txt' ->
  exists s, legends_txt' = legends_txt ++ [s] /\ ~ In s legends_txt.
Proof.
  unfold legend_step.
  destruct (retry_stage fmt all_entries legends_txt n (label n)) as [s1|e|];
    cbn [bind]; try discriminate.
  pose proof (suffix_stage_ends legends_txt s1) as H.
  destruct (suffix_stage legends_txt s1) as [s2|e|]; cbn [bind]; try discriminate.
  intros Heq; inversion Heq. exists s2. split; [reflexivity|].
  apply name_in_not_In. exact H.
Qed.

Lemma legend_step_not_out_of_fuel (legends_txt : list (option pystr)) (n : pystr) :
  step legends_txt n <> OutOfFuel.
Proof.
  unfold legend_step, retry_stage.
  destruct (name_in (label n) legends_txt).
  - destruct (format_attempt fmt all_entries n true) as [s1|e]; cbn [run bind];
      [|discriminate].
    pose proof (suffix_stage_ends legends_txt s1) as H.
    destruct (suffix_stage legends_txt s1); cbn [bind]; try discriminate.
    contradiction.
  - cbn [bind]. pose proof (suffix_stage_ends legends_txt (label n)) as H.
    destruct (suffix_stage legends_txt (label n)); cbn [bind]; try discriminate.
    contradiction.
Qed.

Lemma legend_loop_labels (names : list pystr) :
  forall acc labels,
    for_each step names acc = Ok labels ->
    NoDup acc ->
    length labels = length acc + length names /\ NoDup labels
    /\ exists added, labels = acc ++ added.
Proof.
  induction names as [|n names IH]; intros acc labels Hrun Hnodup.
  - inversion Hrun; subst. split; [simpl; lia|]. split; [exact Hnodup|].
    exists []. rewrite app_nil_r. reflexivity.
  - cbn [for_each] in Hrun.
    destruct (step acc n) as [acc'|e|] eqn:Hstep; try discriminate.
    destruct (legend_step_adds _ _ _ Hstep) as (s & -> & Hnew).
    assert (Hnodup' : NoDup (acc ++ [s])).
    { apply NoDup_app; [exact Hnodup| |].
      - constructor; [intros []|constructor].
      - intros x Hx [<-|[]]. exact (Hnew Hx). }
    destruct (IH _ _ Hrun Hnodup') as (Hlen & Hnd & added & ->).
    split; [rewrite !length_app in *; cbn [length] in *; lia|].
    split; [exact Hnd|].
    exists (s :: added). rewrite <- app_assoc. reflexivity.
Qed.

Lemma legend_loop_not_out_of_fuel (names : list pystr) :
  forall acc, for_each step names acc <> OutOfFuel.
Proof.
  induction names as [|n names IH]; intros acc; cbn [for_each]; [discriminate|].
  pose proof (legend_step_not_out_of_fuel acc n) as H.
  destruct (step acc n); [apply IH|discriminate|contradiction].
Qed.

(** A turn raises only from the retry (the formatter raising, or returning
    [None] where the charge is to be cut off), from [None] met in the
    legend a second time, or from [chr] on a legend of more than a million
    labels. It returns when the retry returns a string. *)
Lemma legend_step_returns (legends_txt : list (option pystr)) (n : pystr) :
  (exists s, fmt n true = Returns (Some s)) ->
  (Z.of_nat (length legends_txt) < 1114015)%Z ->
  exists legends_txt', step legends_txt n = Ok legends_txt'.
Proof.
  intros [s Hs] Hsmall. unfold legend_step, retry_stage.
  destruct (name_in (label n) legends_txt) eqn:Hin.
  - assert (Hretry : exists s1,
               run (format_attempt fmt all_entries n true) = Ok (Some s1)).
    { unfold format_attempt. rewrite Hs. destruct all_entries; eexists; reflexivity. }
    destruct Hretry as [s1 ->]. cbn [bind].
    pose proof (suffix_stage_ends legends_txt (Some s1)) as H.
    destruct (suffix_stage legends_txt (Some s1)) as [s2|e|]; cbn [bind].
    + eexists; reflexivity.
    + destruct H as [[_ H]|(_ & H & _)]; [lia|discriminate].
    + contradiction.
  - cbn [bind]. unfold suffix_stage. rewrite Hin. cbn [bind].
    eexists; reflexivity.
Qed.

Lemma legend_loop_returns (names : list pystr) :
  forall acc,
    (forall n, In n names -> exists s, fmt n true = Returns (Some s)) ->
    (Z.of_nat (length acc + length names) < 1114015)%Z ->
    exists labels, for_each step names acc = Ok labels.
Proof.
  induction names as [|n names IH]; intros acc Hfmt Hsmall.
  - exists acc. reflexivity.
  - cbn [for_each]. cbn [length] in Hsmall.
    destruct (legend_step_returns acc n (Hfmt n (or_introl eq_refl)) ltac:(lia))
      as [acc' Hstep].
    rewrite Hstep.
    destruct (legend_step_adds _ _ _ Hstep) as (s & -> & _).
    apply IH.
    + intros m Hm. apply Hfmt. right; exact Hm.
    + rewrite length_app. cbn [length]. lia.
Qed.

End LegendLoopFacts.

(** The loop of the letter suffix terminates: the legend is never cut short
    by the bound on its rounds. *)
Theorem legends_terminate
    (fmt : pystr -> bool -> call (option pystr)) (all_entries : bool)
    (names : list pystr) :
  _get_legends_txt fmt all_entries names <> OutOfFuel.
Proof. apply legend_loop_not_out_of_fuel. Qed.

(** Whenever a list of labels is returned, it has one label per name and
    the labels are pairwise distinct. *)
Theorem legends_distinct
    (fmt : pystr -> bool -> call (option pystr)) (all_entries : bool)
    (names : list pystr) (labels : list (option pystr)) :
  _get_legends_txt fmt all_entries names = Ok labels ->
  length labels = length names /\ NoDup labels.
Proof.
  intros H.
  destruct (legend_loop_labels fmt all_entries names [] labels H (NoDup_nil _))
    as (Hlen & Hnd & _).
  split; [exact Hlen|exact Hnd].
Qed.

Lemma legends_distinct_witness :
  length [Some (py "$V_{Cd}$"); Some (py "$V_{Cd_{s2}}$"); Some (py "foo")] = 3
  /\ NoDup [Some (py "$V_{Cd}$"); Some (py "$V_{Cd_{s2}}$"); Some (py "foo")].
Proof.
  exact (legends_distinct sample_format false
           [py "vac_1_Cd_0"; py "vac_2_Cd_0"; py "foo"]
           [Some (py "$V_{Cd}$"); Some (py "$V_{Cd_{s2}}$"); Some (py "foo")]
           eq_refl).
Defined.

(** When the site-number retry returns a string for each of the names (it
    neither raises nor returns [None]), and the names are fewer than
    1114015, the legend is returned. *)
Theorem legends_returned
    (fmt : pystr -> bool -> call (option pystr)) (all_entries : bool)
    (names : list pystr) :
  (forall n, In n names -> exists s, fmt n true = Returns (Some s)) ->
  (Z.of_nat (length names) < 1114015)%Z ->
  exists labels,
    _get_legends_txt fmt all_entries names = Ok labels
    /\ length labels = length names /\ NoDup labels.
Proof.
  intros Hfmt Hsmall.
  destruct (legend_loop_returns fmt all_entries names [] Hfmt Hsmall) as [labels H].
  exists labels. split; [exact H|].
  destruct (legend_loop_labels fmt all_entries names [] labels H (NoDup_nil _))
    as (Hlen & Hnd & _).
  split; [exact Hlen|exact Hnd].
Qed.

Lemma legends_returned_witness :
  exists labels,
    _get_legends_txt (fun n _ => Returns (Some n)) true [py "a"; py "a"] = Ok labels
    /\ length labels = 2 /\ NoDup labels.
Proof.
  apply (legends_returned (fun n _ => Returns (Some n)) true [py "a"; py "a"]).
  - intros n _. exists n. reflexivity.
  - vm_compute. reflexivity.
Defined.

(** A name alone is given its first-attempt label: the formatted name
    without the site number, or the raw name when formatting raises. *)
Theorem legends_single_name
    (fmt : pystr -> bool -> call (option pystr)) (all_entries : bool) (n : pystr) :
  _get_legends_txt fmt all_entries [n] = Ok [first_attempt fmt all_entries n].
Proof. reflexivity. Qed.

(** A name whose first-attempt label is not yet in the legend is given this
    label as it is. *)
Theorem legends_new_label_unchanged
    (fmt : pystr -> bool -> call (option pystr)) (all_entries : bool)
    (legends_txt : list (option pystr)) (n : pystr) :
  name_in (first_attempt fmt all_entries n) legends_txt = false ->
  legend_step fmt all_entries legends_txt n
  = Ok (legends_txt ++ [first_attempt fmt all_entries n]).
Proof.
  intros H. unfold legend_step, retry_stage, suffix_stage.
  rewrite H. cbn [bind]. rewrite H. reflexivity.
Qed.

Lemma legends_new_label_witness :
  legend_step sample_format false [Some (py "$V_{Cd}$")] (py "foo")
  = Ok [Some (py "$V_{Cd}$"); Some (py "foo")].
Proof.
  exact (legends_new_label_unchanged sample_format false [Some (py "$V_{Cd}$")]
           (py "foo") eq_refl).
Defined.

(** A name for which the formatter returns [None], not raising. Where the
    charge is cut off, [None.rsplit] raises inside the [try] block and the
    raw name is the label; met a second time the raw name is in the legend,
    and the same [AttributeError] leaves the function from the retry. With
    [all_entries] the label is [None] itself; met a second time, [None] is
    in the legend and after the retry too, and the loop of the letters
    raises [TypeError] on [None[:-3]]. *)
Theorem formatter_returning_none
    (fmt : pystr -> bool -> call (option pystr)) (n : pystr) :
  fmt n false = Returns None ->
  fmt n true = Returns None ->
  _get_legends_txt fmt false [n] = Ok [Some n]
  /\ _get_legends_txt fmt false [n; n] = Raise AttributeError
  /\ _get_legends_txt fmt true [n] = Ok [None]
  /\ _get_legends_txt fmt true [n; n] = Raise TypeError.
Proof.
  intros Hf Ht.
  assert (Hraw : first_attempt fmt false n = Some n).
  { unfold first_attempt, format_attempt. rewrite Hf. reflexivity. }
  assert (Hnone : first_attempt fmt true n = None).
  { unfold first_attempt, format_attempt. rewrite Hf. reflexivity. }
  unfold _get_legends_txt. cbn [for_each].
  assert (H1 : legend_step fmt false [] n = Ok [Some n]).
  { unfold legend_step. rewrite Hraw. reflexivity. }
  assert (H2 : legend_step fmt true [] n = Ok [None]).
  { unfold legend_step. rewrite Hnone. reflexivity. }
  rewrite H1, H2. split; [reflexivity|]. split; [|split; [reflexivity|]].
  - unfold legend_step, retry_stage. rewrite Hraw.
    cbn [name_in existsb name_eqb]. rewrite str_eqb_refl. cbn [orb].
    unfold format_attempt. rewrite Ht. reflexivity.
  - unfold legend_step, retry_stage. rewrite Hnone.
    cbn [name_in existsb name_eqb orb].
    unfold format_attempt. rewrite Ht. reflexivity.
Qed.

Lemma formatter_returning_none_witness :
  _get_legends_txt none_format false [py "foo_0"] = Ok [Some (py "foo_0")]
  /\ _get_legends_txt none_format false [py "foo_0"; py "foo_0"]
     = Raise AttributeError
  /\ _get_legends_txt none_format true [py "foo_0"] = Ok [None]
  /\ _get_legends_txt none_format true [py "foo_0"; py "foo_0"] = Raise TypeError.
Proof.
  apply (formatter_returning_none none_format (py "foo_0")); reflexivity.
Defined.

(** ** The letter suffix for a label that the retry leaves taken *)

(** The letter that tells [b] from [a]. *)
Lemma with_letter_differs (s : pystr) :
  slice_to_m3 s ++ py "b" ++ slice_from_m3 s
  <> slice_to_m3 s ++ py "a" ++ slice_from_m3 s.
Proof. intros E. apply app_inv_head in E. discriminate E. Qed.

(** C6 (failing input). When the label of a name is taken and the label of
    the site-number retry is taken too, the name is given a new label; but
    the first letter that the loop puts in is [b], for [i] starts at 1 and
    is incremented before [chr(96 + i)]: the label is never the retry label
    with the letter [a], also when that one is free. It is the retry label
    with [b] before its last three characters whenever that is new, as for
    two names that collide. *)
Theorem first_suffix_letter_is_b
    (fmt : pystr -> bool -> call (option pystr)) (all_entries : bool)
    (names : list pystr) (labels : list (option pystr)) (n s : pystr) :
  _get_legends_txt fmt all_entries names = Ok labels ->
  (Z.of_nat (length labels) < 1114015)%Z ->
  name_in (first_attempt fmt all_entries n) labels = true ->
  fmt n true = Returns (Some s) ->
  let retry := if all_entries then s else exclude_charge s in
  let with_a := slice_to_m3 retry ++ py "a" ++ slice_from_m3 retry in
  let with_b := slice_to_m3 retry ++ py "b" ++ slice_from_m3 retry in
  name_in (Some retry) labels = true ->
  exists new,
    _get_legends_txt fmt all_entries (names ++ [n]) = Ok (labels ++ [Some new])
    /\ name_in (Some new) labels = false
    /\ new <> with_a
    /\ (name_in (Some with_b) labels = false -> new = with_b)
    /\ (labels = [Some retry] -> new = with_b).
Proof.
  intros Hrun Hsmall Hin Hfmt retry with_a with_b Hin'.
  assert (Hretry : retry_stage fmt all_entries labels n
                     (first_attempt fmt all_entries n) = Ok (Some retry)).
  { unfold retry_stage, format_attempt. rewrite Hin, Hfmt.
    unfold retry. destruct all_entries; reflexivity. }
  pose proof (suffix_stage_ends labels (Some retry)) as Hends.
  destruct (suffix_stage_letters labels retry Hin') as [Hb _]. fold with_b in Hb.
  assert (Hlong : forall r,
             suffix_stage labels (Some retry) = Ok r ->
             exists new,
               r = Some new
               /\ (name_in (Some with_b) labels = true ->
                   length retry + 2 <= length new)).
  { intros r Hr. unfold suffix_stage in Hr. rewrite Hin' in Hr.
    destruct (suffix_while_grows _ _ _ _ _ Hr) as (new & -> & _).
    exists new. split; [reflexivity|]. intros Hinb.
    destruct labels as [|x [|y l]].
    - discriminate.
    - apply name_in_In in Hin', Hinb.
      destruct Hin' as [Ex|[]], Hinb as [E|[]].
      assert (E' : retry = with_b) by congruence.
      apply (f_equal (@length N)) in E'. unfold with_b in E'.
      rewrite length_with_letter in E'. simpl in E'. lia.
    - cbn [length] in Hr. rewrite (suffix_while_in _ _ _ _ Hin') in Hr.
      change (suffix_once 1 (Some retry)) with (Ok (2%Z, Some with_b)) in Hr.
      cbn [bind fst snd] in Hr.
      rewrite (suffix_while_in _ _ _ _ Hinb) in Hr.
      change (suffix_once 2 (Some with_b))
        with (Ok (3%Z, Some (slice_to_m3 with_b ++ py "c" ++ slice_from_m3 with_b)))
        in Hr.
      cbn [bind fst snd] in Hr.
      destruct (suffix_while_grows _ _ _ _ _ Hr) as (t & Ht & Hlen).
      inversion Ht; subst t. rewrite length_with_letter in Hlen.
      unfold with_b in Hlen. rewrite length_with_letter in Hlen.
      simpl in Hlen. lia. }
  destruct (suffix_stage labels (Some retry)) as [r|e|] eqn:Hstage.
  - destruct (Hlong r eq_refl) as (new & -> & Hlen).
    exists new. unfold _get_legends_txt. rewrite for_each_app.
    unfold _get_legends_txt in Hrun. rewrite Hrun. cbn [for_each].
    unfold legend_step. rewrite Hretry. cbn [bind]. rewrite Hstage. cbn [bind].
    split; [reflexivity|]. split; [exact Hends|].
    assert (Hfree : name_in (Some with_b) labels = false -> new = with_b).
    { intros Hfreeb. specialize (Hb Hfreeb). inversion Hb. reflexivity. }
    split; [|split; [exact Hfree|]].
    + destruct (name_in (Some with_b) labels) eqn:Hinb.
      * specialize (Hlen eq_refl).
        intros E. apply (f_equal (@length N)) in E. unfold with_a in E.
        rewrite length_with_letter in E. simpl in E. lia.
      * rewrite (Hfree eq_refl). apply with_letter_differs.
    + intros ->. apply Hfree. apply name_in_longer.
      intros y [E|[]]. inversion E; subst y. unfold with_b.
      rewrite length_with_letter. simpl. lia.
  - destruct Hends as [[_ Hbig]|(_ & Hnone & _)]; [lia|discriminate].
  - contradiction.
Qed.

Lemma first_suffix_letter_is_b_witness :
  _get_legends_txt sample_format false
    ([py "vac_1_Cd_0"; py "vac_1_Cd_0"] ++ [py "vac_1_Cd_0"])
  = Ok ([Some (py "$V_{Cd}$"); Some (py "$V_{Cd_{s1}}$")]
        ++ [Some (py "$V_{Cd_{s1b}}$")])
  /\ py "$V_{Cd_{s1b}}$" <> py "$V_{Cd_{s1a}}$".
Proof.
  destruct (first_suffix_letter_is_b sample_format false
              [py "vac_1_Cd_0"; py "vac_1_Cd_0"]
              [Some (py "$V_{Cd}$"); Some (py "$V_{Cd_{s1}}$")]
              (py "vac_1_Cd_0") (py "$V_{Cd_{s1}}^{0}$")
              eq_refl eq_refl eq_refl eq_refl eq_refl)
    as (new & Hrun & _ & Ha & Hb & _).
  rewrite Hrun. rewrite (Hb eq_refl) in *. split; [reflexivity|exact Ha].
Defined.

(** In a further round the next letter is put in before the last three
    characters of the name that already has its letter, so the letters
    stand side by side: after [b] comes [bc]. *)
Theorem suffix_letters_pile_up (legends_txt : list (option pystr)) (s : pystr) :
  let sb := slice_to_m3 s ++ py "b" ++ slice_from_m3 s in
  let sbc := slice_to_m3 sb ++ py "c" ++ slice_from_m3 sb in
  name_in (Some s) legends_txt = true ->
  name_in (Some sb) legends_txt = true ->
  name_in (Some sbc) legends_txt = false ->
  suffix_stage legends_txt (Some s) = Ok (Some sbc).
Proof.
  intros sb sbc Hin Hin2 Hout.
  exact (proj2 (suffix_stage_letters legends_txt s Hin) Hin2 Hout).
Qed.

Lemma suffix_letters_pile_up_witness :
  suffix_stage [Some (py "$V_{Cd_{s1}}$"); Some (py "$V_{Cd_{s1b}}$")]
    (Some (py "$V_{Cd_{s1}}$"))
  = Ok (Some (py "$V_{Cd_{s1bc}}$")).
Proof.
  exact (suffix_letters_pile_up
           [Some (py "$V_{Cd_{s1}}$"); Some (py "$V_{Cd_{s1b}}$")]
           (py "$V_{Cd_{s1}}$") eq_refl eq_refl eq_refl).
Defined.

(** ** Every run that returns *)

(** Reading what a step of the result monad returned. *)
Ltac bind_ok H :=
  repeat match type of H with
         | bind ?r _ = Ok _ =>
             let E := fresh "Estep" in
             destruct r eqn:E; cbn [bind] in H; try discriminate H
         end.

Section RunFacts.

Variable DefectEntry : Type.
Variable name : DefectEntry -> pystr.
Variable charge_state : DefectEntry -> Z.
Variable ChemPots : Type.
Variable linspace_item : float -> float -> nat -> nat -> float.
Variable interp_at : float -> list float -> list float -> float.
Variable d : DefectPhaseDiagram DefectEntry ChemPots.
Variable chempots : ChemPots.
Variable xlim : float * float.

Local Abbreviation lower := (lower_bound charge_state d chempots xlim).
Local Abbreviation point := (transition_point charge_state d chempots).
Local Abbreviation upper := (upper_bound charge_state d chempots xlim).
Local Abbreviation body :=
  (species_step charge_state linspace_item interp_at d chempots xlim).

Lemma point_added_modify (s : pystr) (x v : float) (st : locals) (xy' : dict polyline)
    (st' : locals) :
  xy st' = dict_modify s (push_y v) (dict_modify s (push_x x) (xy st)) ->
  point_added s x st st'.
Proof.
  intros Hxy line Hline. exists v. rewrite Hxy.
  rewrite (dict_get_modify_same s _ (push_x x line)); [reflexivity|].
  apply dict_get_modify_same. exact Hline.
Qed.

Lemma lower_bound_run (s : pystr) (def_tl : list (float * list Z))
    (org_x : list float) (st st' : locals) :
  lower s def_tl org_x st = Ok st' -> point_added s lower_cap st st'.
Proof.
  unfold lower_bound. intros H. bind_ok H. inversion H.
  eapply point_added_modify with (xy' := xy st'). subst st'. reflexivity.
Qed.

Lemma upper_bound_run (s : pystr) (def_tl : list (float * list Z))
    (org_x : list float) (st st' : locals) :
  upper s def_tl org_x st = Ok st' -> point_added s upper_cap st st'.
Proof.
  unfold upper_bound. intros H. bind_ok H. inversion H.
  eapply point_added_modify with (xy' := xy st'). subst st'. reflexivity.
Qed.

Lemma transition_point_run (s : pystr) (def_tl : list (float * list Z))
    (fl : float) (st st' : locals) :
  point s def_tl st fl = Ok st' -> point_added s fl st st'.
Proof.
  unfold transition_point. intros H. bind_ok H. inversion H.
  eapply point_added_modify with (xy' := xy st'). subst st'. reflexivity.
Qed.

Lemma transitions_run (s : pystr) (def_tl : list (float * list Z)) (l : list float) :
  forall (st st' : locals) (xs ys : list float),
    for_each (point s def_tl) l st = Ok st' ->
    dict_get s (xy st) = Some (xs, ys) ->
    exists ymid, dict_get s (xy st') = Some (xs ++ l, ys ++ ymid)
                 /\ length ymid = length l.
Proof.
  induction l as [|fl l IH]; intros st st' xs ys Hrun Hline.
  - inversion Hrun; subst. exists []. rewrite !app_nil_r. auto.
  - cbn [for_each] in Hrun.
    destruct (point s def_tl st fl) as [st1| |] eqn:Hstep; try discriminate.
    destruct (transition_point_run _ _ _ _ _ Hstep _ Hline) as [v Hget].
    destruct (IH _ _ _ _ Hrun Hget) as (ymid & Hget' & Hlen).
    exists (v :: ymid). cbn [fst snd] in *.
    rewrite Hget', <- !app_assoc. cbn [length]. auto.
Qed.

Lemma same_except_point (s : pystr) (x v : float) (st st' : locals) :
  xy st' = dict_modify s (push_y v) (dict_modify s (push_x x) (xy st)) ->
  same_except s (xy st) (xy st').
Proof.
  intros ->. eapply same_except_trans; apply same_except_modify.
Qed.

Lemma lower_bound_same (s : pystr) (def_tl : list (float * list Z))
    (org_x : list float) (st st' : locals) :
  lower s def_tl org_x st = Ok st' -> same_except s (xy st) (xy st').
Proof.
  unfold lower_bound. intros H. bind_ok H. inversion H.
  eapply same_except_point. reflexivity.
Qed.

Lemma upper_bound_same (s : pystr) (def_tl : list (float * list Z))
    (org_x : list float) (st st' : locals) :
  upper s def_tl org_x st = Ok st' -> same_except s (xy st) (xy st').
Proof.
  unfold upper_bound. intros H. bind_ok H. inversion H.
  eapply same_except_point. reflexivity.
Qed.

Lemma transitions_same (s : pystr) (def_tl : list (float * list Z)) (l : list float) :
  forall st st' : locals,
    for_each (point s def_tl) l st = Ok st' -> same_except s (xy st) (xy st').
Proof.
  induction l as [|fl l IH]; intros st st' Hrun.
  - inversion Hrun. apply same_except_refl.
  - cbn [for_each] in Hrun.
    destruct (point s def_tl st fl) as [st1| |] eqn:Hp; try discriminate.
    eapply same_except_trans; [|apply (IH _ _ Hrun)].
    unfold transition_point in Hp. bind_ok Hp. inversion Hp.
    eapply same_except_point. reflexivity.
Qed.

Lemma envelope_same (s : pystr) (def_tl : list (float * list Z)) (st st' : locals) :
  envelope charge_state d chempots xlim s def_tl st = Ok st' ->
  same_except s (xy st) (xy st').
Proof.
  unfold envelope. intros H.
  destruct (lower _ _ _ _) as [st1| |] eqn:H1; cbn [bind] in H; try discriminate.
  destruct (for_each _ _ _) as [st2| |] eqn:H2; cbn [bind] in H; try discriminate.
  eapply same_except_trans; [exact (lower_bound_same _ _ _ _ _ H1)|].
  eapply same_except_trans; [exact (transitions_same _ _ _ _ _ H2)|].
  exact (upper_bound_same _ _ _ _ _ H).
Qed.

Lemma envelope_run (s : pystr) (def_tl : list (float * list Z)) (st st' : locals) :
  envelope charge_state d chempots xlim s def_tl st = Ok st' ->
  dict_get s (xy st) = Some ([], []) ->
  exists ys,
    dict_get s (xy st')
    = Some (lower_cap :: sorted (map fst def_tl) ++ [upper_cap], ys)
    /\ length ys = length def_tl + 2.
Proof.
  unfold envelope. intros H Hline.
  destruct (lower _ _ _ _) as [st1| |] eqn:H1; cbn [bind] in H; try discriminate.
  destruct (for_each _ _ _) as [st2| |] eqn:H2; cbn [bind] in H; try discriminate.
  destruct (lower_bound_run _ _ _ _ _ H1 _ Hline) as [y0 Hget1].
  destruct (transitions_run _ _ _ _ _ _ _ H2 Hget1) as (ymid & Hget2 & Hlen).
  destruct (upper_bound_run _ _ _ _ _ H _ Hget2) as [yn Hget3].
  cbn [fst snd] in *. exists (([] ++ [y0]) ++ ymid ++ [yn]).
  split.
  - rewrite Hget3. reflexivity.
  - cbn [app length]. rewrite length_app, Hlen, sorted_length, length_map.
    cbn [length]. lia.
Qed.

(** Where one turn of the second loop leaves the lines. *)
Lemma species_step_run (al : dict polyline) (st st' : locals)
    (s : pystr) (def_tl : list (float * list Z)) :
  body al st (s, def_tl) = Ok st' ->
  same_except s (xy st) (xy st')
  /\ match def_tl with
     | [] => exists line, dict_get (rsplit1_head 64%N s) al = Some line
                          /\ dict_get s (xy st') = Some line
     | _ => exists ys,
         dict_get s (xy st')
         = Some (lower_cap :: sorted (map fst def_tl) ++ [upper_cap], ys)
         /\ length ys = length def_tl + 2
     end.
Proof.
  unfold species_step.
  set (st0 := mkLocals (dict_set s ([], []) (xy st)) _ _ _ _ _ _).
  assert (H0 : dict_get s (xy st0) = Some ([], [])) by apply dict_get_set_same.
  assert (Hsame0 : same_except s (xy st) (xy st0)) by apply same_except_set.
  intros H.
  assert (Hcheck : forall st1, below_zero_check linspace_item interp_at d s st1 = Ok st' ->
                     xy st' = xy st1).
  { intros st1 Hc. unfold below_zero_check in Hc. bind_ok Hc.
    match type of Hc with
    | (if ?b then _ else _) = _ => destruct b
    end;
      exact (eq_sym (f_equal (fun r => match r with
                                       | Ok l => xy l
                                       | _ => xy st1
                                       end) Hc)). }
  destruct def_tl as [|p rest].
  - destruct (single_state d chempots xlim al s st0) as [st1| |] eqn:H1;
      cbn [bind] in H; try discriminate.
    rewrite (Hcheck _ H). unfold single_state, dict_item in H1.
    destruct (dict_get (rsplit1_head 64%N s) al) as [line|] eqn:Hline;
      cbn [bind] in H1; [|discriminate].
    bind_ok H1. inversion H1. cbn [xy]. split.
    + eapply same_except_trans; [exact Hsame0|apply same_except_set].
    + exists line. split; [reflexivity|apply dict_get_set_same].
  - destruct (envelope charge_state d chempots xlim s (p :: rest) st0)
      as [st1| |] eqn:H1; cbn [bind] in H; try discriminate.
    rewrite (Hcheck _ H). split.
    + eapply same_except_trans; [exact Hsame0|exact (envelope_same _ _ _ _ H1)].
    + apply (envelope_run _ _ _ _ H1 H0).
Qed.

Lemma species_loop_run (al : dict polyline)
    (l : list (pystr * list (float * list Z))) :
  distinct_keys (map fst l) = true ->
  forall st st',
    for_each (body al) l st = Ok st' ->
    (forall k, ~ In k (map fst l) -> dict_get k (xy st') = dict_get k (xy st))
    /\ forall s def_tl, In (s, def_tl) l ->
       match def_tl with
       | [] => exists line, dict_get (rsplit1_head 64%N s) al = Some line
                            /\ dict_get s (xy st') = Some line
       | _ => exists ys,
           dict_get s (xy st')
           = Some (lower_cap :: sorted (map fst def_tl) ++ [upper_cap], ys)
           /\ length ys = length def_tl + 2
       end.
Proof.
  induction l as [|[s0 tl0] l IH]; intros Hdist st st' Hrun.
  - inversion Hrun; subst. split; [auto|intros ? ? []].
  - cbn [map distinct_keys fst] in Hdist. apply andb_true_iff in Hdist.
    destruct Hdist as [Hfresh Hdist].
    apply negb_true_iff, str_in_not_In in Hfresh.
    cbn [for_each] in Hrun.
    destruct (body al st (s0, tl0)) as [st1| |] eqn:Hstep; try discriminate.
    destruct (species_step_run _ _ _ _ _ Hstep) as [Hsame Hline].
    destruct (IH Hdist _ _ Hrun) as [Hrest Hitems].
    split.
    + intros k Hk. cbn [map fst] in Hk.
      rewrite Hrest by (intros Hin; apply Hk; right; exact Hin).
      apply Hsame. intros ->. apply Hk. left; reflexivity.
    + intros s def_tl [Heq|Hin]; [|apply Hitems; exact Hin].
      inversion Heq; subst s0 tl0. rewrite (Hrest _ Hfresh). exact Hline.
Qed.

End RunFacts.

(** Whenever the function returns, the envelope of a species with [k]
    breakpoints has the lower cap, the [k] breakpoints in ascending order
    and the upper cap as abscissas, and [k + 2] energies; and the line of a
    species without transition level is the line that [all_lines_xy] holds
    under the species name. *)
Lemma lines_run_shape
    (DefectEntry : Type) (name : DefectEntry -> pystr)
    (charge_state : DefectEntry -> Z) (ChemPots : Type)
    (linspace_item : float -> float -> nat -> nat -> float)
    (interp_at : float -> list float -> list float -> float)
    (d : DefectPhaseDiagram DefectEntry ChemPots) (chempots : ChemPots)
    (xlim : float * float) (r : lines) :
  _get_formation_energy_lines name charge_state linspace_item interp_at
    d chempots xlim = Ok r ->
  distinct_keys (map fst (transition_level_map d)) = true ->
  forall s def_tl, In (s, def_tl) (transition_level_map d) ->
    match def_tl with
    | [] => exists line,
        dict_get (rsplit1_head 64%N s) (lines_all_lines_xy r) = Some line
        /\ dict_get s (lines_xy r) = Some line
    | _ => exists ys,
        dict_get s (lines_xy r)
        = Some (lower_cap :: sorted (map fst def_tl) ++ [upper_cap], ys)
        /\ length ys = length def_tl + 2
    end.
Proof.
  unfold _get_formation_energy_lines. intros Hrun Hdist.
  destruct (all_lines name charge_state d chempots xlim) as [al ar].
  destruct (for_each _ _ _) as [st| |] eqn:Hloop; cbn [bind] in Hrun;
    try discriminate.
  inversion Hrun. cbn [lines_xy lines_all_lines_xy].
  exact (proj2 (species_loop_run DefectEntry charge_state ChemPots linspace_item
                  interp_at d chempots xlim al _ Hdist _ _ Hloop)).
Qed.

(** Whenever the function returns, the envelope of a species with [k]
    breakpoints has the lower cap, the [k] breakpoints in ascending order
    and the upper cap as abscissas, and [k + 2] energies; and the line of a
    species without transition level is the line that [all_lines_xy] holds
    under the species name. *)
Theorem lines_of_any_run
    (DefectEntry : Type) (name : DefectEntry -> pystr)
    (charge_state : DefectEntry -> Z) (ChemPots : Type)
    (linspace_item : float -> float -> nat -> nat -> float)
    (interp_at : float -> list float -> list float -> float)
    (d : DefectPhaseDiagram DefectEntry ChemPots) (chempots : ChemPots)
    (xlim : float * float) (r : lines) :
  _get_formation_energy_lines name charge_state linspace_item interp_at
    d chempots xlim = Ok r ->
  distinct_keys (map fst (transition_level_map d)) = true ->
  forall s def_tl, In (s, def_tl) (transition_level_map d) ->
    match def_tl with
    | [] => exists line,
        dict_get (rsplit1_head 64%N s) (lines_all_lines_xy r) = Some line
        /\ dict_get s (lines_xy r) = Some line
    | _ => exists ys,
        dict_get s (lines_xy r)
        = Some (lower_cap :: sorted (map fst def_tl) ++ [upper_cap], ys)
        /\ length ys = length def_tl + 2
    end.
Proof. apply lines_run_shape. Qed.

Lemma lines_of_any_run_witness :
  exists ys,
    line_of_species (run_lines stale_diagram) (py "Int_Te_3@1")
    = Some ([(-100)%float; 0.5%float; 100%float], ys)
    /\ length ys = 3.
Proof.
  assert (Hrun : exists r, run_lines stale_diagram = Ok r).
  { eexists. vm_compute. reflexivity. }
  destruct Hrun as [r Hrun].
  destruct (lines_of_any_run SampleEntry se_name se_charge unit sample_linspace
              sample_interp stale_diagram tt sample_xlim r Hrun eq_refl
              (py "Int_Te_3@1") [(0.5%float, [2; 1]%Z)]
              (or_intror (or_introl eq_refl)))
    as (ys & Hget & Hlen).
  exists ys. unfold line_of_species. rewrite Hrun. split; [exact Hget|exact Hlen].
Defined.

(** ** Point count, abscissas and single-state lines *)

(** C1 (as amended). Whenever the function returns, the envelope of a
    species with [k] breakpoints has [k + 2] points: its abscissas are the
    lower cap, the breakpoints in ascending order and the upper cap. They
    increase strictly when the breakpoints are pairwise unequal and lie
    strictly between the caps [-100] and [100]. The function returns on
    every diagram that meets its precondition [lines_ready]: each species
    of the map has its list of stable entries; for a species with
    transition levels no breakpoint is NaN, and every breakpoint's maximum
    charge, and the last breakpoint's minimum charge, is the charge of a
    stable entry; for a species without transition level the list is not
    empty and some entry of the diagram has the species name up to the
    last [@] as its key [name_charge]. *)
Theorem envelope_points
    (DefectEntry : Type) (name : DefectEntry -> pystr)
    (charge_state : DefectEntry -> Z) (ChemPots : Type)
    (linspace_item : float -> float -> nat -> nat -> float)
    (interp_at : float -> list float -> list float -> float)
    (d : DefectPhaseDiagram DefectEntry ChemPots) (chempots : ChemPots)
    (xlim : float * float) :
  let run :=
    _get_formation_energy_lines name charge_state linspace_item interp_at
      d chempots xlim in
  (lines_ready name charge_state d chempots = true -> exists r, run = Ok r)
  /\ forall r,
     run = Ok r ->
     distinct_keys (map fst (transition_level_map d)) = true ->
     forall s def_tl,
       In (s, def_tl) (transition_level_map d) -> def_tl <> [] ->
       exists xs ys,
         dict_get s (lines_xy r) = Some (xs, ys)
         /\ xs = lower_cap :: sorted (map fst def_tl) ++ [upper_cap]
         /\ length xs = length def_tl + 2
         /\ length ys = length def_tl + 2
         /\ (between_caps (map fst def_tl) = true ->
             pairwise_distinct (map fst def_tl) = true ->
             increasing xs = true).
Proof.
  intros run. split; [apply lines_ready_returns|].
  intros r Hrun Hdist s def_tl Hin Hne.
  pose proof (lines_run_shape DefectEntry name charge_state ChemPots linspace_item
                interp_at d chempots xlim r Hrun Hdist s def_tl Hin) as Hshape.
  destruct def_tl as [|p rest]; [congruence|].
  destruct Hshape as (ys & Hget & Hlen).
  set (tl := p :: rest) in *.
  exists (lower_cap :: sorted (map fst tl) ++ [upper_cap]), ys.
  split; [exact Hget|]. split; [reflexivity|]. split; [|split; [exact Hlen|]].
  - cbn [length]. rewrite length_app, sorted_length, length_map. cbn [length]. lia.
  - apply capped_sorted_increasing.
Qed.

Lemma envelope_points_witness :
  exists r xs ys,
    run_lines ready_diagram = Ok r
    /\ dict_get (py "vac_1_Cd@0") (lines_xy r) = Some (xs, ys)
    /\ xs = [(-100)%float; 1%float; 100%float]
    /\ length xs = 3 /\ length ys = 3 /\ increasing xs = true.
Proof.
  destruct (envelope_points SampleEntry se_name se_charge unit sample_linspace
              sample_interp ready_diagram tt sample_xlim) as [Hret Hshape].
  destruct (Hret eq_refl) as [r Hrun].
  destruct (Hshape r Hrun eq_refl (py "vac_1_Cd@0") [(1%float, [1; -1]%Z)])
    as (xs & ys & Hget & Hxs & Hlx & Hly & Hinc);
    [left; reflexivity | discriminate |].
  exists r, xs, ys. repeat split; auto.
Defined.

(** C3. Whenever the function returns (and it does on every diagram that
    meets its precondition), the line of a species without transition
    levels is the two-point line that the first loop stored for the
    species' entry, the entry whose key [name_charge] is the species name
    before the last [@]: the same abscissas and the same energies. *)
Theorem single_state_line
    (DefectEntry : Type) (name : DefectEntry -> pystr)
    (charge_state : DefectEntry -> Z) (ChemPots : Type)
    (linspace_item : float -> float -> nat -> nat -> float)
    (interp_at : float -> list float -> list float -> float)
    (d : DefectPhaseDiagram DefectEntry ChemPots) (chempots : ChemPots)
    (xlim : float * float) (s : pystr) :
  let run :=
    _get_formation_energy_lines name charge_state linspace_item interp_at
      d chempots xlim in
  let E := energy_at d chempots in
  (lines_ready name charge_state d chempots = true -> exists r, run = Ok r)
  /\ forall r,
     run = Ok r ->
     distinct_keys (map fst (transition_level_map d)) = true ->
     In (s, []) (transition_level_map d) ->
     exists e,
       In e (entries d)
       /\ entry_key name charge_state e = rsplit1_head 64%N s
       /\ entry_of_key name charge_state d (rsplit1_head 64%N s) = Some e
       /\ dict_get (entry_key name charge_state e) (lines_all_lines_xy r)
          = Some ([lower_cap; upper_cap], [E e lower_cap; E e upper_cap])
       /\ dict_get s (lines_xy r)
          = dict_get (entry_key name charge_state e) (lines_all_lines_xy r).
Proof.
  intros run E. split; [apply lines_ready_returns|].
  intros r Hrun Hdist Hin.
  destruct (lines_run_shape DefectEntry name charge_state ChemPots linspace_item
              interp_at d chempots xlim r Hrun Hdist s [] Hin)
    as (line & Hstored & Hget).
  destruct (lines_all_part _ _ _ _ _ _ _ _ _ _ Hrun) as [Hal _].
  rewrite Hal in *.
  rewrite (all_lines_get DefectEntry name charge_state ChemPots d chempots xlim)
    in Hstored.
  destruct (entry_of_key name charge_state d (rsplit1_head 64%N s)) as [e|] eqn:He;
    [|discriminate].
  cbn [option_map] in Hstored. inversion Hstored; subst line.
  destruct (find_last_In _ _ _ He) as [Hine Hkey].
  apply str_eqb_eq in Hkey.
  exists e. rewrite <- Hkey, all_lines_get, He, Hget. auto 10.
Qed.

Lemma single_state_line_witness :
  exists r,
    run_lines ready_diagram = Ok r
    /\ dict_get (py "Int_Te_3_0@1") (lines_xy r)
       = Some ([(-100)%float; 100%float], [2.25%float; 2.25%float])
    /\ dict_get (py "Int_Te_3_0") (lines_all_lines_xy r)
       = Some ([(-100)%float; 100%float], [2.25%float; 2.25%float]).
Proof.
  destruct (single_state_line SampleEntry se_name se_charge unit sample_linspace
              sample_interp ready_diagram tt sample_xlim (py "Int_Te_3_0@1"))
    as [Hret Hline].
  destruct (Hret eq_refl) as [r Hrun].
  destruct (Hline r Hrun eq_refl (or_intror (or_introl eq_refl)))
    as (e & _ & _ & He & Hall & Hxy).
  inversion He; subst e.
  exists r. split; [exact Hrun|]. split; [rewrite Hxy|]; exact Hall.
Defined.

(** * Properties of the plotting functions *)

(** ** Names of lines and of files *)

Lemma existsb_sep_In (sep : N) (s : pystr) :
  existsb (N.eqb sep) s = true <-> In sep s.
Proof.
  rewrite existsb_exists. split.
  - intros [x [Hx E]]. apply N.eqb_eq in E. subst. exact Hx.
  - intros H. exists sep. split; [exact H|apply N.eqb_refl].
Qed.

Lemma existsb_sep_not_In (sep : N) (s : pystr) :
  existsb (N.eqb sep) s = false <-> ~ In sep s.
Proof.
  rewrite <- existsb_sep_In. destruct (existsb _ s); split; congruence.
Qed.

Lemma split_head_without (sep : N) (s : pystr) : ~ In sep (split_head sep s).
Proof.
  induction s as [|c t IH]; simpl; [tauto|].
  destruct (N.eqb_spec c sep) as [->|Hne]; simpl; [tauto|].
  intros [H|H]; [congruence|exact (IH H)].
Qed.

Lemma split_head_whole (sep : N) (s : pystr) :
  ~ In sep s -> split_head sep s = s.
Proof.
  induction s as [|c t IH]; simpl; [reflexivity|].
  intros H. destruct (N.eqb_spec c sep) as [->|Hne]; [tauto|].
  rewrite IH; tauto.
Qed.

Lemma rsplit1_head_whole (sep : N) (s : pystr) :
  ~ In sep s -> rsplit1_head sep s = s.
Proof.
  destruct s as [|c t]; simpl; [reflexivity|].
  intros H.
  destruct (existsb (N.eqb sep) t) eqn:E.
  - apply existsb_sep_In in E. tauto.
  - destruct (N.eqb_spec c sep) as [->|Hne]; [tauto|reflexivity].
Qed.

(** The name of a line in the legend, [def_name.split("@")[0]], and the
    name under which [_get_formation_energy_lines] looks the species up in
    [all_lines_xy] and names it in its warning,
    [def_name.rsplit("@", 1)[0]], are the same string exactly when the
    species name has at most one [@]. *)
Theorem legend_name_is_line_key (def_name : pystr) :
  split_head 64%N def_name = rsplit1_head 64%N def_name
  <-> count_occ N.eq_dec def_name 64%N <= 1.
Proof.
  induction def_name as [|c t IH]; [simpl; split; auto|].
  cbn [split_head rsplit1_head count_occ].
  destruct (existsb (N.eqb 64%N) t) eqn:E.
  - assert (Hin : In 64%N t) by (apply existsb_sep_In; exact E).
    apply (count_occ_In N.eq_dec) in Hin.
    destruct (N.eqb_spec c 64%N) as [->|Hne].
    + destruct (N.eq_dec 64 64) as [_|Hn]; [|congruence].
      split; [discriminate|lia].
    + destruct (N.eq_dec c 64) as [Heq|_]; [congruence|].
      rewrite <- IH. split; [intros H; inversion H; reflexivity|intros ->; reflexivity].
  - assert (Hout : ~ In 64%N t) by (apply existsb_sep_not_In; exact E).
    pose proof (proj1 (count_occ_not_In N.eq_dec t 64%N) Hout) as H0.
    destruct (N.eqb_spec c 64%N) as [->|Hne].
    + destruct (N.eq_dec 64 64) as [_|Hn]; [|congruence].
      split; [lia|reflexivity].
    + destruct (N.eq_dec c 64) as [Heq|_]; [congruence|].
      rewrite split_head_whole by exact Hout. split; [lia|reflexivity].
Qed.

(** ** Plotting the lines *)

Lemma dict_get_key {V : Type} (k : pystr) (d : dict V) :
  In k (map fst d) -> exists v, dict_get k d = Some v.
Proof.
  induction d as [|[k' v'] d IH]; simpl; [tauto|].
  intros H. destruct (str_eqb k k') eqn:E; [eauto|].
  apply str_eqb_neq in E. destruct H as [H|H]; [congruence|auto].
Qed.

Lemma dict_get_In_key {V : Type} (k : pystr) (d : dict V) (v : V) :
  dict_get k d = Some v -> In k (map fst d).
Proof.
  induction d as [|[k' v'] d IH]; simpl; [discriminate|].
  destruct (str_eqb k k') eqn:E; [|auto].
  apply str_eqb_eq in E. auto.
Qed.

Section PlotLinesFacts.

Variable xy : dict polyline.
Variable colors : list color.
Variables lw ms alpha : float.

Local Abbreviation step := (plot_line_step xy colors lw ms alpha).
Local Abbreviation plotted line col :=
  (plot_line (fst line) (snd line) col (lw * 1.2) (ms * (4 / 6)) alpha)%float.

Lemma plot_lines_loop (ks : list pystr) :
  (forall k, In k ks -> In k (map fst xy)) ->
  forall cnt names c,
    cnt + length ks <= length colors ->
    exists drawn,
      for_each step ks (cnt, names, c)
      = Ok (cnt + length ks, names ++ map (split_head 64%N) ks,
            mkCanvas (warnings c) (calls c ++ drawn))
      /\ length drawn = length ks
      /\ forall n k, nth_error ks n = Some k ->
           exists line col,
             dict_get k xy = Some line
             /\ nth_error colors (cnt + n) = Some col
             /\ nth_error drawn n = Some (plotted line col).
Proof.
  induction ks as [|k ks IH]; intros Hkeys cnt names c Hlen.
  - exists []. cbn [for_each length map]. rewrite !app_nil_r, Nat.add_0_r.
    destruct c. repeat split. intros [|n] k H; discriminate.
  - cbn [length] in Hlen.
    destruct (dict_get_key k xy (Hkeys k (or_introl eq_refl))) as [line Hline].
    destruct (nth_error colors cnt) as [col|] eqn:Hcol;
      [|apply nth_error_None in Hcol; lia].
    destruct (IH (fun k' H => Hkeys k' (or_intror H)) (S cnt)
                (names ++ [split_head 64%N k]) (draw (plotted line col) c))
      as (drawn & Hrun & Hdrawn & Hnth); [lia|].
    exists (plotted line col :: drawn).
    cbn [for_each]. unfold plot_line_step at 1, dict_item, nth_item.
    rewrite Hline, Hcol. cbn [bind]. rewrite Hrun.
    cbn [draw warnings calls length map]. rewrite <- !app_assoc. cbn [app].
    replace (S cnt + length ks) with (cnt + S (length ks)) by lia.
    split; [reflexivity|]. split; [cbn [length]; lia|].
    intros [|n] k' Hk'; cbn [nth_error] in *.
    + inversion Hk'; subst k'. exists line, col. rewrite Nat.add_0_r. auto.
    + destruct (Hnth n k' Hk') as (line' & col' & H1 & H2 & H3).
      exists line', col'. replace (cnt + S n) with (S cnt + n) by lia. auto.
Qed.

Lemma plot_lines_loop_raises (ks : list pystr) :
  (forall k, In k ks -> In k (map fst xy)) ->
  forall cnt names c,
    cnt <= length colors ->
    length colors < cnt + length ks ->
    for_each step ks (cnt, names, c) = Raise IndexError.
Proof.
  induction ks as [|k ks IH]; intros Hkeys cnt names c Hle Hlen.
  - cbn [length] in Hlen. lia.
  - cbn [length] in Hlen.
    destruct (dict_get_key k xy (Hkeys k (or_introl eq_refl))) as [line Hline].
    cbn [for_each]. unfold plot_line_step at 1, dict_item, nth_item.
    rewrite Hline. cbn [bind].
    destruct (nth_error colors cnt) as [col|] eqn:Hcol; [|reflexivity].
    cbn [bind].
    assert (cnt < length colors) by (apply nth_error_Some; congruence).
    apply IH; [intros k' H'; apply Hkeys; right; exact H'|lia|lia].
Qed.

End PlotLinesFacts.

Lemma plot_lines_run (xy : dict polyline) (colors : list color)
    (lw ms alpha : float) (c : canvas) :
  length xy <= length colors ->
  exists drawn,
    _plot_formation_energy_lines xy colors lw ms alpha c
    = Ok (map (split_head 64%N) (map fst xy),
          mkCanvas (warnings c) (calls c ++ drawn))
    /\ length drawn = length xy
    /\ (forall n k, nth_error (map fst xy) n = Some k ->
          exists line col,
            dict_get k xy = Some line
            /\ nth_error colors n = Some col
            /\ nth_error drawn n
               = Some (plot_line (fst line) (snd line) col (lw * 1.2)
                         (ms * (4 / 6)) alpha)%float)
    /\ Forall (fun name => ~ In 64%N name) (map (split_head 64%N) (map fst xy)).
Proof.
  intros Hlen.
  destruct (plot_lines_loop xy colors lw ms alpha (map fst xy) (fun k H => H)
              0 [] c) as (drawn & Hrun & Hdrawn & Hnth);
    [rewrite length_map; exact Hlen|].
  exists drawn. unfold _plot_formation_energy_lines. rewrite Hrun.
  cbn [bind fst snd app]. rewrite length_map in Hdrawn.
  split; [reflexivity|]. split; [exact Hdrawn|]. split; [exact Hnth|].
  apply Forall_forall. intros name Hin. apply in_map_iff in Hin.
  destruct Hin as (k & <- & _). apply split_head_without.
Qed.

(** When there are at least as many colours as lines,
    [_plot_formation_energy_lines] returns: it has plotted the lines in the
    order of the keys, line number [n] in colour number [n], and the names
    for the legend are the keys up to their first [@], so that no name
    contains an [@]. *)
Theorem plot_lines_returns (xy : dict polyline) (colors : list color)
    (lw ms alpha : float) (c : canvas) :
  length xy <= length colors ->
  exists drawn,
    _plot_formation_energy_lines xy colors lw ms alpha c
    = Ok (map (split_head 64%N) (map fst xy),
          mkCanvas (warnings c) (calls c ++ drawn))
    /\ length drawn = length xy
    /\ (forall n k, nth_error (map fst xy) n = Some k ->
          exists line col,
            dict_get k xy = Some line
            /\ nth_error colors n = Some col
            /\ nth_error drawn n
               = Some (plot_line (fst line) (snd line) col (lw * 1.2)
                         (ms * (4 / 6)) alpha)%float)
    /\ Forall (fun name => ~ In 64%N name) (map (split_head 64%N) (map fst xy)).
Proof. apply plot_lines_run. Qed.

Lemma plot_lines_returns_witness :
  exists drawn,
    _plot_formation_energy_lines
      [(py "vac_1_Cd@0", ([1; 2], [3; 4])%float); (py "Int_Te@1@a", ([], []))]
      [[0.1; 0.2; 0.3; 1]; [0.4; 0.5; 0.6; 1]]%float 1 6 1 (mkCanvas [] [clf])
    = Ok ([py "vac_1_Cd"; py "Int_Te"], mkCanvas [] ([clf] ++ drawn))
    /\ length drawn = 2.
Proof.
  destruct (plot_lines_returns
              [(py "vac_1_Cd@0", ([1; 2], [3; 4])%float); (py "Int_Te@1@a", ([], []))]
              [[0.1; 0.2; 0.3; 1]; [0.4; 0.5; 0.6; 1]]%float 1 6 1
              (mkCanvas [] [clf]))
    as (drawn & Hrun & Hlen & _); [simpl; lia|].
  exists drawn. split; [exact Hrun|exact Hlen].
Defined.

(** With fewer colours than lines, [colors[cnt]] leaves the list:
    [_plot_formation_energy_lines] raises [IndexError] and returns no
    names. *)
Theorem plot_lines_few_colours (xy : dict polyline) (colors : list color)
    (lw ms alpha : float) (c : canvas) :
  length colors < length xy ->
  _plot_formation_energy_lines xy colors lw ms alpha c = Raise IndexError.
Proof.
  intros Hlen. unfold _plot_formation_energy_lines.
  rewrite (plot_lines_loop_raises xy colors lw ms alpha (map fst xy) (fun k H => H));
    [reflexivity|lia|rewrite length_map; exact Hlen].
Qed.

Lemma plot_lines_few_colours_witness :
  _plot_formation_energy_lines
    [(py "vac_1_Cd@0", ([1; 2], [3; 4])%float); (py "Int_Te@1", ([], []))]
    [[0.1; 0.2; 0.3; 1]]%float 1 6 1 (mkCanvas [] [])
  = Raise IndexError.
Proof. apply plot_lines_few_colours. simpl. lia. Defined.

(** ** The order of strings and [sorted] *)

Lemma str_ltb_irrefl (a : pystr) : str_ltb a a = false.
Proof.
  induction a as [|x a IH]; simpl; [reflexivity|].
  rewrite N.ltb_irrefl, N.eqb_refl, IH. reflexivity.
Qed.

Lemma str_ltb_trans (a b c : pystr) :
  str_ltb a b = true -> str_ltb b c = true -> str_ltb a c = true.
Proof.
  revert b c. induction a as [|x a IH]; intros [|y b] [|z c]; simpl;
    try congruence.
  rewrite !orb_true_iff, !andb_true_iff, !N.ltb_lt, !N.eqb_eq.
  intros [Hxy|[Hxy Hab]] [Hyz|[Hyz Hbc]]; subst.
  - left. lia.
  - left. exact Hxy.
  - left. exact Hyz.
  - right. split; [reflexivity|exact (IH _ _ Hab Hbc)].
Qed.

Lemma str_ltb_total (a b : pystr) :
  a <> b -> str_ltb a b = true \/ str_ltb b a = true.
Proof.
  revert b. induction a as [|x a IH]; intros [|y b] Hne; simpl.
  - congruence.
  - left; reflexivity.
  - right; reflexivity.
  - rewrite !orb_true_iff, !andb_true_iff, !N.ltb_lt, !N.eqb_eq.
    destruct (N.lt_trichotomy x y) as [H|[H|H]]; [auto| |auto].
    subst y. destruct (IH b) as [Hlt|Hlt]; [congruence| |]; auto.
Qed.

Lemma str_ltb_asym (a b : pystr) :
  str_ltb a b = true -> str_ltb b a = false.
Proof.
  intros H. destruct (str_ltb b a) eqn:E; [|reflexivity].
  rewrite <- (str_ltb_irrefl a). symmetry. exact (str_ltb_trans _ _ _ H E).
Qed.

Lemma insert_sorted_str_In (x y : pystr) (l : list pystr) :
  In y (insert_sorted_str x l) <-> y = x \/ In y l.
Proof.
  induction l as [|h t IH]; simpl; [intuition|].
  destruct (str_ltb h x); simpl; [rewrite IH|]; intuition.
Qed.

Lemma sorted_str_In (y : pystr) (l : list pystr) :
  In y (sorted_str l) <-> In y l.
Proof.
  induction l as [|x l IH]; simpl; [tauto|].
  rewrite insert_sorted_str_In, IH. intuition.
Qed.

Lemma insert_sorted_str_length (x : pystr) (l : list pystr) :
  length (insert_sorted_str x l) = S (length l).
Proof.
  induction l as [|h t IH]; simpl; [reflexivity|].
  destruct (str_ltb h x); simpl; [rewrite IH|]; reflexivity.
Qed.

Lemma sorted_str_length (l : list pystr) : length (sorted_str l) = length l.
Proof.
  induction l as [|x l IH]; simpl; [reflexivity|].
  rewrite insert_sorted_str_length, IH. reflexivity.
Qed.

Lemma insert_sorted_str_ascending (x : pystr) (l : list pystr) :
  ascending l -> ~ In x l -> ascending (insert_sorted_str x l).
Proof.
  induction l as [|h t IH]; intros Hasc Hout; simpl; [auto|].
  destruct Hasc as [Hh Ht].
  destruct (str_ltb h x) eqn:E; simpl.
  - split; [|apply IH; [exact Ht|intros H; apply Hout; right; exact H]].
    apply Forall_forall. intros y Hy. apply insert_sorted_str_In in Hy.
    destruct Hy as [->|Hy]; [exact E|].
    exact (proj1 (Forall_forall _ _) Hh y Hy).
  - assert (Hxh : str_ltb x h = true).
    { destruct (str_ltb_total x h) as [H|H]; [|exact H|congruence].
      intros ->. apply Hout. left; reflexivity. }
    split; [|split; assumption].
    constructor; [exact Hxh|].
    apply Forall_forall. intros y Hy.
    apply (str_ltb_trans x h y Hxh).
    exact (proj1 (Forall_forall _ _) Hh y Hy).
Qed.

Lemma sorted_str_ascending (l : list pystr) :
  NoDup l -> ascending (sorted_str l).
Proof.
  induction 1 as [|x l Hout _ IH]; simpl; [exact I|].
  apply insert_sorted_str_ascending; [exact IH|].
  rewrite sorted_str_In. exact Hout.
Qed.

Lemma ascending_unique (l1 : list pystr) :
  forall l2, ascending l1 -> ascending l2 ->
    (forall x, In x l1 <-> In x l2) -> l1 = l2.
Proof.
  induction l1 as [|h1 t1 IH]; intros [|h2 t2] H1 H2 Hsame.
  - reflexivity.
  - destruct (proj2 (Hsame h2) (or_introl eq_refl)).
  - destruct (proj1 (Hsame h1) (or_introl eq_refl)).
  - destruct H1 as [Hh1 Ht1], H2 as [Hh2 Ht2].
    pose proof (proj1 (Forall_forall _ _) Hh1) as Hlt1.
    pose proof (proj1 (Forall_forall _ _) Hh2) as Hlt2.
    cbv beta in Hlt1, Hlt2.
    assert (Heq : h1 = h2).
    { destruct (proj1 (Hsame h1) (or_introl eq_refl)) as [H|H]; [auto|].
      destruct (proj2 (Hsame h2) (or_introl eq_refl)) as [H'|H']; [auto|].
      pose proof (str_ltb_asym _ _ (Hlt1 _ H')) as Hc.
      rewrite (Hlt2 _ H) in Hc. discriminate. }
    subst h2. f_equal. apply IH; [exact Ht1|exact Ht2|].
    intros x. split; intros Hx.
    + destruct (proj1 (Hsame x) (or_intror Hx)) as [H|H]; [|exact H].
      subst x. pose proof (Hlt1 _ Hx) as Hc. rewrite str_ltb_irrefl in Hc.
      discriminate.
    + destruct (proj2 (Hsame x) (or_intror Hx)) as [H|H]; [|exact H].
      subst x. pose proof (Hlt2 _ Hx) as Hc. rewrite str_ltb_irrefl in Hc.
      discriminate.
Qed.

Lemma distinct_keys_NoDup (l : list pystr) :
  distinct_keys l = true <-> NoDup l.
Proof.
  induction l as [|x l IH]; simpl.
  - split; [constructor|reflexivity].
  - rewrite andb_true_iff, negb_true_iff, str_in_not_In, IH. split.
    + intros [H1 H2]. constructor; assumption.
    + intros H. inversion H; auto.
Qed.

Lemma sorted_str_same (l1 l2 : list pystr) :
  NoDup l1 -> NoDup l2 -> (forall x, In x l1 <-> In x l2) ->
  sorted_str l1 = sorted_str l2.
Proof.
  intros H1 H2 Hsame. apply ascending_unique.
  - apply sorted_str_ascending; exact H1.
  - apply sorted_str_ascending; exact H2.
  - intros x. rewrite !sorted_str_In. apply Hsame.
Qed.

(** ** The table of chemical potentials *)

Lemma dict_set_fresh {V : Type} (k : pystr) (v : V) (d : dict V) :
  ~ In k (map fst d) -> dict_set k v d = d ++ [(k, v)].
Proof.
  induction d as [|[k' v'] d IH]; simpl; [reflexivity|].
  intros H. destruct (str_eqb k k') eqn:E.
  - apply str_eqb_eq in E. subst k'. destruct H. left; reflexivity.
  - rewrite IH; [reflexivity|]. intros Hin. apply H. right; exact Hin.
Qed.

Lemma dict_get_map_values {V W : Type} (g : pystr -> V -> W) (k : pystr) (d : dict V) :
  dict_get k (map (fun item => (fst item, g (fst item) (snd item))) d)
  = option_map (g k) (dict_get k d).
Proof.
  induction d as [|[k' v'] d IH]; simpl; [reflexivity|].
  destruct (str_eqb k k') eqn:E; [|exact IH].
  apply str_eqb_eq in E. subst. reflexivity.
Qed.

Section RelativeChempots.

Variable refs : dict float.

Local Abbreviation step :=
  (fun (acc : dict float) (item : pystr * float) =>
     ref <- dict_item (fst item) refs ;;
     Ok (dict_set (fst item) (snd item - ref)%float acc)).

Lemma relative_loop_missing (d : dict float) :
  forall acc k, In k (map fst d) -> dict_get k refs = None ->
    for_each step d acc = Raise KeyError.
Proof.
  induction d as [|[k0 e0] d IH]; intros acc k Hin Hnone; [destruct Hin|].
  cbn [for_each fst snd]. unfold dict_item.
  destruct (dict_get k0 refs) as [r|] eqn:E; cbn [bind]; [|reflexivity].
  destruct Hin as [H|H]; [cbn [fst] in H; congruence|].
  exact (IH _ k H Hnone).
Qed.

Lemma relative_loop_covered (d : dict float) :
  forall acc,
    NoDup (map fst acc ++ map fst d) ->
    (forall k, In k (map fst d) -> dict_get k refs <> None) ->
    for_each step d acc = Ok (acc ++ map (relative_item refs) d).
Proof.
  induction d as [|[k0 e0] d IH]; intros acc Hnodup Hcover.
  - cbn [for_each map]. rewrite app_nil_r. reflexivity.
  - cbn [for_each fst snd map]. unfold dict_item.
    destruct (dict_get k0 refs) as [r|] eqn:E;
      [|destruct (Hcover k0 (or_introl eq_refl) E)].
    cbn [bind]. cbn [map fst] in Hnodup.
    rewrite dict_set_fresh.
    + rewrite IH.
      * rewrite <- app_assoc. unfold relative_item at 2. cbn [fst snd app].
        rewrite E. reflexivity.
      * rewrite map_app, <- app_assoc. exact Hnodup.
      * intros k H. apply Hcover. right. exact H.
    + apply NoDup_remove_2 in Hnodup. intros H. apply Hnodup.
      apply in_or_app. left. exact H.
Qed.

End RelativeChempots.

Lemma removelast_snoc {A : Type} (l : list A) (a : A) : removelast (l ++ [a]) = l.
Proof. apply removelast_last. Qed.

Lemma last_item_snoc {A : Type} (l : list A) (a : A) : last_item (l ++ [a]) = Ok a.
Proof. unfold last_item. rewrite rev_app_distr. reflexivity. Qed.

(** The brackets around a row of cells that end in a comma. *)
Lemma add_brackets_commas (bodies : list pystr) :
  bodies <> [] ->
  exists cells,
    add_brackets (map (fun b => b ++ py ",") bodies) = Ok cells
    /\ length cells = length bodies
    /\ forall i b, nth_error bodies i = Some b ->
         nth_error cells i
         = Some (cell_opens i ++ b ++ cell_closes (length bodies) i).
Proof.
  destruct bodies as [|b0 rest]; [congruence|]. intros _.
  destruct (exists_last (l := b0 :: rest)) as (init & z & Hsplit); [discriminate|].
  unfold add_brackets. cbn [map first_item bind set_first].
  destruct init as [|i0 init]; cbn [app] in Hsplit.
  - inversion Hsplit; subst z rest.
    cbn [map last_item rev app bind set_last removelast length].
    exists [py "(" ++ b0 ++ py ")"]. split.
    + do 2 f_equal. change (py "(" ++ b0 ++ py ",") with ((py "(" ++ b0) ++ [44%N]).
      rewrite removelast_snoc. reflexivity.
    + split; [reflexivity|]. intros [|[|i]] b H; inversion H; reflexivity.
  - inversion Hsplit; subst i0 rest.
    rewrite map_app. cbn [map].
    change ((py "(" ++ b0 ++ py ",") :: map (fun b => b ++ py ",") init ++ [z ++ py ","])
      with (((py "(" ++ b0 ++ py ",") :: map (fun b => b ++ py ",") init) ++ [z ++ py ","]).
    rewrite last_item_snoc. cbn [bind].
    exists (((py "(" ++ b0 ++ py ",") :: map (fun b => b ++ py ",") init) ++ [z ++ py ")"]).
    split.
    + f_equal. unfold set_last.
      destruct (((py "(" ++ b0 ++ py ",") :: map (fun b => b ++ py ",") init) ++ [z ++ py ","])
        as [|x l] eqn:El; [discriminate|].
      rewrite <- El, removelast_snoc.
      change (z ++ py ",") with (z ++ [44%N]). rewrite removelast_snoc.
      reflexivity.
    + split; [rewrite !length_app; cbn [length]; rewrite length_app, length_map;
              reflexivity|].
      cbn [length]. rewrite length_app. cbn [length].
      intros i b H. unfold cell_opens, cell_closes.
      destruct i as [|i].
      * cbn [nth_error app] in *. inversion H; subst b.
        destruct (Nat.eqb_spec 1 (S (length init + 1))); [lia|reflexivity].
      * cbn [nth_error app] in *. unfold pystr in *.
        destruct (Nat.eqb_spec (S i) 0); [lia|].
        destruct (Nat.lt_ge_cases i (length init)) as [Hlt|Hge].
        -- rewrite nth_error_app1 in H by exact Hlt.
           rewrite nth_error_app1 by (rewrite length_map; exact Hlt).
           rewrite nth_error_map, H. cbn [option_map app].
           destruct (Nat.eqb_spec (S (S i)) (S (length init + 1))); [lia|reflexivity].
        -- rewrite nth_error_app2 in H by exact Hge.
           rewrite nth_error_app2 by (rewrite length_map; exact Hge).
           rewrite length_map.
           destruct (i - length init) as [|j] eqn:Ej;
             [|destruct j; discriminate H].
           cbn [nth_error app] in *. inversion H; subst b.
           destruct (Nat.eqb_spec (S (S i)) (S (length init + 1))); [reflexivity|lia].
Qed.

Lemma py_truediv_len_pos (a : float) (n : nat) :
  n <> 0 -> py_truediv_len a n = Ok (a / float_of_nat n)%float.
Proof. destruct n; [congruence|reflexivity]. Qed.

Lemma text_list_loop (d : dict float) (els : list pystr) :
  (forall el, In el els -> In el (map fst d)) ->
  forall acc,
    exists bodies,
      for_each
        (fun acc el =>
           energy <- dict_item el d ;;
           Ok (acc ++ [format_2f energy ++ py ","]))
        els acc
      = Ok (acc ++ map (fun b => b ++ py ",") bodies)
      /\ length bodies = length els
      /\ forall i el, nth_error els i = Some el ->
           exists v, dict_get el d = Some v
                     /\ nth_error bodies i = Some (format_2f v).
Proof.
  induction els as [|el els IH]; intros Hkeys acc.
  - exists []. cbn [for_each map]. rewrite app_nil_r.
    repeat split. intros [|i] el H; discriminate.
  - destruct (dict_get_key el d (Hkeys el (or_introl eq_refl))) as [v Hv].
    destruct (IH (fun el' H => Hkeys el' (or_intror H))
                (acc ++ [format_2f v ++ py ","])) as (bodies & Hrun & Hlen & Hnth).
    exists (format_2f v :: bodies). cbn [for_each]. unfold dict_item at 1.
    rewrite Hv. cbn [bind]. rewrite Hrun, <- app_assoc. cbn [map app length].
    split; [reflexivity|]. split; [lia|].
    intros [|i] el' H; cbn [nth_error] in *.
    + inversion H; subst el'. eauto.
    + apply Hnth. exact H.
Qed.

Lemma refs_cover_spec (refs : dict float) (d : dict float) :
  refs_cover (Some refs) d = true ->
  forall k, In k (map fst d) -> exists ref, dict_get k refs = Some ref.
Proof.
  unfold refs_cover. rewrite forallb_forall. intros H k Hin.
  specialize (H k Hin). destruct (dict_get k refs) as [ref|]; [eauto|discriminate].
Qed.

Lemma refs_cover_false (refs : dict float) (d : dict float) :
  refs_cover (Some refs) d = false ->
  exists el, In el (map fst d) /\ dict_get el refs = None.
Proof.
  unfold refs_cover. intros Hcover.
  induction (map fst d) as [|k ks IH]; [discriminate Hcover|].
  cbn [forallb] in Hcover. apply andb_false_iff in Hcover.
  destruct Hcover as [Hk|Hks].
  - exists k. split; [left; reflexivity|].
    destruct (dict_get k refs); [discriminate Hk|reflexivity].
  - destruct (IH Hks) as (el & Hel & Hnone). exists el. split; [right|]; assumption.
Qed.

(** The dictionary that the table shows. *)
Lemma shown_chempots (d : dict float) (elt_refs : option (dict float)) :
  distinct_keys (map fst d) = true -> refs_cover elt_refs d = true ->
  exists d',
    match elt_refs with
    | Some refs => relative_chempots refs d
    | None => Ok d
    end = Ok d'
    /\ map fst d' = map fst d
    /\ forall el energy, dict_get el d = Some energy ->
         exists v, shown_chempot elt_refs el energy = Some v
                   /\ dict_get el d' = Some v.
Proof.
  intros Hdist Hcover. destruct elt_refs as [refs|].
  - exists (map (relative_item refs) d). split; [|split].
    + unfold relative_chempots.
      rewrite (relative_loop_covered refs d []); [reflexivity| |].
      * cbn [map app]. apply distinct_keys_NoDup. exact Hdist.
      * intros k Hk. destruct (refs_cover_spec _ _ Hcover k Hk) as [ref ->].
        discriminate.
    + rewrite map_map. reflexivity.
    + intros el energy Hget.
      destruct (refs_cover_spec _ _ Hcover el (dict_get_In_key _ _ _ Hget)) as [ref Href].
      exists (energy - ref)%float. cbn [shown_chempot]. rewrite Href.
      split; [reflexivity|].
      unfold relative_item.
      rewrite (dict_get_map_values
                 (fun k e => (e - match dict_get k refs with
                                  | Some ref => ref
                                  | None => 0
                                  end)%float) el d).
      rewrite Hget, Href. reflexivity.
  - exists d. split; [reflexivity|]. split; [reflexivity|].
    intros el energy Hget. exists energy. auto.
Qed.

Lemma chempot_table_run (d : dict float) (loc : pystr)
    (elt_refs : option (dict float)) (c : canvas) :
  d <> [] -> distinct_keys (map fst d) = true -> refs_cover elt_refs d = true ->
  exists cells names,
    _plot_chemical_potential_table d loc elt_refs c
    = Ok (mkCanvas (warnings c)
            (calls c
             ++ [table
                   (match elt_refs with
                    | Some _ => py "(wrt Elemental refs)"
                    | None => py "(from calculations)"
                    end :: cells ++ [py "  [eV]"])
                   (py "Chemical Potentials" :: names ++ [py " Units:"])
                   (0.1 :: repeat (0.9 / float_of_nat (length d)) (length d + 2))%float
                   loc;
                 auto_set_column_width (seq 0 (length d + 3));
                 cells_set_linewidth 0]))
    /\ length cells = length d
    /\ length names = length d
    /\ forall i el, nth_error (sorted_str (map fst d)) i = Some el ->
         exists energy v,
           dict_get el d = Some energy
           /\ shown_chempot elt_refs el energy = Some v
           /\ nth_error cells i
              = Some (cell_opens i ++ format_2f v ++ cell_closes (length d) i)
           /\ nth_error names i
              = Some (cell_opens i ++ (py "$\mathregular{\mu_{" ++ el ++ py "}}$")
                      ++ cell_closes (length d) i).
Proof.
  intros Hne Hdist Hcover.
  destruct (shown_chempots d elt_refs Hdist Hcover) as (d' & Hd' & Hkeys & Hshown).
  assert (Hlen : length d' = length d).
  { rewrite <- (length_map fst d'), Hkeys. apply length_map. }
  set (els := sorted_str (map fst d)).
  assert (Hels : length els = length d).
  { unfold els. rewrite sorted_str_length. apply length_map. }
  set (titles := map (fun s => py "$\mathregular{\mu_{" ++ s ++ py "}}$") els).
  assert (Htitles : map (fun s => py "$\mathregular{\mu_{" ++ s ++ py "}}$,") els
                    = map (fun b => b ++ py ",") titles).
  { unfold titles. rewrite map_map. apply map_ext. intros s.
    rewrite <- !app_assoc. reflexivity. }
  assert (Hnonempty : forall A (l : list A), length l = length d -> l <> []).
  { intros A l Hl ->. destruct d; [congruence|discriminate]. }
  destruct (add_brackets_commas titles) as (names & Hnames & Hnlen & Hnnth).
  { apply Hnonempty. unfold titles. rewrite length_map. exact Hels. }
  destruct (text_list_loop d' els) with (acc := @nil pystr)
    as (bodies & Hloop & Hblen & Hbnth).
  { intros el Hin. rewrite Hkeys. apply sorted_str_In. exact Hin. }
  destruct (add_brackets_commas bodies) as (cells & Hcells & Hclen & Hcnth).
  { apply Hnonempty. unfold pystr in *. lia. }
  exists cells, names.
  unfold _plot_chemical_potential_table. rewrite Hd'. cbn [bind].
  unfold pystr in *. rewrite Hkeys. fold els. rewrite Htitles, Hnames. cbn [bind].
  rewrite Hloop. cbn [bind app]. rewrite Hcells. cbn [bind].
  rewrite Hlen, py_truediv_len_pos
    by (intros H0; apply length_zero_iff_nil in H0; contradiction).
  cbn [bind length]. rewrite repeat_length. unfold draw. cbn [warnings calls].
  repeat rewrite <- app_assoc. cbn [app].
  match goal with
  | |- context [seq 0 (S (?n + 2))] => replace (S (n + 2)) with (n + 3) by lia
  end.
  split.
  - destruct elt_refs; reflexivity.
  - assert (Htlen : length titles = length els)
      by (unfold titles; apply length_map).
    split; [exact (eq_trans Hclen (eq_trans Hblen Hels))|].
    split; [exact (eq_trans Hnlen (eq_trans Htlen Hels))|].
    intros i el Hi. fold els in Hi.
    destruct (Hbnth i el Hi) as (v & Hv & Hbody).
    destruct (dict_get_key el d) as [energy Henergy].
    { apply sorted_str_In. exact (nth_error_In _ _ Hi). }
    destruct (Hshown el energy Henergy) as (v' & Hshow & Hv').
    assert (v' = v) by congruence. subst v'.
    exists energy, v. split; [exact Henergy|]. split; [exact Hshow|]. split.
    + rewrite (Hcnth i _ Hbody), (eq_trans Hblen Hels). reflexivity.
    + rewrite (Hnnth i (py "$\mathregular{\mu_{" ++ el ++ py "}}$")).
      * rewrite (eq_trans Htlen Hels). reflexivity.
      * unfold titles. rewrite nth_error_map, Hi. reflexivity.
Qed.

Lemma chempot_table_missing_ref_any (d : dict float) (loc : pystr)
    (refs : dict float) (c : canvas) (el : pystr) :
  In el (map fst d) -> dict_get el refs = None ->
  _plot_chemical_potential_table d loc (Some refs) c = Raise KeyError.
Proof.
  intros Hin Hnone. unfold _plot_chemical_potential_table, relative_chempots.
  rewrite (relative_loop_missing refs d [] el Hin Hnone). reflexivity.
Qed.

(** The two ways in which [_plot_chemical_potential_table] raises: on an
    empty dictionary of chemical potentials it raises [IndexError], from
    [labels[0]] of the empty list of labels, with or without reference
    energies; and when an element of the chemical potentials has no
    reference energy in [elt_refs] it raises [KeyError]. In both cases no
    table is drawn. *)
Theorem chempot_table_raises (loc : pystr) (c : canvas) :
  (forall elt_refs,
     _plot_chemical_potential_table [] loc elt_refs c = Raise IndexError)
  /\ (forall d refs el,
        In el (map fst d) -> dict_get el refs = None ->
        _plot_chemical_potential_table d loc (Some refs) c = Raise KeyError).
Proof.
  split.
  - intros elt_refs. destruct elt_refs; reflexivity.
  - intros d refs el. apply chempot_table_missing_ref_any.
Qed.

Lemma chempot_table_raises_witness :
  _plot_chemical_potential_table [] (py "left") None (mkCanvas [] [])
  = Raise IndexError
  /\ _plot_chemical_potential_table sample_chempots (py "left")
       (Some [(py "Cd", (-0.906)%float)]) (mkCanvas [] [])
     = Raise KeyError.
Proof.
  destruct (chempot_table_raises (py "left") (mkCanvas [] [])) as [Hempty Hmiss].
  split; [apply Hempty|].
  apply (Hmiss sample_chempots [(py "Cd", (-0.906)%float)] (py "Te")).
  - simpl. left. reflexivity.
  - reflexivity.
Defined.

(** For a dictionary that is not empty, with a reference energy for every
    element when [elt_refs] is given, [_plot_chemical_potential_table]
    returns after three calls: the table, the automatic column widths, and
    the line width of the cells. With [n] elements the row and the column
    labels have [n + 2] items each, but the list of column widths has
    [n + 3], and [auto_set_column_width] is given the [n + 3] column
    numbers [0 .. n + 2]. *)
Theorem chempot_table_shape (d : dict float) (loc : pystr)
    (elt_refs : option (dict float)) (c : canvas) :
  d <> [] -> distinct_keys (map fst d) = true -> refs_cover elt_refs d = true ->
  exists row labels widths,
    _plot_chemical_potential_table d loc elt_refs c
    = Ok (mkCanvas (warnings c)
            (calls c ++ [table row labels widths loc;
                         auto_set_column_width (seq 0 (length d + 3));
                         cells_set_linewidth 0]))
    /\ length row = length d + 2
    /\ length labels = length d + 2
    /\ length widths = length d + 3.
Proof.
  intros Hne Hdist Hcover.
  destruct (chempot_table_run d loc elt_refs c Hne Hdist Hcover)
    as (cells & names & Hrun & Hcells & Hnames & _).
  eexists _, _, _. split; [exact Hrun|].
  cbn [length]. rewrite !length_app, repeat_length. cbn [length].
  unfold pystr in *. repeat split; lia.
Qed.

Lemma chempot_table_shape_witness :
  exists row labels widths,
    _plot_chemical_potential_table sample_chempots (py "left")
      (Some sample_elt_refs) (mkCanvas [] [])
    = Ok (mkCanvas [] [table row labels widths (py "left");
                       auto_set_column_width [0; 1; 2; 3; 4];
                       cells_set_linewidth 0])
    /\ length row = 4 /\ length labels = 4 /\ length widths = 5.
Proof.
  exact (chempot_table_shape sample_chempots (py "left") (Some sample_elt_refs)
           (mkCanvas [] []) ltac:(discriminate) eq_refl eq_refl).
Defined.

(** The cells of the table: between the heading and the unit, one cell
    per element in ascending order of the element symbols; the cell of an
    element shows its chemical potential (less its reference energy when
    [elt_refs] is given) with two decimals, the column label shows its
    symbol, the first of them opens with a bracket, and each ends with a
    comma but the last, which ends with the closing bracket. *)
Theorem chempot_table_cells (d : dict float) (loc : pystr)
    (elt_refs : option (dict float)) (c : canvas) :
  d <> [] -> distinct_keys (map fst d) = true -> refs_cover elt_refs d = true ->
  exists cells names widths,
    _plot_chemical_potential_table d loc elt_refs c
    = Ok (mkCanvas (warnings c)
            (calls c
             ++ [table
                   (match elt_refs with
                    | Some _ => py "(wrt Elemental refs)"
                    | None => py "(from calculations)"
                    end :: cells ++ [py "  [eV]"])
                   (py "Chemical Potentials" :: names ++ [py " Units:"])
                   widths loc;
                 auto_set_column_width (seq 0 (length d + 3));
                 cells_set_linewidth 0]))
    /\ length cells = length d
    /\ length names = length d
    /\ ascending (sorted_str (map fst d))
    /\ forall i el, nth_error (sorted_str (map fst d)) i = Some el ->
         exists energy v,
           dict_get el d = Some energy
           /\ shown_chempot elt_refs el energy = Some v
           /\ nth_error cells i
              = Some (cell_opens i ++ format_2f v ++ cell_closes (length d) i)
           /\ nth_error names i
              = Some (cell_opens i ++ (py "$\mathregular{\mu_{" ++ el ++ py "}}$")
                      ++ cell_closes (length d) i).
Proof.
  intros Hne Hdist Hcover.
  destruct (chempot_table_run d loc elt_refs c Hne Hdist Hcover)
    as (cells & names & Hrun & Hcells & Hnames & Hnth).
  exists cells, names. eexists. split; [exact Hrun|].
  split; [exact Hcells|]. split; [exact Hnames|]. split; [|exact Hnth].
  apply sorted_str_ascending, distinct_keys_NoDup. exact Hdist.
Qed.

Lemma chempot_table_cells_witness :
  exists widths,
    _plot_chemical_potential_table sample_chempots (py "left")
      (Some sample_elt_refs) (mkCanvas [] [])
    = Ok (mkCanvas []
            [table
               [py "(wrt Elemental refs)"; py "(-0.11,"; py "-1.33)"; py "  [eV]"]
               [py "Chemical Potentials"; py "($\mathregular{\mu_{Cd}}$,";
                py "$\mathregular{\mu_{Te}}$)"; py " Units:"]
               widths (py "left");
             auto_set_column_width [0; 1; 2; 3; 4];
             cells_set_linewidth 0]).
Proof.
  destruct (chempot_table_cells sample_chempots (py "left") (Some sample_elt_refs)
              (mkCanvas [] []) ltac:(discriminate) eq_refl eq_refl)
    as (cells & names & widths & Hrun & Hcells & Hnames & _ & Hnth).
  exists widths. rewrite Hrun. cbn [warnings calls app].
  destruct (Hnth 0 (py "Cd") eq_refl) as (e0 & v0 & He0 & Hv0 & Hc0 & Hn0).
  destruct (Hnth 1 (py "Te") eq_refl) as (e1 & v1 & He1 & Hv1 & Hc1 & Hn1).
  inversion He0; subst e0. inversion He1; subst e1.
  inversion Hv0; subst v0. inversion Hv1; subst v1.
  destruct cells as [|c0 [|c1 [|? ?]]]; try discriminate Hcells.
  destruct names as [|n0 [|n1 [|? ?]]]; try discriminate Hnames.
  cbn [nth_error] in *.
  inversion Hc0; inversion Hc1; inversion Hn0; inversion Hn1.
  reflexivity.
Defined.



(** ** The range values, the lower limit and the warnings of the lines *)

Lemma min_from_stays_below (l : list float) :
  forall m,
    forallb (fun y => (y <? 0)%float) l = true ->
    (m <? 0)%float = true ->
    (min_from m l <? 0)%float = true.
Proof.
  unfold min_from.
  induction l as [|y l IH]; intros m Hall Hm; [exact Hm|].
  cbn [forallb] in Hall. apply andb_true_iff in Hall. destruct Hall as [Hy Hl].
  cbn [fold_left]. apply IH; [exact Hl|].
  destruct (y <? m)%float; assumption.
Qed.

Lemma min_from_goes_below (l : list float) :
  forallb (fun y => (y <? 0)%float) l = true ->
  l <> [] ->
  (min_from 0 l <? 0)%float = true.
Proof.
  destruct l as [|y l]; [congruence|]. intros Hall _.
  cbn [forallb] in Hall. apply andb_true_iff in Hall. destruct Hall as [Hy Hl].
  unfold min_from. cbn [fold_left]. rewrite Hy.
  apply (min_from_stays_below l y Hl Hy).
Qed.

Section RangeFacts.

Variable DefectEntry : Type.
Variable name : DefectEntry -> pystr.
Variable charge_state : DefectEntry -> Z.
Variable ChemPots : Type.
Variable linspace_item : float -> float -> nat -> nat -> float.
Variable interp_at : float -> list float -> list float -> float.
Variable d : DefectPhaseDiagram DefectEntry ChemPots.
Variable chempots : ChemPots.
Variable xlim : float * float.

Lemma grows_by_trans (n m : nat) (st1 st2 st3 : locals) :
  grows_by n st1 st2 -> grows_by m st2 st3 -> grows_by (n + m) st1 st3.
Proof.
  unfold grows_by. intros (H1 & H2 & H3) (H4 & H5 & H6).
  repeat split; [lia|congruence|congruence].
Qed.

Lemma lower_bound_grows (s : pystr) (def_tl : list (float * list Z))
    (org_x : list float) (st st' : locals) :
  lower_bound charge_state d chempots xlim s def_tl org_x st = Ok st' ->
  grows_by 1 st st'.
Proof.
  unfold lower_bound. intros H. bind_ok H. inversion H. unfold grows_by.
  cbn [y_range_vals ymin warned]. rewrite length_app. auto.
Qed.

Lemma upper_bound_grows (s : pystr) (def_tl : list (float * list Z))
    (org_x : list float) (st st' : locals) :
  upper_bound charge_state d chempots xlim s def_tl org_x st = Ok st' ->
  grows_by 1 st st'.
Proof.
  unfold upper_bound. intros H. bind_ok H. inversion H. unfold grows_by.
  cbn [y_range_vals ymin warned]. rewrite length_app. auto.
Qed.

Lemma transition_point_grows (s : pystr) (def_tl : list (float * list Z))
    (fl : float) (st st' : locals) :
  transition_point charge_state d chempots s def_tl st fl = Ok st' ->
  grows_by 1 st st'.
Proof.
  unfold transition_point. intros H. bind_ok H. inversion H. unfold grows_by.
  cbn [y_range_vals ymin warned]. rewrite length_app. auto.
Qed.

Lemma transitions_grow (s : pystr) (def_tl : list (float * list Z)) (l : list float) :
  forall st st',
    for_each (transition_point charge_state d chempots s def_tl) l st = Ok st' ->
    grows_by (length l) st st'.
Proof.
  induction l as [|fl l IH]; intros st st' H.
  - inversion H. unfold grows_by. cbn [length]. auto.
  - cbn [for_each] in H.
    destruct (transition_point _ _ _ _ _ _ _) as [st1| |] eqn:Hp; try discriminate.
    exact (grows_by_trans 1 (length l) _ _ _ (transition_point_grows _ _ _ _ _ Hp)
             (IH _ _ H)).
Qed.

Lemma envelope_grows (s : pystr) (def_tl : list (float * list Z)) (st st' : locals) :
  envelope charge_state d chempots xlim s def_tl st = Ok st' ->
  grows_by (length def_tl + 2) st st'.
Proof.
  unfold envelope. intros H.
  destruct (lower_bound _ _ _ _ _ _ _ _) as [st1| |] eqn:H1; cbn [bind] in H;
    try discriminate.
  destruct (for_each _ _ _) as [st2| |] eqn:H2; cbn [bind] in H; try discriminate.
  pose proof (grows_by_trans _ _ _ _ _ (lower_bound_grows _ _ _ _ _ H1)
                (grows_by_trans _ _ _ _ _ (transitions_grow _ _ _ _ _ H2)
                   (upper_bound_grows _ _ _ _ _ H))) as Hg.
  rewrite sorted_length, length_map in Hg.
  replace (length def_tl + 2) with (1 + (length def_tl + 1)) by lia. exact Hg.
Qed.

Lemma single_state_grows (al : dict polyline) (s : pystr) (st st' : locals) :
  single_state d chempots xlim al s st = Ok st' -> grows_by 2 st st'.
Proof.
  unfold single_state. intros H. bind_ok H. inversion H. unfold grows_by.
  cbn [y_range_vals ymin warned]. rewrite length_app. auto.
Qed.

Lemma below_zero_check_keeps (s : pystr) (st st' : locals) :
  below_zero_check linspace_item interp_at d s st = Ok st' ->
  y_range_vals st' = y_range_vals st
  /\ (lower_limit_inv st -> lower_limit_inv st')
  /\ (warned st' = warned st \/ warned st' = warned st ++ [rsplit1_head 64%N s]).
Proof.
  unfold below_zero_check. intros H. bind_ok H.
  match type of H with
  | (if forallb ?p ?yvals then _ else _) = _ =>
      set (test := p) in *; set (ys := yvals) in *;
      assert (Hys : ys <> [])
  end.
  { intros Hnil. apply (f_equal (@length float)) in Hnil.
    unfold ys, _get_in_gap_yvals in Hnil.
    rewrite !length_map, length_seq in Hnil. discriminate Hnil. }
  destruct (forallb test ys) eqn:Hall.
  - pose proof (f_equal (fun r => match r with Ok l => l | _ => st end) H) as Heq.
    cbv beta iota in Heq. rewrite <- Heq. cbn [y_range_vals warned ymin].
    split; [reflexivity|]. split; [|right; reflexivity].
    intros [[Hw Hy]|[Hw Hy]]; right; cbn [warned ymin];
      (split; [intros Hc; apply app_eq_nil in Hc; destruct Hc; discriminate|]).
    + rewrite Hy. apply min_from_goes_below; assumption.
    + apply min_from_stays_below; assumption.
  - inversion H; subst st'. auto.
Qed.

Lemma species_step_range (al : dict polyline) (st st' : locals)
    (s : pystr) (def_tl : list (float * list Z)) :
  species_step charge_state linspace_item interp_at d chempots xlim al st (s, def_tl)
  = Ok st' ->
  length (y_range_vals st') = length (y_range_vals st) + (length def_tl + 2)
  /\ (lower_limit_inv st -> lower_limit_inv st')
  /\ (warned st' = warned st \/ warned st' = warned st ++ [rsplit1_head 64%N s]).
Proof.
  unfold species_step.
  set (st0 := mkLocals (dict_set s ([], []) (xy st)) _ _ _ _ _ _).
  intros H.
  assert (Hmid : forall st1,
             grows_by (length def_tl + 2) st0 st1 ->
             below_zero_check linspace_item interp_at d s st1 = Ok st' ->
             length (y_range_vals st') = length (y_range_vals st) + (length def_tl + 2)
             /\ (lower_limit_inv st -> lower_limit_inv st')
             /\ (warned st' = warned st
                 \/ warned st' = warned st ++ [rsplit1_head 64%N s])).
  { intros st1 (Hlen & Hymin & Hwarned) Hc.
    destruct (below_zero_check_keeps _ _ _ Hc) as (Hr & Hinv & Hw).
    cbn [st0 y_range_vals ymin warned] in *.
    split; [rewrite Hr; exact Hlen|]. split.
    - intros Hi. apply Hinv. unfold lower_limit_inv in *.
      rewrite Hymin, Hwarned. exact Hi.
    - rewrite <- Hwarned. exact Hw. }
  destruct def_tl as [|p rest].
  - destruct (single_state d chempots xlim al s st0) as [st1| |] eqn:H1;
      cbn [bind] in H; try discriminate.
    exact (Hmid st1 (single_state_grows _ _ _ _ H1) H).
  - destruct (envelope charge_state d chempots xlim s (p :: rest) st0)
      as [st1| |] eqn:H1; cbn [bind] in H; try discriminate.
    exact (Hmid st1 (envelope_grows _ _ _ _ H1) H).
Qed.

Lemma species_loop_range (al : dict polyline)
    (l : list (pystr * list (float * list Z))) :
  forall st st',
    for_each (species_step charge_state linspace_item interp_at d chempots xlim al)
      l st = Ok st' ->
    length (y_range_vals st')
    = length (y_range_vals st) + list_sum (map (fun item => length (snd item) + 2) l)
    /\ (lower_limit_inv st -> lower_limit_inv st')
    /\ exists added,
         warned st' = warned st ++ added
         /\ forall s, In s added ->
              exists k, In k (map fst l) /\ s = rsplit1_head 64%N k.
Proof.
  induction l as [|[s def_tl] l IH]; intros st st' H.
  - inversion H; subst st'. cbn [map list_sum fold_right]. split; [lia|].
    split; [auto|].
    exists []. rewrite app_nil_r. split; [reflexivity|intros ? []].
  - cbn [for_each] in H.
    destruct (species_step _ _ _ _ _ _ _ _ _) as [st1| |] eqn:Hstep;
      try discriminate.
    destruct (species_step_range _ _ _ _ _ Hstep) as (Hlen & Hinv & Hw).
    destruct (IH _ _ H) as (Hlen' & Hinv' & added & Hadded & Hnames).
    cbn [map list_sum fold_right snd fst].
    change (fold_right Nat.add 0 (map (fun item : pystr * list (float * list Z) =>
                                         length (snd item) + 2) l))
      with (list_sum (map (fun item : pystr * list (float * list Z) =>
                             length (snd item) + 2) l)).
    split; [lia|]. split; [auto|].
    destruct Hw as [Hw|Hw]; rewrite Hw in Hadded.
    + exists added. split; [exact Hadded|].
      intros s0 Hs0. destruct (Hnames s0 Hs0) as (k & Hk & ->).
      exists k. split; [right; exact Hk|reflexivity].
    + exists (rsplit1_head 64%N s :: added).
      split; [rewrite Hadded, <- app_assoc; reflexivity|].
      intros s0 [<-|Hs0].
      * exists s. split; [left; reflexivity|reflexivity].
      * destruct (Hnames s0 Hs0) as (k & Hk & ->).
        exists k. split; [right; exact Hk|reflexivity].
Qed.

End RangeFacts.

Lemma lines_range_count
    (DefectEntry : Type) (name : DefectEntry -> pystr)
    (charge_state : DefectEntry -> Z) (ChemPots : Type)
    (linspace_item : float -> float -> nat -> nat -> float)
    (interp_at : float -> list float -> list float -> float)
    (d : DefectPhaseDiagram DefectEntry ChemPots) (chempots : ChemPots)
    (xlim : float * float) (r : lines) :
  _get_formation_energy_lines name charge_state linspace_item interp_at
    d chempots xlim = Ok r ->
  length (lines_y_range_vals r)
  = list_sum (map (fun item => length (snd item) + 2) (transition_level_map d)).
Proof.
  unfold _get_formation_energy_lines. intros Hrun.
  destruct (all_lines name charge_state d chempots xlim) as [al ar].
  destruct (for_each _ _ _) as [st| |] eqn:Hloop; cbn [bind] in Hrun;
    try discriminate.
  inversion Hrun. cbn [lines_y_range_vals].
  destruct (species_loop_range _ charge_state _ linspace_item interp_at d chempots
              xlim al _ _ _ Hloop) as (Hlen & _).
  exact Hlen.
Qed.

(** Whenever [_get_formation_energy_lines] returns, the lower limit [ymin]
    that it returns is zero if it has issued no warning, and below zero if
    it has; and every warning names a species of the transition-level map
    by its key up to the last [@]. *)
Theorem lines_lower_limit
    (DefectEntry : Type) (name : DefectEntry -> pystr)
    (charge_state : DefectEntry -> Z) (ChemPots : Type)
    (linspace_item : float -> float -> nat -> nat -> float)
    (interp_at : float -> list float -> list float -> float)
    (d : DefectPhaseDiagram DefectEntry ChemPots) (chempots : ChemPots)
    (xlim : float * float) (r : lines) :
  _get_formation_energy_lines name charge_state linspace_item interp_at
    d chempots xlim = Ok r ->
  (lines_warned r = [] -> lines_ymin r = 0%float)
  /\ (lines_warned r <> [] -> (lines_ymin r <? 0)%float = true)
  /\ forall s, In s (lines_warned r) ->
       exists k, In k (map fst (transition_level_map d))
                 /\ s = rsplit1_head 64%N k.
Proof.
  unfold _get_formation_energy_lines. intros Hrun.
  destruct (all_lines name charge_state d chempots xlim) as [al ar].
  destruct (for_each _ _ _) as [st| |] eqn:Hloop; cbn [bind] in Hrun;
    try discriminate.
  inversion Hrun. cbn [lines_warned lines_ymin].
  destruct (species_loop_range _ charge_state _ linspace_item interp_at d chempots
              xlim al _ _ _ Hloop) as (_ & Hinv & added & Hadded & Hnames).
  cbn [warned app] in Hadded.
  assert (Hst : lower_limit_inv st).
  { apply Hinv. left. split; reflexivity. }
  split; [|split].
  - intros Hw. destruct Hst as [[_ Hy]|[Hne _]]; [exact Hy|contradiction].
  - intros Hw. destruct Hst as [[He _]|[_ Hy]]; [contradiction|exact Hy].
  - intros s Hs. apply Hnames. rewrite <- Hadded. exact Hs.
Qed.

Lemma lines_lower_limit_witness :
  exists r,
    run_lines low_diagram = Ok r
    /\ lines_warned r = [py "Int_Te_3_0"]
    /\ (lines_ymin r <? 0)%float = true.
Proof.
  assert (Hrun : exists r, run_lines low_diagram = Ok r
                           /\ lines_warned r = [py "Int_Te_3_0"]).
  { eexists. vm_compute. split; reflexivity. }
  destruct Hrun as (r & Hrun & Hw).
  destruct (lines_lower_limit SampleEntry se_name se_charge unit sample_linspace
              sample_interp low_diagram tt sample_xlim r Hrun) as (_ & Hlow & _).
  exists r. split; [exact Hrun|]. split; [exact Hw|].
  apply Hlow. rewrite Hw. discriminate.
Defined.

(** Whenever [_get_formation_energy_lines] returns, [y_range_vals] holds
    [k + 2] values for each species with [k] transition levels (two for a
    species without any), so that it is empty exactly when the
    transition-level map is. *)
Theorem lines_range_values
    (DefectEntry : Type) (name : DefectEntry -> pystr)
    (charge_state : DefectEntry -> Z) (ChemPots : Type)
    (linspace_item : float -> float -> nat -> nat -> float)
    (interp_at : float -> list float -> list float -> float)
    (d : DefectPhaseDiagram DefectEntry ChemPots) (chempots : ChemPots)
    (xlim : float * float) (r : lines) :
  _get_formation_energy_lines name charge_state linspace_item interp_at
    d chempots xlim = Ok r ->
  length (lines_y_range_vals r)
  = list_sum (map (fun item => length (snd item) + 2) (transition_level_map d))
  /\ (lines_y_range_vals r = [] <-> transition_level_map d = []).
Proof.
  intros Hrun. apply lines_range_count in Hrun.
  split; [exact Hrun|]. split; intros H.
  - rewrite H in Hrun. cbn [length] in Hrun.
    destruct (transition_level_map d) as [|item l]; [reflexivity|].
    cbn [map list_sum fold_right] in Hrun. lia.
  - rewrite H in Hrun. cbn [map list_sum fold_right] in Hrun.
    apply length_zero_iff_nil. exact Hrun.
Qed.

Lemma lines_range_values_witness :
  exists r, run_lines ready_diagram = Ok r /\ length (lines_y_range_vals r) = 5.
Proof.
  assert (Hrun : exists r, run_lines ready_diagram = Ok r).
  { eexists. vm_compute. reflexivity. }
  destruct Hrun as (r & Hrun).
  destruct (lines_range_values SampleEntry se_name se_charge unit sample_linspace
              sample_interp ready_diagram tt sample_xlim r Hrun) as (Hlen & _).
  exists r. split; [exact Hrun|exact Hlen].
Defined.

(** ** The whole plot *)

Lemma lines_of_no_species
    (DefectEntry : Type) (name : DefectEntry -> pystr)
    (charge_state : DefectEntry -> Z) (ChemPots : Type)
    (linspace_item : float -> float -> nat -> nat -> float)
    (interp_at : float -> list float -> list float -> float)
    (d : DefectPhaseDiagram DefectEntry ChemPots) (chempots : ChemPots)
    (xlim : float * float) :
  transition_level_map d = [] ->
  exists al ar,
    _get_formation_energy_lines name charge_state linspace_item interp_at
      d chempots xlim
    = Ok (mkLines [] [] al ar 0%float []).
Proof.
  intros Hmap. unfold _get_formation_energy_lines.
  destruct (all_lines name charge_state d chempots xlim) as [al ar].
  rewrite Hmap. exists al, ar. reflexivity.
Qed.

(** For a diagram whose transition-level map is empty, [_TLD_plot] with
    [ylim=None], a colormap that is registered and [all_entries] other
    than [True] raises [ValueError]: no species gives no range value, and
    [_get_ylim_from_y_range_vals] takes the maximum of the empty list. *)
Theorem TLD_plot_without_species
    (DefectEntry : Type) (name : DefectEntry -> pystr)
    (charge_state : DefectEntry -> Z)
    (linspace_item : float -> float -> nat -> nat -> float)
    (interp_at : float -> list float -> list float -> float)
    (_format_defect_name : pystr -> bool -> call (option pystr))
    (latexify : pystr -> pystr) (colormaps : pystr -> call (float -> color))
    (rc : rcParams) (d : DefectPhaseDiagram DefectEntry (option (dict float)))
    (dft_chempots elt_refs : option (dict float)) (chempot_table : bool)
    (all_entries : AllEntries) (xlim : option (float * float))
    (fermi_level : option float) (title : option pystr) (colormap : pystr)
    (auto_labels : bool) (filename : option pystr) (issued : list warning)
    (cmap : float -> color) :
  transition_level_map d = [] ->
  is_True all_entries = false ->
  colormaps colormap = Returns cmap ->
  _TLD_plot name charge_state linspace_item interp_at _format_defect_name
    latexify colormaps rc d dft_chempots elt_refs chempot_table all_entries
    xlim None fermi_level title colormap auto_labels filename issued
  = Raise ValueError.
Proof.
  intros Hmap Htrue Hcmap. unfold _TLD_plot.
  match goal with
  | |- context [_get_formation_energy_lines _ _ _ _ _ _ ?x] =>
      destruct (lines_of_no_species DefectEntry name charge_state _ linspace_item
                  interp_at d dft_chempots x Hmap) as (al & ar & ->)
  end.
  cbn [bind lines_warned lines_xy lines_all_lines_xy fold_left].
  rewrite Htrue. unfold _get_plot_setup. rewrite Hcmap.
  cbn [run bind length seq map]. rewrite andb_false_r.
  unfold _plot_formation_energy_lines at 1. cbn [map for_each bind fst snd].
  assert (Hfaded : forall c0 lw ms,
             exists c1,
               (if is_faded all_entries
                then pl <- _plot_formation_energy_lines al
                             (repeat [0.8; 0.8; 0.8]%float (length al)) lw ms 0.5 c0 ;;
                     Ok (snd pl)
                else Ok c0) = Ok c1).
  { intros c0 lw ms. destruct (is_faded all_entries); [|eauto].
    destruct (plot_lines_run al (repeat [0.8; 0.8; 0.8]%float (length al))
                lw ms 0.5%float c0) as (drawn & -> & _);
      [rewrite repeat_length; lia|].
    cbn [bind snd]. eauto. }
  match goal with
  | |- context [if is_faded all_entries then ?a else Ok ?c0] =>
      match a with
      | context [_plot_formation_energy_lines _ _ ?lw ?ms _ _] =>
          destruct (Hfaded c0 lw ms) as [c1 ->]
      end
  end.
  cbn [bind map for_each snd]. unfold legend_names. rewrite Htrue.
  cbn [_get_legends_txt for_each bind]. unfold ylim_stage. rewrite Htrue.
  reflexivity.
Qed.

Lemma TLD_plot_without_species_witness :
  run_TLD_plot bare_diagram None None true (as_str (py "faded")) None false
  = Raise ValueError.
Proof.
  exact (TLD_plot_without_species SampleEntry se_name se_charge sample_linspace
           sample_interp sample_format sample_latexify sample_colormaps
           sample_rc bare_diagram None None true (as_str (py "faded")) None None
           None (py "Dark2") false None [] (fun x => [x; x; x; 1%float])
           eq_refl eq_refl eq_refl).
Defined.

(** ** No loop but the suffix loop needs fuel *)

Lemma bind_ends {A B : Type} (r : result A) (k : A -> result B) :
  r <> OutOfFuel -> (forall a, k a <> OutOfFuel) -> bind r k <> OutOfFuel.
Proof. destruct r; cbn [bind]; [auto|discriminate|contradiction]. Qed.

Lemma for_each_ends {A S : Type} (body : S -> A -> result S) (l : list A) :
  (forall s a, body s a <> OutOfFuel) ->
  forall s, for_each body l s <> OutOfFuel.
Proof.
  intros Hbody. induction l as [|a l IH]; intros s; cbn [for_each]; [discriminate|].
  pose proof (Hbody s a) as H.
  destruct (body s a); [apply IH|discriminate|exact H].
Qed.

(** Steps through a function built of the operations of the preliminaries. *)
Ltac ends :=
  repeat
    match goal with
    | |- forall _, _ => intro
    | |- Ok _ <> OutOfFuel => discriminate
    | |- Raise _ <> OutOfFuel => discriminate
    | |- bind _ _ <> OutOfFuel => apply bind_ends
    | |- for_each _ _ _ <> OutOfFuel => apply for_each_ends
    | |- run ?c <> OutOfFuel => destruct c; discriminate
    | |- first_item ?l <> OutOfFuel => destruct l; discriminate
    | |- last_item ?l <> OutOfFuel => unfold last_item; destruct (rev l); discriminate
    | |- nth_item ?l ?n <> OutOfFuel =>
        unfold nth_item; destruct (nth_error l n); discriminate
    | |- dict_item ?k ?d <> OutOfFuel =>
        unfold dict_item; destruct (dict_get k d); discriminate
    | |- fdict_item ?k ?d <> OutOfFuel =>
        unfold fdict_item; destruct (fdict_get k d); discriminate
    | |- py_max_int ?l <> OutOfFuel => destruct l; discriminate
    | |- py_min_int ?l <> OutOfFuel => destruct l; discriminate
    | |- py_max ?l <> OutOfFuel => destruct l; discriminate
    | |- py_min ?l <> OutOfFuel => destruct l; discriminate
    | |- py_truediv ?a ?b <> OutOfFuel =>
        unfold py_truediv; destruct (b =? 0)%float; discriminate
    | |- py_truediv_len ?a ?n <> OutOfFuel => destruct n; discriminate
    | |- read_local ?v <> OutOfFuel => destruct v; discriminate
    | |- _get_legends_txt _ _ _ <> OutOfFuel => apply legend_loop_not_out_of_fuel
    | |- (match ?x with _ => _ end) <> OutOfFuel => destruct x
    end.

Lemma lines_end
    (DefectEntry : Type) (name : DefectEntry -> pystr)
    (charge_state : DefectEntry -> Z) (ChemPots : Type)
    (linspace_item : float -> float -> nat -> nat -> float)
    (interp_at : float -> list float -> list float -> float)
    (d : DefectPhaseDiagram DefectEntry ChemPots) (chempots : ChemPots)
    (xlim : float * float) :
  _get_formation_energy_lines name charge_state linspace_item interp_at
    d chempots xlim <> OutOfFuel.
Proof.
  unfold _get_formation_energy_lines, species_step, envelope, single_state,
    below_zero_check, lower_bound, upper_bound, transition_point.
  ends.
Qed.

Lemma ylim_ends (y_range_vals : list float) (ymin : float) (auto_labels : bool) :
  _get_ylim_from_y_range_vals y_range_vals ymin auto_labels <> OutOfFuel.
Proof. unfold _get_ylim_from_y_range_vals. ends. Qed.

Lemma plot_lines_end (xy : dict polyline) (colors : list color)
    (lw ms alpha : float) (c : canvas) :
  _plot_formation_energy_lines xy colors lw ms alpha c <> OutOfFuel.
Proof. unfold _plot_formation_energy_lines, plot_line_step. ends. Qed.

Lemma chempot_table_ends (d : dict float) (loc : pystr)
    (elt_refs : option (dict float)) (c : canvas) :
  _plot_chemical_potential_table d loc elt_refs c <> OutOfFuel.
Proof.
  unfold _plot_chemical_potential_table, relative_chempots, add_brackets. ends.
Qed.

Lemma TLD_plot_ends
    (DefectEntry : Type) (name : DefectEntry -> pystr)
    (charge_state : DefectEntry -> Z)
    (linspace_item : float -> float -> nat -> nat -> float)
    (interp_at : float -> list float -> list float -> float)
    (_format_defect_name : pystr -> bool -> call (option pystr))
    (latexify : pystr -> pystr) (colormaps : pystr -> call (float -> color))
    (rc : rcParams) (d : DefectPhaseDiagram DefectEntry (option (dict float)))
    (dft_chempots elt_refs : option (dict float)) (chempot_table : bool)
    (all_entries : AllEntries) (xlim ylim : option (float * float))
    (fermi_level : option float) (title : option pystr) (colormap : pystr)
    (auto_labels : bool) (filename : option pystr) (issued : list warning) :
  _TLD_plot name charge_state linspace_item interp_at _format_defect_name
    latexify colormaps rc d dft_chempots elt_refs chempot_table all_entries
    xlim ylim fermi_level title colormap auto_labels filename issued
  <> OutOfFuel.
Proof.
  unfold _TLD_plot.
  apply bind_ends; [apply lines_end|intros l].
  apply bind_ends; [unfold _get_plot_setup; ends|intros [setup c]].
  apply bind_ends; [apply plot_lines_end|intros [names c1]].
  apply bind_ends.
  { destruct (is_faded all_entries); [|discriminate].
    apply bind_ends; [apply plot_lines_end|discriminate]. }
  intros c2.
  apply bind_ends.
  { unfold transition_levels_step, transition_level_step, first_charge_energies,
      tl_label, annotate_step. ends. }
  intros st.
  apply bind_ends; [apply legend_loop_not_out_of_fuel|intros labels].
  apply bind_ends; [unfold ylim_stage; destruct ylim; [discriminate|apply ylim_ends]|].
  intros ylim'.
  apply bind_ends; [|discriminate].
  unfold table_stage. destruct dft_chempots as [[|item chempots]|]; try discriminate.
  destruct chempot_table; [apply chempot_table_ends|discriminate].
Qed.

(** ** The table inside the plot *)

(** In [_TLD_plot] the table is drawn when [chempot_table] is set and the
    chemical potentials are a dictionary that is not empty. This stage
    returns, or it raises [KeyError] because [elt_refs] lacks an element;
    the [IndexError] of [_plot_chemical_potential_table] on an empty
    dictionary cannot come from here. *)
Theorem table_stage_fails_on_missing_ref_only
    (dft_chempots : option (dict float)) (chempot_table : bool)
    (elt_refs : option (dict float)) (c : canvas) :
  (forall d, dft_chempots = Some d -> distinct_keys (map fst d) = true) ->
  (exists c', table_stage dft_chempots chempot_table elt_refs c = Ok c')
  \/ (table_stage dft_chempots chempot_table elt_refs c = Raise KeyError
      /\ exists d refs el,
           dft_chempots = Some d /\ elt_refs = Some refs
           /\ In el (map fst d) /\ dict_get el refs = None).
Proof.
  intros Hdist. unfold table_stage.
  destruct dft_chempots as [[|item d]|]; [left; eauto| |left; eauto].
  destruct chempot_table; [|left; eauto].
  specialize (Hdist _ eq_refl).
  destruct (refs_cover elt_refs (item :: d)) eqn:Hcover.
  - left.
    destruct (chempot_table_run (item :: d) (py "left") elt_refs c
                ltac:(discriminate) Hdist Hcover) as (cells & names & -> & _).
    eauto.
  - right. destruct elt_refs as [refs|]; [|discriminate Hcover].
    destruct (refs_cover_false _ _ Hcover) as (el & Hel & Hnone).
    split; [exact (chempot_table_missing_ref_any _ _ _ _ _ Hel Hnone)|].
    exists (item :: d), refs, el. auto.
Qed.

Lemma table_stage_fails_on_missing_ref_only_witness :
  (exists c', table_stage (Some sample_chempots) true (Some sample_elt_refs)
                (mkCanvas [] []) = Ok c')
  \/ (table_stage (Some sample_chempots) true (Some sample_elt_refs)
        (mkCanvas [] []) = Raise KeyError
      /\ exists d refs el,
           Some sample_chempots = Some d /\ Some sample_elt_refs = Some refs
           /\ In el (map fst d) /\ dict_get el refs = None).
Proof.
  apply table_stage_fails_on_missing_ref_only.
  intros d Hd. inversion Hd. reflexivity.
Defined.

(** ** The markers of the transition levels *)

Lemma eqb_sym (x y : float) : (x =? y)%float = (y =? x)%float.
Proof.
  rewrite !eqb_spec. unfold SFeqb.
  destruct (SFcompare (Prim2SF x) (Prim2SF y)) as [c|] eqn:E.
  - rewrite (SFcompare_antisym _ _ _ E). destruct c; reflexivity.
  - destruct (SFcompare (Prim2SF y) (Prim2SF x)) as [c|] eqn:E'; [|reflexivity].
    rewrite (SFcompare_antisym _ _ _ E') in E. discriminate.
Qed.

Lemma fdict_get_own {V : Type} (l : list (float * V)) (x : float) (v : V) :
  pairwise_distinct (map fst l) = true ->
  In (x, v) l -> (x =? x)%float = true ->
  fdict_get x l = Some v.
Proof.
  induction l as [|[x' v'] l IH]; intros Hdist Hin Hx; [destruct Hin|].
  cbn [map fst pairwise_distinct] in Hdist. apply andb_true_iff in Hdist.
  destruct Hdist as [Hhead Hrest]. cbn [fdict_get].
  destruct Hin as [Heq|Hin].
  - inversion Heq; subst. rewrite Hx. reflexivity.
  - rewrite forallb_forall in Hhead.
    specialize (Hhead x (in_map fst _ _ Hin)). cbn [fst] in Hhead.
    apply negb_true_iff in Hhead. rewrite eqb_sym, Hhead. apply IH; assumption.
Qed.

Lemma find_last_none_of {A : Type} (p : A -> bool) (l : list A) :
  filter p l = [] -> find_last p l = None.
Proof.
  induction l as [|a l IH]; [reflexivity|]. cbn [filter find_last].
  destruct (p a); [discriminate|]. intros H. rewrite (IH H). reflexivity.
Qed.

Lemma find_last_only {A : Type} (p : A -> bool) (l : list A) (e : A) :
  filter p l = [e] -> find_last p l = Some e.
Proof.
  induction l as [|a l IH]; [discriminate|]. cbn [filter find_last].
  destruct (p a) eqn:Hp.
  - intros H. inversion H; subst. rewrite (find_last_none_of p l H2). reflexivity.
  - intros H. rewrite (IH H). reflexivity.
Qed.

Section MarkerFacts.

Variable DefectEntry : Type.
Variable charge_state : DefectEntry -> Z.
Variable d : DefectPhaseDiagram DefectEntry (option (dict float)).
Variable dft_chempots : option (dict float).
Variable def_name : pystr.
Variable stable : list DefectEntry.
Variable def_tl : list (float * list Z).

Hypothesis Hstable : dict_get def_name (stable_entries d) = Some stable.

Local Abbreviation E := (energy_at d dft_chempots).
Local Abbreviation step := (transition_level_step charge_state d dft_chempots def_name).

Lemma first_charge_energies_run (q : Z) (rest : list Z) (x : float) (l : list DefectEntry) :
  forall ys,
    first_charge_energies charge_state d dft_chempots l (q :: rest) x ys
    = Ok (ys ++ map (fun e => E e x)
                  (filter (fun e => (charge_state e =? q)%Z) l)).
Proof.
  unfold first_charge_energies.
  induction l as [|e l IH]; intros ys; cbn [for_each filter map].
  - rewrite app_nil_r. reflexivity.
  - cbn [first_item bind]. destruct (charge_state e =? q)%Z.
    + rewrite IH, <- app_assoc. reflexivity.
    + apply IH.
Qed.

Lemma markers_loop (l : list (float * list Z)) :
  (forall x cs, In (x, cs) l ->
     exists q e rest,
       cs = q :: rest /\ py_max_int cs = Ok q
       /\ filter (fun e => (charge_state e =? q)%Z) stable = [e]
       /\ fdict_get x def_tl = Some cs) ->
  forall tl0,
    exists ys labels types,
      for_each step l tl0
      = Ok (mkTl (x_trans tl0 ++ map fst l) (y_trans tl0 ++ ys)
              (tl_labels tl0 ++ labels) (tl_label_type tl0 ++ types))
      /\ Forall2
           (fun x y => tie_energy charge_state d dft_chempots py_max_int stable
                         def_tl x x = Some y)
           (map fst l) ys
      /\ length labels = length l /\ length types = length l.
Proof.
  induction l as [|[x cs] l IH]; intros Hready tl0.
  - exists [], [], []. cbn [for_each map]. rewrite !app_nil_r.
    destruct tl0. repeat split. constructor.
  - destruct (Hready x cs (or_introl eq_refl))
      as (q & e & rest & -> & Hmax & Hone & Hget).
    assert (Hmin : exists mn, py_min_int (q :: rest) = Ok mn) by (eexists; reflexivity).
    destruct Hmin as [mn Hmin].
    cbn [for_each]. unfold transition_level_step at 1, dict_item.
    rewrite Hstable. cbn [bind]. rewrite first_charge_energies_run, Hone.
    cbn [bind map]. unfold tl_label. rewrite Hmax, Hmin. cbn [bind].
    match goal with
    | |- context [for_each _ l ?tl1] =>
        destruct (IH (fun x' cs' H => Hready x' cs' (or_intror H)) tl1)
          as (ys & labels & types & -> & Hys & Hlabels & Htypes)
    end.
    cbn [x_trans y_trans tl_labels tl_label_type].
    rewrite <- !app_assoc. cbn [app map fst].
    eexists (E e x :: ys), (_ :: labels), (_ :: types).
    split; [reflexivity|]. split; [|cbn [length]; auto].
    constructor; [|exact Hys].
    unfold tie_energy. rewrite Hget, Hmax. unfold selected.
    rewrite (find_last_only _ _ _ Hone). reflexivity.
Qed.

Lemma markers_ready_items :
  markers_ready charge_state stable def_tl = true ->
  forall x cs, In (x, cs) def_tl ->
    exists q e rest,
      cs = q :: rest /\ py_max_int cs = Ok q
      /\ filter (fun e => (charge_state e =? q)%Z) stable = [e]
      /\ fdict_get x def_tl = Some cs.
Proof.
  unfold markers_ready. rewrite !andb_true_iff, !forallb_forall.
  intros [[Hitems Hdist] Hnum] x cs Hin.
  specialize (Hitems _ Hin). cbn [snd] in Hitems.
  destruct (py_max_int cs) as [q| |] eqn:Hmax; try discriminate Hitems.
  destruct cs as [|q0 rest]; [discriminate Hitems|]. cbn [hd_error] in Hitems.
  apply andb_true_iff in Hitems. destruct Hitems as [Hq Hone].
  apply Z.eqb_eq in Hq. subst q0. apply Nat.eqb_eq in Hone.
  destruct (filter (fun e => (charge_state e =? q)%Z) stable) as [|e [|e' t]] eqn:Hf;
    try discriminate Hone.
  exists q, e, rest. repeat split; auto.
  apply fdict_get_own; [exact Hdist|exact Hin|].
  apply Hnum. exact (in_map fst _ _ Hin).
Qed.

Lemma markers_run :
  markers_ready charge_state stable def_tl = true ->
  exists tl,
    for_each step def_tl (mkTl [] [] [] []) = Ok tl
    /\ x_trans tl = map fst def_tl
    /\ Forall2
         (fun x y => tie_energy charge_state d dft_chempots py_max_int stable
                       def_tl x x = Some y)
         (x_trans tl) (y_trans tl)
    /\ length (tl_labels tl) = length def_tl
    /\ length (tl_label_type tl) = length def_tl.
Proof.
  intros Hready.
  destruct (markers_loop def_tl (markers_ready_items Hready) (mkTl [] [] [] []))
    as (ys & labels & types & Hrun & Hys & Hlabels & Htypes).
  eexists. split; [exact Hrun|]. cbn [x_trans y_trans tl_labels tl_label_type app].
  auto.
Qed.

End MarkerFacts.

(** The loop of [_TLD_plot] over the transition levels of one species
    draws its markers on the envelope of the species: when every level
    lists its biggest charge first and exactly one stable entry has that
    charge, the loop returns one marker per level, in the order of the
    map, and the energy of the marker at a level is the energy that the
    envelope of [_get_formation_energy_lines] has at this level (that of
    the entry with the biggest charge of the level's set). *)
Theorem markers_on_envelope
    (DefectEntry : Type) (charge_state : DefectEntry -> Z)
    (d : DefectPhaseDiagram DefectEntry (option (dict float)))
    (dft_chempots : option (dict float)) (def_name : pystr)
    (stable : list DefectEntry) (def_tl : list (float * list Z)) :
  dict_get def_name (stable_entries d) = Some stable ->
  markers_ready charge_state stable def_tl = true ->
  exists tl,
    for_each (transition_level_step charge_state d dft_chempots def_name) def_tl
      (mkTl [] [] [] [])
    = Ok tl
    /\ x_trans tl = map fst def_tl
    /\ Forall2
         (fun x y => tie_energy charge_state d dft_chempots py_max_int stable
                       def_tl x x = Some y)
         (x_trans tl) (y_trans tl)
    /\ length (tl_labels tl) = length def_tl
    /\ length (tl_label_type tl) = length def_tl.
Proof. apply markers_run. Qed.

Lemma markers_on_envelope_witness :
  exists tl,
    for_each (transition_level_step se_charge vacancy_diagram None (py "vac_1_Cd@0"))
      [(1%float, [1; -1]%Z)] (mkTl [] [] [] [])
    = Ok tl
    /\ x_trans tl = [1%float]
    /\ Forall2
         (fun x y => tie_energy se_charge vacancy_diagram None py_max_int
                       [vac_plus; vac_minus] [(1%float, [1; -1]%Z)] x x = Some y)
         (x_trans tl) (y_trans tl)
    /\ length (tl_labels tl) = 1
    /\ length (tl_label_type tl) = 1.
Proof.
  exact (markers_on_envelope SampleEntry se_charge vacancy_diagram None
           (py "vac_1_Cd@0") [vac_plus; vac_minus] [(1%float, [1; -1]%Z)]
           eq_refl eq_refl).
Defined.

(** ** The legend of all entries *)

(** Reading what the stages of a function returned. *)
Ltac stages_ok H :=
  repeat match type of H with
         | bind ?r _ = Ok _ =>
             let E := fresh "Estage" in
             destruct r eqn:E; cbn [bind] in H; try discriminate H
         | (let '(_, _) := ?p in _) = Ok _ => destruct p
         end.

(** A name that the formatter rejects cannot stand twice in a legend. *)
Lemma legends_shared_name (fmt : pystr -> bool -> call (option pystr))
    (all_entries : bool) (n : pystr) (e1 e2 : exn) (l1 l2 l3 : list pystr)
    (labels : list (option pystr)) :
  fmt n false = Raises e1 ->
  fmt n true = Raises e2 ->
  _get_legends_txt fmt all_entries (l1 ++ n :: l2 ++ n :: l3) <> Ok labels.
Proof.
  intros Hf Ht Hrun. unfold _get_legends_txt in Hrun.
  assert (Hlabel : first_attempt fmt all_entries n = Some n).
  { unfold first_attempt, format_attempt. rewrite Hf. reflexivity. }
  rewrite for_each_app in Hrun.
  destruct (for_each (legend_step fmt all_entries) l1 []) as [a1| |] eqn:H1;
    try discriminate.
  cbn [for_each] in Hrun.
  destruct (legend_step fmt all_entries a1 n) as [a2| |] eqn:H2; try discriminate.
  assert (Hin2 : In (Some n) a2).
  { unfold legend_step, retry_stage in H2. rewrite Hlabel in H2.
    destruct (name_in (Some n) a1) eqn:Hin.
    - unfold format_attempt in H2. rewrite Ht in H2. discriminate H2.
    - cbn [bind] in H2. unfold suffix_stage in H2. rewrite Hin in H2.
      cbn [bind] in H2. inversion H2. apply in_or_app. right. left. reflexivity. }
  assert (Hnd2 : NoDup a2).
  { assert (H12 : for_each (legend_step fmt all_entries) (l1 ++ [n]) [] = Ok a2).
    { rewrite for_each_app, H1. cbn [for_each]. rewrite H2. reflexivity. }
    exact (proj1 (proj2 (legend_loop_labels fmt all_entries _ _ _ H12 (NoDup_nil _)))). }
  rewrite for_each_app in Hrun.
  destruct (for_each (legend_step fmt all_entries) l2 a2) as [a3| |] eqn:H3;
    try discriminate.
  destruct (legend_loop_labels fmt all_entries _ _ _ H3 Hnd2) as (_ & _ & added & ->).
  cbn [for_each] in Hrun.
  rewrite (legend_step_retry_raises fmt all_entries (a2 ++ added) n e2) in Hrun;
    [discriminate| |exact Ht].
  rewrite Hlabel. apply name_in_In. apply in_or_app. left. exact Hin2.
Qed.

(** With [all_entries=True] the legend is made of the names of the entries,
    which lack the charge. When two entries have the same name and the
    formatter rejects this name, the second of them meets its own raw name
    in the legend, the formatter is called again outside the [try] block,
    and [_TLD_plot] raises instead of returning the figure. *)
Theorem TLD_plot_all_entries_shared_name
    (DefectEntry : Type) (name : DefectEntry -> pystr)
    (charge_state : DefectEntry -> Z)
    (linspace_item : float -> float -> nat -> nat -> float)
    (interp_at : float -> list float -> list float -> float)
    (_format_defect_name : pystr -> bool -> call (option pystr))
    (latexify : pystr -> pystr) (colormaps : pystr -> call (float -> color))
    (rc : rcParams) (d : DefectPhaseDiagram DefectEntry (option (dict float)))
    (dft_chempots elt_refs : option (dict float)) (chempot_table : bool)
    (xlim ylim : option (float * float))
    (fermi_level : option float) (title : option pystr) (colormap : pystr)
    (auto_labels : bool) (filename : option pystr) (issued : list warning)
    (e1 e2 : DefectEntry) (l1 l2 l3 : list DefectEntry) (x1 x2 : exn) :
  entries d = l1 ++ e1 :: l2 ++ e2 :: l3 ->
  name e2 = name e1 ->
  _format_defect_name (name e1) false = Raises x1 ->
  _format_defect_name (name e1) true = Raises x2 ->
  exists e,
    _TLD_plot name charge_state linspace_item interp_at _format_defect_name
      latexify colormaps rc d dft_chempots elt_refs chempot_table (as_bool true)
      xlim ylim fermi_level title colormap auto_labels filename issued
    = Raise e.
Proof.
  intros Hentries Hname Hf Ht.
  match goal with
  | |- exists e, ?run = Raise e => destruct run as [c|e|] eqn:Hrun
  end.
  - exfalso. unfold _TLD_plot in Hrun. stages_ok Hrun.
    match goal with
    | H : _get_legends_txt _ _ _ = Ok _ |- _ =>
        unfold legend_names in H; cbn [is_True truth] in H;
        rewrite Hentries, !map_app in H; cbn [map] in H;
        rewrite map_app in H; cbn [map] in H; rewrite Hname in H;
        exact (legends_shared_name _ _ _ _ _ _ _ _ _ Hf Ht H)
    end.
  - eauto.
  - exfalso. exact (TLD_plot_ends _ _ _ _ _ _ _ _ _ _ _ _ _ _ _ _ _ _ _ _ _ _ Hrun).
Qed.

Lemma TLD_plot_all_entries_shared_name_witness :
  exists e, run_TLD_plot vacancy_diagram None None true (as_bool true) None false
            = Raise e.
Proof.
  exact (TLD_plot_all_entries_shared_name SampleEntry se_name se_charge
           sample_linspace sample_interp sample_format sample_latexify
           sample_colormaps sample_rc vacancy_diagram None None true None None
           None None (py "Dark2") false None [] vac_plus vac_minus [] [] []
           ValueError ValueError eq_refl eq_refl eq_refl eq_refl).
Defined.

(** ** The plots of the facets *)

Lemma rsplit1_tail_without (sep : N) (s : pystr) :
  ~ In sep s -> rsplit1_tail sep s = Raise IndexError.
Proof.
  induction s as [|c t IH]; [reflexivity|]. intros Hout. cbn [rsplit1_tail].
  destruct (existsb (N.eqb sep) t) eqn:E.
  - apply existsb_sep_In in E. destruct Hout. right. exact E.
  - destruct (N.eqb_spec c sep) as [->|Hne]; [|reflexivity].
    destruct Hout. left. reflexivity.
Qed.

(** A string is what stands before its last [sep], then [sep], then what
    stands after it. *)
Lemma rsplit1_parts (sep : N) (s : pystr) :
  In sep s ->
  exists tail,
    rsplit1_tail sep s = Ok tail /\ ~ In sep tail
    /\ s = rsplit1_head sep s ++ sep :: tail.
Proof.
  induction s as [|c t IH]; [intros []|]. intros Hin.
  cbn [rsplit1_tail rsplit1_head].
  destruct (existsb (N.eqb sep) t) eqn:E.
  - apply existsb_sep_In in E. destruct (IH E) as (tail & Htail & Hout & Heq).
    exists tail. split; [exact Htail|]. split; [exact Hout|].
    cbn [app]. f_equal. exact Heq.
  - apply existsb_sep_not_In in E.
    destruct (N.eqb_spec c sep) as [->|Hne].
    + exists t. auto.
    + destruct Hin as [Hc|Ht]; [congruence|contradiction].
Qed.

Lemma rsplit1_of_parts (sep : N) (head tail : pystr) :
  ~ In sep tail ->
  rsplit1_tail sep (head ++ sep :: tail) = Ok tail
  /\ rsplit1_head sep (head ++ sep :: tail) = head.
Proof.
  intros Hout. induction head as [|c head [IH1 IH2]]; cbn [app rsplit1_tail rsplit1_head].
  - apply existsb_sep_not_In in Hout. rewrite Hout, N.eqb_refl. auto.
  - assert (E : existsb (N.eqb sep) (head ++ sep :: tail) = true).
    { apply existsb_sep_In, in_or_app. right. left. reflexivity. }
    rewrite E, IH1, IH2. auto.
Qed.

Lemma facet_filename_run (f facet : pystr) :
  f <> [] -> In 46%N f ->
  exists extension,
    rsplit1_tail 46%N f = Ok extension
    /\ ~ In 46%N extension
    /\ f = rsplit1_head 46%N f ++ py "." ++ extension
    /\ facet_filename (Some f) facet
       = Ok (Some (rsplit1_head 46%N f ++ py "_" ++ facet ++ py "." ++ extension)).
Proof.
  intros Hne Hin. destruct (rsplit1_parts 46%N f Hin) as (ext & Hext & Hout & Heq).
  exists ext. split; [exact Hext|]. split; [exact Hout|]. split; [exact Heq|].
  destruct f as [|c t]; [congruence|]. unfold facet_filename.
  rewrite Hext. reflexivity.
Qed.

(** The file of a facet: for a file name with an extension, the plot of a
    facet is saved under the name with [_] and the facet put in before the
    last dot. The extension is kept, the given name is what remains when
    [_facet] is taken out again, and two facets never get the same file. *)
Theorem facet_filename_keeps_extension (f facet : pystr) :
  f <> [] -> In 46%N f ->
  exists extension plot_filename,
    facet_filename (Some f) facet = Ok (Some plot_filename)
    /\ rsplit1_tail 46%N f = Ok extension
    /\ rsplit1_tail 46%N plot_filename = Ok extension
    /\ rsplit1_head 46%N plot_filename = rsplit1_head 46%N f ++ py "_" ++ facet
    /\ forall facet',
         facet_filename (Some f) facet' = Ok (Some plot_filename) ->
         facet' = facet.
Proof.
  intros Hne Hin.
  destruct (facet_filename_run f facet Hne Hin) as (ext & Hext & Hout & Heq & Hrun).
  assert (Hparts : forall fc,
             rsplit1_head 46%N f ++ py "_" ++ fc ++ py "." ++ ext
             = (rsplit1_head 46%N f ++ py "_" ++ fc) ++ 46%N :: ext).
  { intros fc. rewrite <- !app_assoc. reflexivity. }
  rewrite Hparts in Hrun.
  exists ext, ((rsplit1_head 46%N f ++ py "_" ++ facet) ++ 46%N :: ext).
  split; [exact Hrun|]. split; [exact Hext|].
  destruct (rsplit1_of_parts 46%N (rsplit1_head 46%N f ++ py "_" ++ facet) ext Hout)
    as [Htail Hhead].
  split; [exact Htail|]. split; [exact Hhead|].
  intros facet' Hrun'.
  destruct (facet_filename_run f facet' Hne Hin) as (ext' & Hext' & _ & _ & Hrun2).
  assert (ext' = ext) by congruence. subst ext'.
  rewrite Hparts, Hrun' in Hrun2.
  assert (Hsame : (rsplit1_head 46%N f ++ py "_" ++ facet) ++ 46%N :: ext
                  = (rsplit1_head 46%N f ++ py "_" ++ facet') ++ 46%N :: ext)
    by congruence.
  apply app_inv_tail in Hsame. apply app_inv_head in Hsame.
  apply app_inv_head in Hsame. symmetry. exact Hsame.
Qed.

Lemma facet_filename_keeps_extension_witness :
  exists extension plot_filename,
    facet_filename (Some (py "plots/tld.v1.png")) (py "Cd-rich")
    = Ok (Some plot_filename)
    /\ rsplit1_tail 46%N (py "plots/tld.v1.png") = Ok extension
    /\ rsplit1_tail 46%N plot_filename = Ok extension
    /\ rsplit1_head 46%N plot_filename
       = rsplit1_head 46%N (py "plots/tld.v1.png") ++ py "_" ++ py "Cd-rich"
    /\ forall facet',
         facet_filename (Some (py "plots/tld.v1.png")) facet'
         = Ok (Some plot_filename) ->
         facet' = py "Cd-rich".
Proof.
  apply (facet_filename_keeps_extension (py "plots/tld.v1.png") (py "Cd-rich")).
  - discriminate.
  - vm_compute. tauto.
Defined.

Section FacetFacts.

Variable DefectEntry : Type.
Variable name : DefectEntry -> pystr.
Variable charge_state : DefectEntry -> Z.
Variable linspace_item : float -> float -> nat -> nat -> float.
Variable interp_at : float -> list float -> list float -> float.
Variable _format_defect_name : pystr -> bool -> call (option pystr).
Variable latexify : pystr -> pystr.
Variable colormaps : pystr -> call (float -> color).
Variable style_context : pystr -> call rcParams.
Variable module_dir : pystr.
Variable any_isclose_nested : dict (dict float) -> option (dict float) -> call bool.
Variable d : DefectPhaseDiagram DefectEntry (option (dict float)).

Local Abbreviation plot :=
  (formation_energy_plot name charge_state linspace_item interp_at
     _format_defect_name latexify colormaps style_context module_dir
     any_isclose_nested d).

Local Abbreviation loop :=
  (facets_loop name charge_state linspace_item interp_at _format_defect_name
     latexify colormaps d).

Local Abbreviation step :=
  (facet_step name charge_state linspace_item interp_at _format_defect_name
     latexify colormaps d).

(** With chemical potentials in doped's format and [facets] given, the
    function comes to the loop over the given facets. *)
Lemma plot_given_facets (fs : dict (dict float)) (refs : option (dict float))
    (facets : Facets) (elt_refs : option (dict float)) (chempot_table : bool)
    (all_entries : AllEntries) (style_file : option pystr)
    (xlim ylim : option (float * float)) (fermi_level : option float)
    (colormap : pystr) (auto_labels : bool) (filename : option pystr)
    (rc : rcParams) :
  all_entries_option all_entries = true ->
  style_context (style_or_default module_dir style_file) = Returns rc ->
  plot (Some (facet_chempots fs refs)) (Some facets) elt_refs chempot_table
    all_entries style_file xlim ylim fermi_level colormap auto_labels filename
  = loop rc (facet_chempots fs refs) chempot_table all_entries xlim ylim
      fermi_level colormap auto_labels filename [] (facets_iter facets).
Proof.
  intros Hopt Hstyle. unfold formation_energy_plot.
  rewrite Hopt. cbn [negb formal_chempots_test]. rewrite Hstyle. reflexivity.
Qed.

End FacetFacts.

(** With chemical potentials in doped's format and a file name without a
    dot, [formation_energy_plot] raises [IndexError] at the first facet,
    before it plots anything: [filename.rsplit('.', 1)] has one item only. *)
Theorem plot_facets_filename_without_dot
    (DefectEntry : Type) (name : DefectEntry -> pystr)
    (charge_state : DefectEntry -> Z)
    (linspace_item : float -> float -> nat -> nat -> float)
    (interp_at : float -> list float -> list float -> float)
    (_format_defect_name : pystr -> bool -> call (option pystr))
    (latexify : pystr -> pystr) (colormaps : pystr -> call (float -> color))
    (style_context : pystr -> call rcParams) (module_dir : pystr)
    (any_isclose_nested : dict (dict float) -> option (dict float) -> call bool)
    (d : DefectPhaseDiagram DefectEntry (option (dict float)))
    (fs : dict (dict float)) (refs : dict float) (facet : pystr)
    (facets : list pystr) (dft_chempots : dict float)
    (elt_refs : option (dict float)) (chempot_table : bool)
    (all_entries : AllEntries) (style_file : option pystr)
    (xlim ylim : option (float * float)) (fermi_level : option float)
    (colormap : pystr) (auto_labels : bool) (f : pystr) (rc : rcParams) :
  all_entries_option all_entries = true ->
  style_context (style_or_default module_dir style_file) = Returns rc ->
  dict_get facet fs = Some dft_chempots ->
  f <> [] -> ~ In 46%N f ->
  formation_energy_plot name charge_state linspace_item interp_at
    _format_defect_name latexify colormaps style_context module_dir
    any_isclose_nested d (Some (facet_chempots fs (Some refs)))
    (Some (facet_list (facet :: facets))) elt_refs chempot_table all_entries
    style_file xlim ylim fermi_level colormap auto_labels (Some f)
  = Raise IndexError.
Proof.
  intros Hopt Hstyle Hfacet Hne Hdot.
  rewrite plot_given_facets with (rc := rc); [|exact Hopt|exact Hstyle].
  f_equal. unfold facets_loop. cbn [facets_iter for_each].
  unfold facet_step at 1, dict_item. rewrite Hfacet. cbn [bind].
  destruct f as [|ch t]; [congruence|]. unfold facet_filename.
  rewrite (rsplit1_tail_without _ _ Hdot). reflexivity.
Qed.

Lemma plot_facets_filename_without_dot_witness :
  run_formation_energy_plot (Some sample_facets)
    (Some (facet_list [py "Cd-rich"; py "Te-rich"])) (as_bool false)
    (Some (py "tld"))
  = Raise IndexError.
Proof.
  apply (plot_facets_filename_without_dot SampleEntry se_name se_charge
           sample_linspace sample_interp sample_format sample_latexify
           sample_colormaps (fun _ => Returns sample_rc) (py "doped")
           (fun _ _ => Returns false) vacancy_diagram sample_facet_table sample_elt_refs
           (py "Cd-rich") [py "Te-rich"]
           [(py "Cd", (-1.016)%float); (py "Te", (-5.72)%float)]
           None true (as_bool false) None None None None (py "Dark2") false
           (py "tld") sample_rc).
  - reflexivity.
  - reflexivity.
  - reflexivity.
  - discriminate.
  - vm_compute. intuition discriminate.
Defined.

(** The docstring allows a string for [facets], but the loop takes it
    character by character: for chemical potentials in doped's format,
    [facets] given as a string whose first character is not itself the
    name of a facet raises [KeyError], whatever the string names. *)
Theorem plot_facets_given_as_string
    (DefectEntry : Type) (name : DefectEntry -> pystr)
    (charge_state : DefectEntry -> Z)
    (linspace_item : float -> float -> nat -> nat -> float)
    (interp_at : float -> list float -> list float -> float)
    (_format_defect_name : pystr -> bool -> call (option pystr))
    (latexify : pystr -> pystr) (colormaps : pystr -> call (float -> color))
    (style_context : pystr -> call rcParams) (module_dir : pystr)
    (any_isclose_nested : dict (dict float) -> option (dict float) -> call bool)
    (d : DefectPhaseDiagram DefectEntry (option (dict float)))
    (fs : dict (dict float)) (refs : option (dict float)) (ch : N) (s : pystr)
    (elt_refs : option (dict float)) (chempot_table : bool)
    (all_entries : AllEntries) (style_file : option pystr)
    (xlim ylim : option (float * float)) (fermi_level : option float)
    (colormap : pystr) (auto_labels : bool) (filename : option pystr)
    (rc : rcParams) :
  all_entries_option all_entries = true ->
  style_context (style_or_default module_dir style_file) = Returns rc ->
  dict_get [ch] fs = None ->
  formation_energy_plot name charge_state linspace_item interp_at
    _format_defect_name latexify colormaps style_context module_dir
    any_isclose_nested d (Some (facet_chempots fs refs))
    (Some (facet_str (ch :: s))) elt_refs chempot_table all_entries
    style_file xlim ylim fermi_level colormap auto_labels filename
  = Raise KeyError.
Proof.
  intros Hopt Hstyle Hfacet.
  rewrite plot_given_facets with (rc := rc); [|exact Hopt|exact Hstyle].
  f_equal. unfold facets_loop. cbn [facets_iter map for_each].
  unfold facet_step at 1, dict_item. rewrite Hfacet. reflexivity.
Qed.

Lemma plot_facets_given_as_string_witness :
  run_formation_energy_plot (Some sample_facets)
    (Some (facet_str (py "Cd-rich"))) (as_bool false) None
  = Raise KeyError.
Proof.
  exact (plot_facets_given_as_string SampleEntry se_name se_charge
           sample_linspace sample_interp sample_format sample_latexify
           sample_colormaps (fun _ => Returns sample_rc) (py "doped")
           (fun _ _ => Returns false) vacancy_diagram sample_facet_table
           (Some sample_elt_refs)
           67%N (py "d-rich") None true (as_bool false) None None None None
           (py "Dark2") false None sample_rc eq_refl eq_refl eq_refl).
Defined.

(** With chemical potentials in doped's format and no facet to plot (an
    empty list or an empty string for [facets]), the loop assigns [plot]
    nowhere and [return plot] raises [UnboundLocalError]. *)
Theorem plot_without_facets
    (DefectEntry : Type) (name : DefectEntry -> pystr)
    (charge_state : DefectEntry -> Z)
    (linspace_item : float -> float -> nat -> nat -> float)
    (interp_at : float -> list float -> list float -> float)
    (_format_defect_name : pystr -> bool -> call (option pystr))
    (latexify : pystr -> pystr) (colormaps : pystr -> call (float -> color))
    (style_context : pystr -> call rcParams) (module_dir : pystr)
    (any_isclose_nested : dict (dict float) -> option (dict float) -> call bool)
    (d : DefectPhaseDiagram DefectEntry (option (dict float)))
    (fs : dict (dict float)) (refs : option (dict float)) (facets : Facets)
    (elt_refs : option (dict float)) (chempot_table : bool)
    (all_entries : AllEntries) (style_file : option pystr)
    (xlim ylim : option (float * float)) (fermi_level : option float)
    (colormap : pystr) (auto_labels : bool) (filename : option pystr)
    (rc : rcParams) :
  all_entries_option all_entries = true ->
  style_context (style_or_default module_dir style_file) = Returns rc ->
  facets_iter facets = [] ->
  formation_energy_plot name charge_state linspace_item interp_at
    _format_defect_name latexify colormaps style_context module_dir
    any_isclose_nested d (Some (facet_chempots fs refs))
    (Some facets) elt_refs chempot_table all_entries
    style_file xlim ylim fermi_level colormap auto_labels filename
  = Raise UnboundLocalError.
Proof.
  intros Hopt Hstyle Hnone.
  rewrite plot_given_facets with (rc := rc); [|exact Hopt|exact Hstyle].
  unfold facets_loop. rewrite Hnone. reflexivity.
Qed.

Lemma plot_without_facets_witness :
  run_formation_energy_plot (Some sample_facets) (Some (facet_list []))
    (as_bool false) None
  = Raise UnboundLocalError.
Proof.
  exact (plot_without_facets SampleEntry se_name se_charge
           sample_linspace sample_interp sample_format sample_latexify
           sample_colormaps (fun _ => Returns sample_rc) (py "doped")
           (fun _ _ => Returns false) vacancy_diagram sample_facet_table
           (Some sample_elt_refs)
           (facet_list []) None true (as_bool false) None None None None
           (py "Dark2") false None sample_rc eq_refl eq_refl eq_refl).
Defined.

(** With several facets the function plots them in turn and returns the
    figure of the last one only: what the loop returns is what [_TLD_plot]
    returned for the last facet, with the facet as title, its chemical
    potentials, the reference energies of the dictionary and its own file
    name. *)
Theorem facets_loop_returns_last
    (DefectEntry : Type) (name : DefectEntry -> pystr)
    (charge_state : DefectEntry -> Z)
    (linspace_item : float -> float -> nat -> nat -> float)
    (interp_at : float -> list float -> list float -> float)
    (_format_defect_name : pystr -> bool -> call (option pystr))
    (latexify : pystr -> pystr) (colormaps : pystr -> call (float -> color))
    (d : DefectPhaseDiagram DefectEntry (option (dict float)))
    (rc : rcParams) (fs : dict (dict float)) (refs : option (dict float))
    (chempot_table : bool) (all_entries : AllEntries)
    (xlim ylim : option (float * float)) (fermi_level : option float)
    (colormap : pystr) (auto_labels : bool) (filename : option pystr)
    (issued : list warning) (facets : list pystr) (facet : pystr) (c : canvas) :
  facets_loop name charge_state linspace_item interp_at _format_defect_name
    latexify colormaps d rc (facet_chempots fs refs) chempot_table all_entries
    xlim ylim fermi_level colormap auto_labels filename issued
    (facets ++ [facet])
  = Ok c ->
  exists dft_chempots elt_refs plot_filename issued',
    dict_get facet fs = Some dft_chempots
    /\ refs = Some elt_refs
    /\ facet_filename filename facet = Ok plot_filename
    /\ _TLD_plot name charge_state linspace_item interp_at _format_defect_name
         latexify colormaps rc d (Some dft_chempots) (Some elt_refs)
         chempot_table all_entries xlim ylim fermi_level (Some facet) colormap
         auto_labels plot_filename issued'
       = Ok c.
Proof.
  unfold facets_loop. intros Hrun. rewrite for_each_app in Hrun.
  destruct (for_each _ facets _) as [[issued' earlier]| |] eqn:Hfirst;
    cbn [bind] in Hrun; try discriminate Hrun.
  cbn [for_each] in Hrun. unfold facet_step at 1, dict_item in Hrun.
  destruct (dict_get facet fs) as [dft|] eqn:Hdft; cbn [bind] in Hrun;
    [|discriminate Hrun].
  destruct refs as [elt|]; cbn [bind] in Hrun; [|discriminate Hrun].
  destruct (facet_filename filename facet) as [pf| |] eqn:Hpf; cbn [bind] in Hrun;
    try discriminate Hrun.
  cbn [fst] in Hrun.
  destruct (_TLD_plot _ _ _ _ _ _ _ _ _ _ _ _ _ _ _ _ _ _ _ _ _) as [plot| |] eqn:Hplot;
    cbn [bind snd read_local] in Hrun; try discriminate Hrun.
  exists dft, elt, pf, issued'. inversion Hrun; subst plot. auto.
Qed.

Lemma facets_loop_returns_last_witness :
  exists c dft_chempots elt_refs plot_filename issued',
    dict_get (py "Te-rich") sample_facet_table = Some dft_chempots
    /\ Some sample_elt_refs = Some elt_refs
    /\ facet_filename (Some (py "tld.png")) (py "Te-rich") = Ok plot_filename
    /\ _TLD_plot se_name se_charge sample_linspace sample_interp sample_format
         sample_latexify sample_colormaps sample_rc vacancy_diagram
         (Some dft_chempots) (Some elt_refs) true (as_bool false) None None None
         (Some (py "Te-rich")) (py "Dark2") false plot_filename issued'
       = Ok c.
Proof.
  assert (Hrun : exists c,
             facets_loop se_name se_charge sample_linspace sample_interp
               sample_format sample_latexify sample_colormaps vacancy_diagram
               sample_rc (facet_chempots sample_facet_table (Some sample_elt_refs))
               true (as_bool false) None None None (py "Dark2") false
               (Some (py "tld.png")) [] ([py "Cd-rich"] ++ [py "Te-rich"])
             = Ok c).
  { eexists. vm_compute. reflexivity. }
  destruct Hrun as [c Hrun]. exists c.
  exact (facets_loop_returns_last SampleEntry se_name se_charge sample_linspace
           sample_interp sample_format sample_latexify sample_colormaps
           vacancy_diagram sample_rc sample_facet_table (Some sample_elt_refs)
           true (as_bool false) None None None (py "Dark2") false
           (Some (py "tld.png")) [] [py "Cd-rich"] (py "Te-rich") c Hrun).
Defined.

(** ** When the plot is made *)

Lemma dict_get_In {V : Type} (k : pystr) (d : dict V) (v : V) :
  dict_get k d = Some v -> In (k, v) d.
Proof.
  induction d as [|[k' v'] d IH]; simpl; [discriminate|].
  destruct (str_eqb k k') eqn:E.
  - intros H. inversion H; subst. apply str_eqb_eq in E. subst. left; reflexivity.
  - intros H. right. exact (IH H).
Qed.

Lemma dict_set_keys {V : Type} (k : pystr) (v : V) (d : dict V) :
  map fst (dict_set k v d)
  = if str_in k (map fst d) then map fst d else map fst d ++ [k].
Proof.
  induction d as [|[k' v'] d IH]; [reflexivity|].
  cbn [dict_set map fst]. unfold str_in in *. cbn [existsb].
  destruct (str_eqb k k'); cbn [orb map fst]; [reflexivity|].
  rewrite IH. destruct (existsb (str_eqb k) (map fst d)); reflexivity.
Qed.

Lemma dict_modify_keys {V : Type} (k : pystr) (f : V -> V) (d : dict V) :
  map fst (dict_modify k f d) = map fst d.
Proof.
  unfold dict_modify. destruct (dict_get k d) as [v|] eqn:E; [|reflexivity].
  rewrite dict_set_keys.
  rewrite (proj2 (str_in_In k (map fst d)) (dict_get_In_key _ _ _ E)). reflexivity.
Qed.

Lemma dict_set_keys_cases {V : Type} (k : pystr) (v : V) (d : dict V) :
  (In k (map fst d) /\ map fst (dict_set k v d) = map fst d)
  \/ (~ In k (map fst d) /\ map fst (dict_set k v d) = map fst d ++ [k]).
Proof.
  rewrite dict_set_keys. destruct (str_in k (map fst d)) eqn:E.
  - left. split; [apply str_in_In; exact E|reflexivity].
  - right. split; [apply str_in_not_In; exact E|reflexivity].
Qed.

Section KeyFacts.

Variable DefectEntry : Type.
Variable name : DefectEntry -> pystr.
Variable charge_state : DefectEntry -> Z.
Variable ChemPots : Type.
Variable linspace_item : float -> float -> nat -> nat -> float.
Variable interp_at : float -> list float -> list float -> float.
Variable d : DefectPhaseDiagram DefectEntry ChemPots.
Variable chempots : ChemPots.
Variable xlim : float * float.

Lemma lower_bound_keys (s : pystr) (def_tl : list (float * list Z))
    (org_x : list float) (st st' : locals) :
  lower_bound charge_state d chempots xlim s def_tl org_x st = Ok st' ->
  map fst (xy st') = map fst (xy st).
Proof.
  unfold lower_bound. intros H. bind_ok H. inversion H. cbn [xy].
  rewrite !dict_modify_keys. reflexivity.
Qed.

Lemma upper_bound_keys (s : pystr) (def_tl : list (float * list Z))
    (org_x : list float) (st st' : locals) :
  upper_bound charge_state d chempots xlim s def_tl org_x st = Ok st' ->
  map fst (xy st') = map fst (xy st).
Proof.
  unfold upper_bound. intros H. bind_ok H. inversion H. cbn [xy].
  rewrite !dict_modify_keys. reflexivity.
Qed.

Lemma transitions_keys (s : pystr) (def_tl : list (float * list Z)) (l : list float) :
  forall st st',
    for_each (transition_point charge_state d chempots s def_tl) l st = Ok st' ->
    map fst (xy st') = map fst (xy st).
Proof.
  induction l as [|fl l IH]; intros st st' H.
  - inversion H. reflexivity.
  - cbn [for_each] in H.
    destruct (transition_point _ _ _ _ _ _ _) as [st1| |] eqn:Hp; try discriminate.
    rewrite (IH _ _ H). unfold transition_point in Hp. bind_ok Hp. inversion Hp.
    cbn [xy]. rewrite !dict_modify_keys. reflexivity.
Qed.

Lemma species_step_keys (al : dict polyline) (st st' : locals)
    (s : pystr) (def_tl : list (float * list Z)) :
  species_step charge_state linspace_item interp_at d chempots xlim al st (s, def_tl)
  = Ok st' ->
  map fst (xy st') = map fst (dict_set s ([], []) (xy st)).
Proof.
  unfold species_step.
  set (st0 := mkLocals (dict_set s ([], []) (xy st)) _ _ _ _ _ _).
  change (dict_set s ([], []) (xy st)) with (xy st0).
  intros H.
  assert (Hcheck : forall st1, below_zero_check linspace_item interp_at d s st1 = Ok st' ->
                     xy st' = xy st1).
  { intros st1 Hc. unfold below_zero_check in Hc. bind_ok Hc.
    match type of Hc with
    | (if ?b then _ else _) = _ => destruct b
    end;
      exact (eq_sym (f_equal (fun r => match r with
                                       | Ok l => xy l
                                       | _ => xy st1
                                       end) Hc)). }
  destruct def_tl as [|p rest].
  - destruct (single_state d chempots xlim al s st0) as [st1| |] eqn:H1;
      cbn [bind] in H; try discriminate.
    rewrite (Hcheck _ H). unfold single_state in H1. bind_ok H1. inversion H1.
    unfold st0. cbn [xy]. rewrite dict_set_keys.
    assert (Hin : str_in s (map fst (dict_set s ([], []) (xy st))) = true).
    { apply str_in_In.
      exact (dict_get_In_key _ _ _ (dict_get_set_same s ([], []) (xy st))). }
    match goal with
    | |- (if ?b then _ else _) = _ => replace b with true by (symmetry; exact Hin)
    end.
    reflexivity.
  - destruct (envelope charge_state d chempots xlim s (p :: rest) st0)
      as [st1| |] eqn:H1; cbn [bind] in H; try discriminate.
    rewrite (Hcheck _ H). unfold envelope in H1.
    destruct (lower_bound _ _ _ _ _ _ _ _) as [st2| |] eqn:H2; cbn [bind] in H1;
      try discriminate.
    destruct (for_each _ _ _) as [st3| |] eqn:H3; cbn [bind] in H1; try discriminate.
    rewrite (upper_bound_keys _ _ _ _ _ H1), (transitions_keys _ _ _ _ _ H3).
    exact (lower_bound_keys _ _ _ _ _ H2).
Qed.

Lemma species_loop_keys (al : dict polyline)
    (l : list (pystr * list (float * list Z))) :
  forall st st',
    for_each (species_step charge_state linspace_item interp_at d chempots xlim al)
      l st = Ok st' ->
    NoDup (map fst (xy st)) ->
    NoDup (map fst (xy st'))
    /\ (forall k, In k (map fst (xy st')) ->
          In k (map fst (xy st)) \/ In k (map fst l))
    /\ length (xy st') <= length (xy st) + length l.
Proof.
  induction l as [|[s def_tl] l IH]; intros st st' H Hnd.
  - inversion H; subst st'. split; [exact Hnd|]. split; [auto|lia].
  - cbn [for_each] in H.
    destruct (species_step _ _ _ _ _ _ _ _ _) as [st1| |] eqn:Hstep;
      try discriminate.
    pose proof (species_step_keys _ _ _ _ _ Hstep) as Hkeys.
    destruct (dict_set_keys_cases s (@nil float, @nil float) (xy st))
      as [[Hin E]|[Hout E]]; pose proof (eq_trans Hkeys E) as Hkeys1.
    + assert (Hnd1 : NoDup (map fst (xy st1))) by (rewrite Hkeys1; exact Hnd).
      destruct (IH _ _ H Hnd1) as (Hnd' & Hsub & Hlen).
      split; [exact Hnd'|]. split.
      * intros k Hk. destruct (Hsub k Hk) as [H1|H1]; [|right; right; exact H1].
        rewrite Hkeys1 in H1. left. exact H1.
      * assert (Hlen1 : length (xy st1) = length (xy st)).
        { rewrite <- (length_map fst (xy st1)), Hkeys1. apply length_map. }
        unfold dict, polyline, pystr in *. cbn [length]. lia.
    + assert (Hnd1 : NoDup (map fst (xy st1))).
      { rewrite Hkeys1. apply NoDup_app; [exact Hnd| |].
        - constructor; [intros []|constructor].
        - intros x Hx [<-|[]]. exact (Hout Hx). }
      destruct (IH _ _ H Hnd1) as (Hnd' & Hsub & Hlen).
      split; [exact Hnd'|]. split.
      * intros k Hk. destruct (Hsub k Hk) as [H1|H1]; [|right; right; exact H1].
        rewrite Hkeys1 in H1. apply in_app_or in H1.
        destruct H1 as [H1|[<-|[]]]; [left; exact H1|right; left; reflexivity].
      * assert (Hlen1 : length (xy st1) = S (length (xy st))).
        { rewrite <- (length_map fst (xy st1)), Hkeys1, length_app, length_map.
          unfold dict, polyline, pystr in *. cbn [length]. lia. }
        unfold dict, polyline, pystr in *. cbn [length]. lia.
Qed.

End KeyFacts.

(** Whenever the lines are returned, their keys are species of the
    transition-level map, each once. *)
Lemma lines_keys
    (DefectEntry : Type) (name : DefectEntry -> pystr)
    (charge_state : DefectEntry -> Z) (ChemPots : Type)
    (linspace_item : float -> float -> nat -> nat -> float)
    (interp_at : float -> list float -> list float -> float)
    (d : DefectPhaseDiagram DefectEntry ChemPots) (chempots : ChemPots)
    (xlim : float * float) (r : lines) :
  _get_formation_energy_lines name charge_state linspace_item interp_at
    d chempots xlim = Ok r ->
  NoDup (map fst (lines_xy r))
  /\ (forall k, In k (map fst (lines_xy r)) ->
        In k (map fst (transition_level_map d)))
  /\ length (lines_xy r) <= length (transition_level_map d).
Proof.
  unfold _get_formation_energy_lines. intros Hrun.
  destruct (all_lines name charge_state d chempots xlim) as [al ar].
  destruct (for_each _ _ _) as [st| |] eqn:Hloop; cbn [bind] in Hrun;
    try discriminate.
  inversion Hrun. cbn [lines_xy].
  destruct (species_loop_keys _ charge_state _ linspace_item interp_at d chempots
              xlim al _ _ _ Hloop (NoDup_nil _)) as (Hnd & Hsub & Hlen).
  cbn [xy map length] in *. split; [exact Hnd|]. split; [|lia].
  intros k Hk. destruct (Hsub k Hk) as [[]|H]. exact H.
Qed.

Lemma ylim_limits_without_labels (v : float) (t : list float) (ymin : float) :
  _get_ylim_from_y_range_vals (v :: t) ymin false
  = Ok (ymin, (max_from v t + 0.1 * (max_from v t - min_from v t))%float).
Proof. reflexivity. Qed.

Section PlotReturns.

Variable DefectEntry : Type.
Variable charge_state : DefectEntry -> Z.
Variable d : DefectPhaseDiagram DefectEntry (option (dict float)).
Variable dft_chempots : option (dict float).

Lemma levels_loop_returns (def_name : pystr) (stable : list DefectEntry)
    (l : list (float * list Z)) :
  dict_get def_name (stable_entries d) = Some stable ->
  markers_fit charge_state stable l = true ->
  forall tl0,
    exists tl,
      for_each (transition_level_step charge_state d dft_chempots def_name) l tl0
      = Ok tl
      /\ length (x_trans tl) = length (x_trans tl0) + length l
      /\ length (y_trans tl) = length (y_trans tl0) + length l
      /\ length (tl_labels tl) = length (tl_labels tl0) + length l
      /\ length (tl_label_type tl) = length (tl_label_type tl0) + length l.
Proof.
  intros Hstable. induction l as [|[x cs] l IH]; intros Hfit tl0.
  - exists tl0. cbn [for_each length]. repeat split; lia.
  - cbn [markers_fit forallb snd] in Hfit. apply andb_true_iff in Hfit.
    destruct Hfit as [Hone Hfit].
    destruct cs as [|q rest]; [discriminate|]. cbn [hd_error] in Hone.
    apply Nat.eqb_eq in Hone.
    assert (Hmax : exists mx, py_max_int (q :: rest) = Ok mx) by (eexists; reflexivity).
    assert (Hmin : exists mn, py_min_int (q :: rest) = Ok mn) by (eexists; reflexivity).
    destruct Hmax as [mx Hmax], Hmin as [mn Hmin].
    cbn [for_each]. unfold transition_level_step at 1, dict_item.
    rewrite Hstable. cbn [bind]. rewrite first_charge_energies_run.
    cbn [bind]. unfold tl_label. rewrite Hmax, Hmin. cbn [bind].
    match goal with
    | |- context [for_each _ l ?tl1] =>
        destruct (IH Hfit tl1) as (tl & -> & Hx & Hy & Hl & Ht)
    end.
    exists tl. split; [reflexivity|].
    cbn [x_trans y_trans tl_labels tl_label_type] in *.
    rewrite !length_app, ?length_map in *. cbn [length] in *.
    repeat split; lia.
Qed.

Lemma annotate_loop_returns (tl : tl_lists) (size : float)
    (coords : list (float * float)) :
  forall index c,
    index + length coords <= length (tl_label_type tl) ->
    index + length coords <= length (tl_labels tl) ->
    exists st, for_each (annotate_step tl size) coords (index, c) = Ok st.
Proof.
  induction coords as [|xy coords IH]; intros index c Ht Hl.
  - eexists. reflexivity.
  - cbn [length] in *. cbn [for_each]. unfold annotate_step at 1, nth_item.
    destruct (nth_error (tl_label_type tl) index) as [ty|] eqn:Ety;
      [|apply nth_error_None in Ety; lia].
    destruct (nth_error (tl_labels tl) index) as [label|] eqn:El;
      [|apply nth_error_None in El; lia].
    cbn [bind]. apply IH; lia.
Qed.

Lemma transition_levels_step_returns (setup : plot_setup) (auto_labels : bool)
    (cnt : nat) (c : canvas) (def_name : pystr) (def_tl : list (float * list Z))
    (stable : list DefectEntry) :
  dict_get def_name (transition_level_map d) = Some def_tl ->
  dict_get def_name (stable_entries d) = Some stable ->
  markers_fit charge_state stable def_tl = true ->
  cnt < length (colors setup) ->
  exists c',
    transition_levels_step charge_state d dft_chempots setup auto_labels (cnt, c)
      def_name
    = Ok (S cnt, c').
Proof.
  intros Htl Hstable Hfit Hcnt. unfold transition_levels_step, dict_item.
  rewrite Htl. cbn [bind].
  destruct (levels_loop_returns def_name stable def_tl Hstable Hfit (mkTl [] [] [] []))
    as (tl & -> & Hx & Hy & Hl & Ht).
  cbn [bind x_trans y_trans tl_labels tl_label_type length] in *.
  destruct (x_trans tl) as [|x0 xs] eqn:Ex; [eauto|].
  unfold nth_item.
  destruct (nth_error (colors setup) cnt) as [col|] eqn:Ecol;
    [|apply nth_error_None in Ecol; lia].
  cbn [bind].
  replace (length (x0 :: xs) =? length (y_trans tl)) with true
    by (symmetry; apply Nat.eqb_eq; lia).
  destruct auto_labels; [|eauto].
  match goal with
  | |- context [for_each ?body ?coords (0, ?c0)] =>
      destruct (annotate_loop_returns tl (styled_font_size setup) coords 0 c0)
        as [st ->]
  end.
  - pose proof (length_combine (x0 :: xs) (y_trans tl)) as Hc.
    cbn [length] in *. lia.
  - pose proof (length_combine (x0 :: xs) (y_trans tl)) as Hc.
    cbn [length] in *. lia.
  - cbn [bind]. eauto.
Qed.

Lemma transition_levels_loop_returns (setup : plot_setup) (auto_labels : bool)
    (ks : list pystr) :
  (forall k, In k ks ->
     exists def_tl stable,
       dict_get k (transition_level_map d) = Some def_tl
       /\ dict_get k (stable_entries d) = Some stable
       /\ markers_fit charge_state stable def_tl = true) ->
  forall cnt c,
    cnt + length ks <= length (colors setup) ->
    exists st,
      for_each (transition_levels_step charge_state d dft_chempots setup auto_labels)
        ks (cnt, c)
      = Ok st.
Proof.
  induction ks as [|k ks IH]; intros Hkeys cnt c Hlen.
  - eexists. reflexivity.
  - cbn [length] in Hlen.
    destruct (Hkeys k (or_introl eq_refl)) as (def_tl & stable & Htl & Hst & Hfit).
    destruct (transition_levels_step_returns setup auto_labels cnt c k def_tl stable
                Htl Hst Hfit ltac:(lia)) as [c' Hstep].
    cbn [for_each]. rewrite Hstep.
    apply IH; [intros k' H'; apply Hkeys; right; exact H'|lia].
Qed.

(** The loop over the levels of a species gives [x_trans] one item per
    level, and [y_trans] one item per stable entry of the charge that the
    level's list of charges starts with. *)
Lemma levels_loop_counts (def_name : pystr) (stable : list DefectEntry)
    (l : list (float * list Z)) :
  dict_get def_name (stable_entries d) = Some stable ->
  (forall x cs, In (x, cs) l -> cs <> []) ->
  forall tl0,
    exists tl,
      for_each (transition_level_step charge_state d dft_chempots def_name) l tl0
      = Ok tl
      /\ length (x_trans tl) = length (x_trans tl0) + length l
      /\ length (y_trans tl)
         = length (y_trans tl0)
           + list_sum (map (first_charge_count charge_state stable) l).
Proof.
  intros Hstable. induction l as [|[x cs] l IH]; intros Hsets tl0.
  - exists tl0. cbn [for_each length map list_sum fold_right]. repeat split; lia.
  - destruct cs as [|q rest]; [destruct (Hsets x [] (or_introl eq_refl) eq_refl)|].
    assert (Hmax : exists mx, py_max_int (q :: rest) = Ok mx) by (eexists; reflexivity).
    assert (Hmin : exists mn, py_min_int (q :: rest) = Ok mn) by (eexists; reflexivity).
    destruct Hmax as [mx Hmax], Hmin as [mn Hmin].
    cbn [for_each]. unfold transition_level_step at 1, dict_item.
    rewrite Hstable. cbn [bind]. rewrite first_charge_energies_run.
    cbn [bind]. unfold tl_label. rewrite Hmax, Hmin. cbn [bind].
    match goal with
    | |- context [for_each _ l ?tl1] =>
        destruct (IH (fun x' cs' H => Hsets x' cs' (or_intror H)) tl1)
          as (tl & -> & Hx & Hy)
    end.
    exists tl. split; [reflexivity|].
    cbn [x_trans y_trans] in *.
    rewrite !length_app, ?length_map in *. cbn [length] in *.
    change (list_sum (map (first_charge_count charge_state stable) ((x, q :: rest) :: l)))
      with (length (filter (fun e => (charge_state e =? q)%Z) stable)
            + list_sum (map (first_charge_count charge_state stable) l)).
    split; lia.
Qed.

Lemma markers_step_misfit (setup : plot_setup) (auto_labels : bool)
    (cnt : nat) (c : canvas) (def_name : pystr) (def_tl : list (float * list Z))
    (stable : list DefectEntry) :
  dict_get def_name (transition_level_map d) = Some def_tl ->
  dict_get def_name (stable_entries d) = Some stable ->
  def_tl <> [] ->
  (forall x cs, In (x, cs) def_tl -> cs <> []) ->
  cnt < length (colors setup) ->
  list_sum (map (first_charge_count charge_state stable) def_tl) <> length def_tl ->
  transition_levels_step charge_state d dft_chempots setup auto_labels (cnt, c)
    def_name
  = Raise ValueError.
Proof.
  intros Htl Hstable Hne Hsets Hcnt Hmis. unfold transition_levels_step, dict_item.
  rewrite Htl. cbn [bind].
  destruct (levels_loop_counts def_name stable def_tl Hstable Hsets (mkTl [] [] [] []))
    as (tl & -> & Hx & Hy).
  cbn [bind x_trans y_trans length] in *.
  destruct (x_trans tl) as [|x0 xs] eqn:Ex.
  { destruct def_tl; [congruence|]. cbn [length] in Hx. discriminate Hx. }
  unfold nth_item.
  destruct (nth_error (colors setup) cnt) as [col|] eqn:Ecol;
    [|apply nth_error_None in Ecol; lia].
  cbn [bind].
  replace (length (x0 :: xs) =? length (y_trans tl)) with false; [reflexivity|].
  symmetry. apply Nat.eqb_neq. lia.
Qed.

End PlotReturns.

(** The markers of a species with transition levels. The loop over the
    levels gives [x_trans] one item per level, but [y_trans] one item per
    stable entry whose charge is [chargeset[0]]; when these numbers differ
    (a level without such an entry, or with two of them), [ax.plot] is
    given lists of different lengths and raises [ValueError]. *)
Theorem markers_need_one_entry_per_level
    (DefectEntry : Type) (charge_state : DefectEntry -> Z)
    (d : DefectPhaseDiagram DefectEntry (option (dict float)))
    (dft_chempots : option (dict float)) (setup : plot_setup) (auto_labels : bool)
    (cnt : nat) (c : canvas) (def_name : pystr) (def_tl : list (float * list Z))
    (stable : list DefectEntry) :
  dict_get def_name (transition_level_map d) = Some def_tl ->
  dict_get def_name (stable_entries d) = Some stable ->
  def_tl <> [] ->
  (forall x cs, In (x, cs) def_tl -> cs <> []) ->
  cnt < length (colors setup) ->
  list_sum (map (first_charge_count charge_state stable) def_tl) <> length def_tl ->
  transition_levels_step charge_state d dft_chempots setup auto_labels (cnt, c)
    def_name
  = Raise ValueError.
Proof. apply markers_step_misfit. Qed.

Lemma markers_need_one_entry_per_level_witness :
  transition_levels_step se_charge doubled_diagram None sample_setup false
    (0, mkCanvas [] []) (py "vac_1_Cd_0@0")
  = Raise ValueError.
Proof.
  apply (markers_need_one_entry_per_level SampleEntry se_charge doubled_diagram
           None sample_setup false 0 (mkCanvas [] []) (py "vac_1_Cd_0@0")
           [(1%float, [1; -1]%Z)] [vac_plus; vac_plus; vac_minus]).
  - reflexivity.
  - reflexivity.
  - discriminate.
  - intros x cs [H|[]]. inversion H. discriminate.
  - simpl. lia.
  - vm_compute. discriminate.
Defined.

(** When [_TLD_plot] comes to [return fig]. The calls on Matplotlib are
    recorded as made; of what Matplotlib checks itself, the embedding has
    the lookup of the colormap and the lengths of the lists given to
    [ax.plot] for the markers. So far as Matplotlib takes the calls,
    [_TLD_plot] raises nothing and returns the figure when
    - the diagram meets the precondition of [_get_formation_energy_lines],
    - every transition level has exactly one stable entry of the charge
      that its list of charges starts with, so that [ax.plot] is given as
      many energies as levels for the markers,
    - the colormap is registered,
    - [all_entries] is not [True],
    - the formatter with the site number returns a string for the name of
      every species, of which there are fewer than 1114015,
    - [ylim] is given, or the labels are off and the transition-level map
      is not empty,
    - the chemical potentials, when given, have a reference energy each
      when [elt_refs] is given. *)
Theorem TLD_plot_returns
    (DefectEntry : Type) (name : DefectEntry -> pystr)
    (charge_state : DefectEntry -> Z)
    (linspace_item : float -> float -> nat -> nat -> float)
    (interp_at : float -> list float -> list float -> float)
    (_format_defect_name : pystr -> bool -> call (option pystr))
    (latexify : pystr -> pystr) (colormaps : pystr -> call (float -> color))
    (rc : rcParams) (d : DefectPhaseDiagram DefectEntry (option (dict float)))
    (dft_chempots elt_refs : option (dict float)) (chempot_table : bool)
    (all_entries : AllEntries) (xlim ylim : option (float * float))
    (fermi_level : option float) (title : option pystr) (colormap : pystr)
    (auto_labels : bool) (filename : option pystr) (issued : list warning)
    (cmap : float -> color) :
  lines_ready name charge_state d dft_chempots = true ->
  (forall s def_tl stable,
     In (s, def_tl) (transition_level_map d) ->
     dict_get s (stable_entries d) = Some stable ->
     markers_fit charge_state stable def_tl = true) ->
  colormaps colormap = Returns cmap ->
  is_True all_entries = false ->
  (forall s, In s (map fst (transition_level_map d)) ->
     exists label,
       _format_defect_name (split_head 64%N s) true = Returns (Some label)) ->
  (Z.of_nat (length (transition_level_map d)) < 1114015)%Z ->
  (ylim <> None \/ (auto_labels = false /\ transition_level_map d <> [])) ->
  (forall chempots, dft_chempots = Some chempots ->
     distinct_keys (map fst chempots) = true
     /\ refs_cover elt_refs chempots = true) ->
  exists c,
    _TLD_plot name charge_state linspace_item interp_at _format_defect_name
      latexify colormaps rc d dft_chempots elt_refs chempot_table all_entries
      xlim ylim fermi_level title colormap auto_labels filename issued
    = Ok c.
Proof.
  intros Hready Hsets Hcmap Htrue Hfmt Hsmall Hylim Htable. unfold _TLD_plot.
  match goal with
  | |- context [_get_formation_energy_lines _ _ _ _ _ _ ?x] =>
      destruct (lines_ready_returns DefectEntry name charge_state _ linspace_item
                  interp_at d dft_chempots x Hready) as [l Hl];
      pose proof (lines_keys _ _ _ _ _ _ _ _ _ _ Hl) as (Hnd & Hsub & Hlen);
      pose proof (lines_range_count _ _ _ _ _ _ _ _ _ _ Hl) as Hrange;
      rewrite Hl
  end.
  cbn [bind]. rewrite Htrue. unfold _get_plot_setup. rewrite Hcmap.
  cbn [run bind].
  match goal with
  | |- context [_plot_formation_energy_lines (lines_xy l) ?cols ?lw ?ms ?a ?c0] =>
      destruct (plot_lines_run (lines_xy l) cols lw ms a c0) as (drawn & -> & _);
        [cbn [colors]; rewrite !length_map, length_seq; lia|]
  end.
  cbn [bind].
  assert (Hfaded : forall c0 lw ms,
             exists c1,
               (if is_faded all_entries
                then pl <- _plot_formation_energy_lines (lines_all_lines_xy l)
                             (repeat [0.8; 0.8; 0.8]%float
                                (length (lines_all_lines_xy l))) lw ms 0.5 c0 ;;
                     Ok (snd pl)
                else Ok c0) = Ok c1).
  { intros c0 lw ms. destruct (is_faded all_entries); [|eauto].
    destruct (plot_lines_run (lines_all_lines_xy l)
                (repeat [0.8; 0.8; 0.8]%float (length (lines_all_lines_xy l)))
                lw ms 0.5%float c0) as (drawn' & -> & _);
      [rewrite repeat_length; lia|].
    cbn [bind snd]. eauto. }
  match goal with
  | |- context [if is_faded all_entries then ?a else Ok ?c0] =>
      match a with
      | context [_plot_formation_energy_lines _ _ ?lw ?ms _ _] =>
          destruct (Hfaded c0 lw ms) as [c1 ->]
      end
  end.
  cbn [bind].
  match goal with
  | |- context [for_each (transition_levels_step _ _ _ ?setup _) _ (0, ?c0)] =>
      destruct (transition_levels_loop_returns DefectEntry charge_state d
                  dft_chempots setup auto_labels (map fst (lines_xy l)))
        with (cnt := 0) (c := c0) as [st ->]
  end.
  { intros k Hk. apply Hsub in Hk.
    destruct (dict_get_key k _ Hk) as [def_tl Htl].
    pose proof (dict_get_In _ _ _ Htl) as Hin.
    unfold lines_ready in Hready. rewrite forallb_forall in Hready.
    pose proof (Hready _ Hin) as Hsp. unfold species_ready in Hsp. cbn [fst] in Hsp.
    destruct (dict_get k (stable_entries d)) as [stable|] eqn:Hst;
      [|discriminate Hsp].
    exists def_tl, stable. split; [exact Htl|]. split; [reflexivity|].
    exact (Hsets k def_tl stable Hin Hst). }
  { cbn [colors]. rewrite !length_map, length_seq. lia. }
  cbn [bind]. unfold legend_names. rewrite Htrue.
  destruct (legend_loop_returns _format_defect_name (truth all_entries)
              (map (split_head 64%N) (map fst (lines_xy l))) [])
    as [labels Hlabels].
  { intros n Hn. apply in_map_iff in Hn. destruct Hn as (k & <- & Hk).
    apply Hfmt, Hsub. exact Hk. }
  { cbn [length]. rewrite !length_map. lia. }
  unfold _get_legends_txt. rewrite Hlabels. cbn [bind].
  assert (Hy : exists y, ylim_stage all_entries auto_labels l ylim = Ok y).
  { unfold ylim_stage. destruct ylim as [y|]; [eauto|].
    destruct Hylim as [Hy|[-> Hne]]; [congruence|]. rewrite Htrue.
    destruct (lines_y_range_vals l) as [|v t] eqn:Ev.
    - cbn [length] in Hrange. destruct (transition_level_map d) as [|item m];
        [congruence|]. cbn [map list_sum fold_right] in Hrange. lia.
    - rewrite ylim_limits_without_labels. eauto. }
  destruct Hy as [y ->]. cbn [bind].
  assert (Ht : forall c0, exists c1, table_stage dft_chempots chempot_table elt_refs c0 = Ok c1).
  { intros c0. unfold table_stage.
    destruct dft_chempots as [[|item chempots]|] eqn:Ed; [eauto| |eauto].
    destruct chempot_table; [|eauto].
    destruct (Htable _ eq_refl) as [Hdist Hcover].
    destruct (chempot_table_run (item :: chempots) (py "left") elt_refs c0
                ltac:(discriminate) Hdist Hcover) as (cells & names & -> & _).
    eauto. }
  match goal with
  | |- context [table_stage _ _ _ ?c0] => destruct (Ht c0) as [c2 ->]
  end.
  cbn [bind]. eauto.
Qed.

Lemma TLD_plot_returns_witness :
  exists c,
    run_TLD_plot labelled_diagram (Some sample_chempots) (Some sample_elt_refs)
      true (as_bool false) None false
    = Ok c.
Proof.
  apply (TLD_plot_returns SampleEntry se_name se_charge sample_linspace
           sample_interp sample_format sample_latexify sample_colormaps sample_rc
           labelled_diagram (Some sample_chempots) (Some sample_elt_refs) true
           (as_bool false) None None None None (py "Dark2") false None []
           (fun x => [x; x; x; 1%float])).
  - vm_compute. reflexivity.
  - intros s def_tl stable [Hs|[]] Hst. inversion Hs; subst.
    inversion Hst; subst. reflexivity.
  - reflexivity.
  - reflexivity.
  - intros s [<-|[]]. eexists. reflexivity.
  - simpl. lia.
  - right. split; [reflexivity|discriminate].
  - intros chempots H. inversion H. split; reflexivity.
Defined.

(** The markers need their hypothesis. With two stable entries of charge
    +1 the diagram still meets the precondition of the lines, but the one
    transition level gets two energies, and [ax.plot] raises
    [ValueError]. *)
Lemma markers_of_shared_charge_raise :
  lines_ready se_name se_charge doubled_diagram None = true
  /\ markers_fit se_charge [vac_plus; vac_plus; vac_minus] [(1%float, [1; -1]%Z)]
     = false
  /\ run_TLD_plot doubled_diagram None None false (as_bool false) None false
     = Raise ValueError.
Proof. repeat split; vm_compute; reflexivity. Qed.
